(** * The planner of [restic prune] (cmd/restic/cmd_prune.go)

    A shallow embedding of [verifyPruneOptions] and [planPrune] and the
    properties of the plan and of the statistics they produce.

    Conventions.
    - Go's [uint64] and [uint] (on 64-bit targets) are integers of [Z]
      kept in the range [0, 2^64) by [wrap64]; [int64] values are
      integers of [Z] that are converted with [wrap64] where the source
      writes [uint64(...)].
    - [restic.IDSet] and [restic.BlobSet] are Go maps used as sets: [gset].
      [map[restic.ID]packInfo] is a [gmap].
    - Progress bars and the messages written with Verbosef and Warnf are
      not part of the result and are left out. *)

From Stdlib Require Import ZArith Lia String Ascii List QArith.
From Stdlib Require Import Floats.SpecFloat.
From stdpp Require Import base decidable countable gmap sets list.

Local Open Scope Z_scope.

(** ** Machine integers *)

Definition wrap64 (z : Z) : Z := z mod 2 ^ 64.
Definition add64 (a b : Z) : Z := wrap64 (a + b).
Definition sub64 (a b : Z) : Z := wrap64 (a - b).
Definition mul64 (a b : Z) : Z := wrap64 (a * b).
Definition MaxUint64 : Z := 2 ^ 64 - 1.

#[global] Arguments wrap64 : simpl never.
#[global] Arguments add64 : simpl never.
#[global] Arguments sub64 : simpl never.
#[global] Arguments mul64 : simpl never.

(** ** Identifiers, blob handles and the index *)

(** Modelled from the spec: [restic.ID] is a cryptographic digest (an
    array of 32 bytes, declared in internal/restic); only its equality is
    used here, so the digest is read as a number. *)
Abbreviation ID := N.

(** Modelled from the spec: [restic.BlobType] (internal/restic) is the
    enumeration InvalidBlob, DataBlob, TreeBlob, NumBlobTypes in that
    order; the spec's type_tag Mixed is InvalidBlob and Unset is
    NumBlobTypes. *)
Inductive BlobType := InvalidBlob | DataBlob | TreeBlob | NumBlobTypes.

#[global] Instance BlobType_eq_dec : EqDecision BlobType.
Proof. solve_decision. Defined.

Definition BlobType_to_nat (t : BlobType) : nat :=
  match t with InvalidBlob => 0 | DataBlob => 1 | TreeBlob => 2 | NumBlobTypes => 3 end%nat.

Definition BlobType_of_nat (n : nat) : option BlobType :=
  match n with
  | 0 => Some InvalidBlob | 1 => Some DataBlob | 2 => Some TreeBlob
  | 3 => Some NumBlobTypes | _ => None
  end%nat.

#[global] Instance BlobType_countable : Countable BlobType.
Proof.
  apply (inj_countable BlobType_to_nat BlobType_of_nat).
  by intros [].
Defined.

(** Modelled from the spec: [restic.BlobHandle] is the pair of a blob's
    digest and its type, compared on both fields. *)
Record BlobHandle := mkBlobHandle { bhID : ID; bhType : BlobType }.

#[global] Instance BlobHandle_eq_dec : EqDecision BlobHandle.
Proof. solve_decision. Defined.

#[global] Instance BlobHandle_countable : Countable BlobHandle.
Proof.
  apply (inj_countable' (fun h => (bhID h, bhType h))
                        (fun p => mkBlobHandle p.1 p.2)).
  by intros [].
Defined.

(** Modelled from the spec: an indexed blob [restic.PackedBlob] carries its
    handle, its length in bytes (a Go [uint]) and the pack that holds it. *)
Record PackedBlob := mkPackedBlob {
  Handle : BlobHandle;
  Length : Z;
  PackID : ID
}.

(** ** Statistics *)

(** [blobStats]: counters of blobs (Go [uint]) *)
Module blobStats.

Record t := mk {
  Used : Z;
  Duplicate : Z;
  Unused : Z;
  Total : Z;
  Repack : Z;
  RepackRm : Z;
  Remove : Z;
  RemoveTotal : Z;
  Remain : Z;
  RemainUnused : Z
}.

Definition zero : t := mk 0 0 0 0 0 0 0 0 0 0.

Definition set_Used (v : Z) (s : t) : t :=
  mk v (Duplicate s) (Unused s) (Total s) (Repack s) (RepackRm s) (Remove s) (RemoveTotal s) (Remain s) (RemainUnused s).

Definition set_Duplicate (v : Z) (s : t) : t :=
  mk (Used s) v (Unused s) (Total s) (Repack s) (RepackRm s) (Remove s) (RemoveTotal s) (Remain s) (RemainUnused s).

Definition set_Unused (v : Z) (s : t) : t :=
  mk (Used s) (Duplicate s) v (Total s) (Repack s) (RepackRm s) (Remove s) (RemoveTotal s) (Remain s) (RemainUnused s).

Definition set_Total (v : Z) (s : t) : t :=
  mk (Used s) (Duplicate s) (Unused s) v (Repack s) (RepackRm s) (Remove s) (RemoveTotal s) (Remain s) (RemainUnused s).

Definition set_Repack (v : Z) (s : t) : t :=
  mk (Used s) (Duplicate s) (Unused s) (Total s) v (RepackRm s) (Remove s) (RemoveTotal s) (Remain s) (RemainUnused s).

Definition set_RepackRm (v : Z) (s : t) : t :=
  mk (Used s) (Duplicate s) (Unused s) (Total s) (Repack s) v (Remove s) (RemoveTotal s) (Remain s) (RemainUnused s).

Definition set_Remove (v : Z) (s : t) : t :=
  mk (Used s) (Duplicate s) (Unused s) (Total s) (Repack s) (RepackRm s) v (RemoveTotal s) (Remain s) (RemainUnused s).

Definition set_RemoveTotal (v : Z) (s : t) : t :=
  mk (Used s) (Duplicate s) (Unused s) (Total s) (Repack s) (RepackRm s) (Remove s) v (Remain s) (RemainUnused s).

Definition set_Remain (v : Z) (s : t) : t :=
  mk (Used s) (Duplicate s) (Unused s) (Total s) (Repack s) (RepackRm s) (Remove s) (RemoveTotal s) v (RemainUnused s).

Definition set_RemainUnused (v : Z) (s : t) : t :=
  mk (Used s) (Duplicate s) (Unused s) (Total s) (Repack s) (RepackRm s) (Remove s) (RemoveTotal s) (Remain s) v.

End blobStats.

(** [sizeStats]: counters of bytes (Go [uint64]) *)
Module sizeStats.

Record t := mk {
  Used : Z;
  Duplicate : Z;
  Unused : Z;
  Unref : Z;
  Total : Z;
  Repack : Z;
  RepackRm : Z;
  Remove : Z;
  RemoveTotal : Z;
  Remain : Z;
  RemainUnused : Z
}.

Definition zero : t := mk 0 0 0 0 0 0 0 0 0 0 0.

Definition set_Used (v : Z) (s : t) : t :=
  mk v (Duplicate s) (Unused s) (Unref s) (Total s) (Repack s) (RepackRm s) (Remove s) (RemoveTotal s) (Remain s) (RemainUnused s).

Definition set_Duplicate (v : Z) (s : t) : t :=
  mk (Used s) v (Unused s) (Unref s) (Total s) (Repack s) (RepackRm s) (Remove s) (RemoveTotal s) (Remain s) (RemainUnused s).

Definition set_Unused (v : Z) (s : t) : t :=
  mk (Used s) (Duplicate s) v (Unref s) (Total s) (Repack s) (RepackRm s) (Remove s) (RemoveTotal s) (Remain s) (RemainUnused s).

Definition set_Unref (v : Z) (s : t) : t :=
  mk (Used s) (Duplicate s) (Unused s) v (Total s) (Repack s) (RepackRm s) (Remove s) (RemoveTotal s) (Remain s) (RemainUnused s).

Definition set_Total (v : Z) (s : t) : t :=
  mk (Used s) (Duplicate s) (Unused s) (Unref s) v (Repack s) (RepackRm s) (Remove s) (RemoveTotal s) (Remain s) (RemainUnused s).

Definition set_Repack (v : Z) (s : t) : t :=
  mk (Used s) (Duplicate s) (Unused s) (Unref s) (Total s) v (RepackRm s) (Remove s) (RemoveTotal s) (Remain s) (RemainUnused s).

Definition set_RepackRm (v : Z) (s : t) : t :=
  mk (Used s) (Duplicate s) (Unused s) (Unref s) (Total s) (Repack s) v (Remove s) (RemoveTotal s) (Remain s) (RemainUnused s).

Definition set_Remove (v : Z) (s : t) : t :=
  mk (Used s) (Duplicate s) (Unused s) (Unref s) (Total s) (Repack s) (RepackRm s) v (RemoveTotal s) (Remain s) (RemainUnused s).

Definition set_RemoveTotal (v : Z) (s : t) : t :=
  mk (Used s) (Duplicate s) (Unused s) (Unref s) (Total s) (Repack s) (RepackRm s) (Remove s) v (Remain s) (RemainUnused s).

Definition set_Remain (v : Z) (s : t) : t :=
  mk (Used s) (Duplicate s) (Unused s) (Unref s) (Total s) (Repack s) (RepackRm s) (Remove s) (RemoveTotal s) v (RemainUnused s).

Definition set_RemainUnused (v : Z) (s : t) : t :=
  mk (Used s) (Duplicate s) (Unused s) (Unref s) (Total s) (Repack s) (RepackRm s) (Remove s) (RemoveTotal s) (Remain s) v.

End sizeStats.

(** [packStats]: counters of pack files (Go [uint]) *)
Module packStats.

Record t := mk {
  Used : Z;
  Unused : Z;
  PartlyUsed : Z;
  Unref : Z;
  Total : Z;
  Keep : Z;
  Repack : Z;
  Remove : Z;
  RemoveTotal : Z
}.

Definition zero : t := mk 0 0 0 0 0 0 0 0 0.

Definition set_Used (v : Z) (s : t) : t :=
  mk v (Unused s) (PartlyUsed s) (Unref s) (Total s) (Keep s) (Repack s) (Remove s) (RemoveTotal s).

Definition set_Unused (v : Z) (s : t) : t :=
  mk (Used s) v (PartlyUsed s) (Unref s) (Total s) (Keep s) (Repack s) (Remove s) (RemoveTotal s).

Definition set_PartlyUsed (v : Z) (s : t) : t :=
  mk (Used s) (Unused s) v (Unref s) (Total s) (Keep s) (Repack s) (Remove s) (RemoveTotal s).

Definition set_Unref (v : Z) (s : t) : t :=
  mk (Used s) (Unused s) (PartlyUsed s) v (Total s) (Keep s) (Repack s) (Remove s) (RemoveTotal s).

Definition set_Total (v : Z) (s : t) : t :=
  mk (Used s) (Unused s) (PartlyUsed s) (Unref s) v (Keep s) (Repack s) (Remove s) (RemoveTotal s).

Definition set_Keep (v : Z) (s : t) : t :=
  mk (Used s) (Unused s) (PartlyUsed s) (Unref s) (Total s) v (Repack s) (Remove s) (RemoveTotal s).

Definition set_Repack (v : Z) (s : t) : t :=
  mk (Used s) (Unused s) (PartlyUsed s) (Unref s) (Total s) (Keep s) v (Remove s) (RemoveTotal s).

Definition set_Remove (v : Z) (s : t) : t :=
  mk (Used s) (Unused s) (PartlyUsed s) (Unref s) (Total s) (Keep s) (Repack s) v (RemoveTotal s).

Definition set_RemoveTotal (v : Z) (s : t) : t :=
  mk (Used s) (Unused s) (PartlyUsed s) (Unref s) (Total s) (Keep s) (Repack s) (Remove s) v.

End packStats.

(** [pruneStats] *)
Record pruneStats := mkPruneStats {
  MessageType : string;
  Blobs : blobStats.t;
  Size : sizeStats.t;
  Packs : packStats.t
}.

(** The zero value of [pruneStats], which the named result [stats] of
    [planPrune] starts from. *)
Definition zeroStats : pruneStats :=
  mkPruneStats EmptyString blobStats.zero sizeStats.zero packStats.zero.

Definition onBlobs (f : blobStats.t -> blobStats.t) (s : pruneStats) : pruneStats :=
  mkPruneStats (MessageType s) (f (Blobs s)) (Size s) (Packs s).

Definition onSize (f : sizeStats.t -> sizeStats.t) (s : pruneStats) : pruneStats :=
  mkPruneStats (MessageType s) (Blobs s) (f (Size s)) (Packs s).

Definition onPacks (f : packStats.t -> packStats.t) (s : pruneStats) : pruneStats :=
  mkPruneStats (MessageType s) (Blobs s) (Size s) (f (Packs s)).

Definition set_MessageType (m : string) (s : pruneStats) : pruneStats :=
  mkPruneStats m (Blobs s) (Size s) (Packs s).

(** ** Errors *)

(** Modelled from the spec: the errors of internal/errors.  [Fatal] and
    [Fatalf] build the fatal errors that end the command with a non-zero
    exit status; [Fatalf] keeps its format and its arguments as text.
    [Plain] stands for the error of a collaborator that is passed on
    unchanged. *)
Inductive error :=
  | Fatal (msg : string)
  | Fatalf (format : string) (args : list string)
  | Plain (msg : string).

Definition errorText (e : error) : string :=
  match e with
  | Fatal m => m
  | Fatalf f _ => f
  | Plain m => m
  end.

Definition errorIndexIncomplete : error := Fatal "index is not complete".
Definition errorPacksMissing : error := Fatal "packs from index missing in repo".
Definition errorSizeNotMatching : error :=
  Fatal "pack size does not match calculated size from index".

(** ** The plan and the planner's working data *)

(** [prunePlan] *)
Record prunePlan := mkPrunePlan {
  removePacksFirst : gset ID;   (* packs to remove first (unreferenced packs) *)
  repackPacks : gset ID;        (* packs to repack *)
  keepBlobs : gset BlobHandle;  (* blobs to keep during repacking *)
  removePacks : gset ID;        (* packs to remove *)
  ignorePacks : gset ID         (* packs to ignore when rebuilding the index *)
}.

(** The zero value of [prunePlan]: the named result [plan] before the
    final assignments; every set is a nil map. *)
Definition zeroPlan : prunePlan := mkPrunePlan ∅ ∅ ∅ ∅ ∅.

(** [packInfo], the type local to [planPrune] *)
Module packInfo.

Record t := mk {
  usedBlobs : Z;
  unusedBlobs : Z;
  duplicateBlobs : Z;
  usedSize : Z;
  unusedSize : Z;
  tpe : BlobType
}.

(** The zero value, which reading a missing key of a Go map gives. *)
Definition zero : t := mk 0 0 0 0 0 InvalidBlob.

Definition set_tpe (v : BlobType) (p : t) : t :=
  mk (usedBlobs p) (unusedBlobs p) (duplicateBlobs p) (usedSize p) (unusedSize p) v.

End packInfo.

(** [packInfoWithID] *)
Record packInfoWithID := mkPackInfoWithID {
  pwID : ID;
  pwInfo : packInfo.t
}.

(** The part of the repository that [planPrune] reads: the enumeration
    [repo.Index().Each(ctx)] of the indexed blobs, the map
    [repo.Index().PackSize(ctx, true)] from packs to header sizes ([int64])
    and the pack files that [repo.List(ctx, restic.PackFile, fn)] hands to
    its callback, in that order, with their sizes ([int64]). *)
Record Repository := mkRepository {
  IndexEach : list PackedBlob;
  IndexPackSize : gmap ID Z;
  ListPackFiles : list (ID * Z)
}.

(** [PruneOptions].  [maxUnusedBytes] is set by [verifyPruneOptions], which
    [runPrune] calls before it plans. *)
Record PruneOptions := mkPruneOptions {
  DryRun : bool;
  MaxUnused : string;
  maxUnusedBytes : Z -> Z;
  MaxRepackSize : string;
  MaxRepackBytes : Z;
  RepackCachableOnly : bool
}.

(** ** Pass 1: which blobs are used, duplicates or unused *)

(** The variables of the first loop: the set [usedBlobs] that the loop
    empties, [keepBlobs], [duplicateBlobs] and [stats]. *)
Record classified := mkClassified {
  c_usedBlobs : gset BlobHandle;
  c_keepBlobs : gset BlobHandle;
  c_duplicateBlobs : gset BlobHandle;
  c_stats : pruneStats
}.

(** The body of [for blob := range repo.Index().Each(ctx)], first loop. *)
Definition classifyBlob (s : classified) (blob : PackedBlob) : classified :=
  let bh := Handle blob in
  let size := wrap64 (Length blob) in
  if decide (bh ∈ c_usedBlobs s) then
    (* used blob, move to keepBlobs *)
    mkClassified (c_usedBlobs s ∖ {[bh]}) ({[bh]} ∪ c_keepBlobs s) (c_duplicateBlobs s)
      (onBlobs (fun b => blobStats.set_Used (add64 (blobStats.Used b) 1) b)
        (onSize (fun z => sizeStats.set_Used (add64 (sizeStats.Used z) size) z) (c_stats s)))
  else if decide (bh ∈ c_keepBlobs s) then
    (* duplicate blob *)
    mkClassified (c_usedBlobs s) (c_keepBlobs s) ({[bh]} ∪ c_duplicateBlobs s)
      (onBlobs (fun b => blobStats.set_Duplicate (add64 (blobStats.Duplicate b) 1) b)
        (onSize (fun z => sizeStats.set_Duplicate (add64 (sizeStats.Duplicate z) size) z) (c_stats s)))
  else
    mkClassified (c_usedBlobs s) (c_keepBlobs s) (c_duplicateBlobs s)
      (onBlobs (fun b => blobStats.set_Unused (add64 (blobStats.Unused b) 1) b)
        (onSize (fun z => sizeStats.set_Unused (add64 (sizeStats.Unused z) size) z) (c_stats s))).

Definition classifyBlobs (usedBlobs : gset BlobHandle) (blobs : list PackedBlob) : classified :=
  foldl classifyBlob (mkClassified usedBlobs ∅ ∅ zeroStats) blobs.

(** ** Pass 2: the [packInfo] of every pack of the index *)

(** [indexPack[pid] = packInfo{tpe: restic.NumBlobTypes, usedSize: uint64(hdrSize)}]
    for every entry of the map of header sizes. *)
Definition seedIndexPack (packSize : gmap ID Z) : gmap ID packInfo.t :=
  (fun hdrSize => packInfo.mk 0 0 0 (wrap64 hdrSize) 0 NumBlobTypes) <$> packSize.

(** The body of the second loop over the indexed blobs. *)
Definition accountBlob (keepBlobs duplicateBlobs : gset BlobHandle)
    (indexPack : gmap ID packInfo.t) (blob : PackedBlob) : gmap ID packInfo.t :=
  let ip := default packInfo.zero (indexPack !! PackID blob) in
  (* Set blob type if not yet set *)
  let ip := if decide (packInfo.tpe ip = NumBlobTypes)
            then packInfo.set_tpe (bhType (Handle blob)) ip else ip in
  (* mark mixed packs with "Invalid blob type" *)
  let ip := if decide (packInfo.tpe ip ≠ bhType (Handle blob))
            then packInfo.set_tpe InvalidBlob ip else ip in
  let bh := Handle blob in
  let size := wrap64 (Length blob) in
  let ip :=
    if decide (bh ∈ duplicateBlobs) then
      packInfo.mk (packInfo.usedBlobs ip) (packInfo.unusedBlobs ip)
        (add64 (packInfo.duplicateBlobs ip) 1)
        (add64 (packInfo.usedSize ip) size) (packInfo.unusedSize ip) (packInfo.tpe ip)
    else if decide (bh ∈ keepBlobs) then
      packInfo.mk (add64 (packInfo.usedBlobs ip) 1) (packInfo.unusedBlobs ip)
        (packInfo.duplicateBlobs ip)
        (add64 (packInfo.usedSize ip) size) (packInfo.unusedSize ip) (packInfo.tpe ip)
    else
      packInfo.mk (packInfo.usedBlobs ip) (add64 (packInfo.unusedBlobs ip) 1)
        (packInfo.duplicateBlobs ip)
        (packInfo.usedSize ip) (add64 (packInfo.unusedSize ip) size) (packInfo.tpe ip) in
  <[PackID blob := ip]> indexPack.

Definition buildIndexPack (keepBlobs duplicateBlobs : gset BlobHandle)
    (repo : Repository) : gmap ID packInfo.t :=
  foldl (accountBlob keepBlobs duplicateBlobs)
        (seedIndexPack (IndexPackSize repo)) (IndexEach repo).

(** ** Reconciliation with the pack files of the backend, and the plan *)

(** The variables that [planPrune] updates from the listing of the pack
    files on: [indexPack], the pack sets, [repackCandidates],
    [repackAllPacksWithDuplicates] and [stats]. *)
Record planner := mkPlanner {
  indexPack : gmap ID packInfo.t;
  v_removePacksFirst : gset ID;
  v_removePacks : gset ID;
  v_repackPacks : gset ID;
  repackCandidates : list packInfoWithID;
  repackAllPacksWithDuplicates : bool;
  v_ignorePacks : gset ID;
  stats : pruneStats
}.

Definition set_indexPack (x : gmap ID packInfo.t) (v : planner) : planner :=
  mkPlanner x (v_removePacksFirst v) (v_removePacks v) (v_repackPacks v)
    (repackCandidates v) (repackAllPacksWithDuplicates v) (v_ignorePacks v) (stats v).

Definition set_removePacksFirst (x : gset ID) (v : planner) : planner :=
  mkPlanner (indexPack v) x (v_removePacks v) (v_repackPacks v)
    (repackCandidates v) (repackAllPacksWithDuplicates v) (v_ignorePacks v) (stats v).

Definition set_removePacks (x : gset ID) (v : planner) : planner :=
  mkPlanner (indexPack v) (v_removePacksFirst v) x (v_repackPacks v)
    (repackCandidates v) (repackAllPacksWithDuplicates v) (v_ignorePacks v) (stats v).

Definition set_repackPacks (x : gset ID) (v : planner) : planner :=
  mkPlanner (indexPack v) (v_removePacksFirst v) (v_removePacks v) x
    (repackCandidates v) (repackAllPacksWithDuplicates v) (v_ignorePacks v) (stats v).

Definition set_repackCandidates (x : list packInfoWithID) (v : planner) : planner :=
  mkPlanner (indexPack v) (v_removePacksFirst v) (v_removePacks v) (v_repackPacks v)
    x (repackAllPacksWithDuplicates v) (v_ignorePacks v) (stats v).

Definition set_repackAllPacksWithDuplicates (x : bool) (v : planner) : planner :=
  mkPlanner (indexPack v) (v_removePacksFirst v) (v_removePacks v) (v_repackPacks v)
    (repackCandidates v) x (v_ignorePacks v) (stats v).

Definition set_ignorePacks (x : gset ID) (v : planner) : planner :=
  mkPlanner (indexPack v) (v_removePacksFirst v) (v_removePacks v) (v_repackPacks v)
    (repackCandidates v) (repackAllPacksWithDuplicates v) x (stats v).

Definition onStats (f : pruneStats -> pruneStats) (v : planner) : planner :=
  mkPlanner (indexPack v) (v_removePacksFirst v) (v_removePacks v) (v_repackPacks v)
    (repackCandidates v) (repackAllPacksWithDuplicates v) (v_ignorePacks v) (f (stats v)).

(** [p.usedBlobs == 0 && p.duplicateBlobs == 0] *)
Definition unneeded (p : packInfo.t) : bool :=
  (packInfo.usedBlobs p =? 0) && (packInfo.duplicateBlobs p =? 0).

(** [stats.Blobs.Remove += p.unusedBlobs; stats.Size.Remove += p.unusedSize] *)
Definition addRemove (p : packInfo.t) (s : pruneStats) : pruneStats :=
  onSize (fun z => sizeStats.set_Remove (add64 (sizeStats.Remove z) (packInfo.unusedSize p)) z)
    (onBlobs (fun b => blobStats.set_Remove (add64 (blobStats.Remove b) (packInfo.unusedBlobs p)) b) s).

(** The closure [keep]. *)
Definition keep (p : packInfo.t) (v : planner) : planner :=
  let v := onStats (onPacks (fun k => packStats.set_Keep (add64 (packStats.Keep k) 1) k)) v in
  if 0 <? packInfo.duplicateBlobs p
  then set_repackAllPacksWithDuplicates false v
  else v.

(** The [switch] headed "statistics" of the callback. *)
Definition countPack (p : packInfo.t) (s : pruneStats) : pruneStats :=
  if unneeded p then
    onPacks (fun k => packStats.set_Unused (add64 (packStats.Unused k) 1) k) s
  else if packInfo.unusedBlobs p =? 0 then
    onPacks (fun k => packStats.set_Used (add64 (packStats.Used k) 1) k) s
  else
    onPacks (fun k => packStats.set_PartlyUsed (add64 (packStats.PartlyUsed k) 1) k) s.

(** The [switch] headed "decide what to do" of the callback. *)
Definition decidePack (opts : PruneOptions) (id : ID) (p : packInfo.t) (v : planner) : planner :=
  if unneeded p then
    (* All blobs in pack are no longer used => remove pack! *)
    onStats (addRemove p) (set_removePacks ({[id]} ∪ v_removePacks v) v)
  else if RepackCachableOnly opts && bool_decide (packInfo.tpe p = DataBlob) then
    (* if this is a data pack and --repack-cacheable-only is set => keep pack! *)
    keep p v
  else if (packInfo.unusedBlobs p =? 0) && (packInfo.duplicateBlobs p =? 0)
          && negb (bool_decide (packInfo.tpe p = InvalidBlob)) then
    (* All blobs in pack are used and not duplicates/mixed => keep pack! *)
    keep p v
  else
    (* all other packs are candidates for repacking *)
    set_repackCandidates (repackCandidates v ++ [mkPackInfoWithID id p]) v.

(** The size test of the callback:
    [p.unusedSize+p.usedSize != uint64(packSize) &&
     !(p.usedBlobs == 0 && p.duplicateBlobs == 0)]. *)
Definition sizeMismatch (p : packInfo.t) (packSize : Z) : bool :=
  negb (add64 (packInfo.unusedSize p) (packInfo.usedSize p) =? wrap64 packSize)
  && negb (unneeded p).

(** The callback given to [repo.List]: the planner's variables after the
    call and the error it returns. *)
Definition listPack (opts : PruneOptions) (v : planner) (f : ID * Z) : planner * option error :=
  let id := f.1 in
  let packSize := f.2 in
  match indexPack v !! id with
  | None =>
      (* Pack was not referenced in index and is not used  => immediately remove! *)
      (onStats (onSize (fun z => sizeStats.set_Unref (add64 (sizeStats.Unref z) (wrap64 packSize)) z))
         (set_removePacksFirst ({[id]} ∪ v_removePacksFirst v) v), None)
  | Some p =>
      if sizeMismatch p packSize then
        (* Pack size does not fit and pack is needed => error *)
        (v, Some errorSizeNotMatching)
      else
        let v := onStats (countPack p) v in
        let v := decidePack opts id p v in
        (set_indexPack (delete id (indexPack v)) v, None)
  end.

(** [repo.List]: the callback runs on the files in turn until it returns
    an error, which [List] returns. *)
Fixpoint listPacks (opts : PruneOptions) (v : planner) (files : list (ID * Z))
    : planner * option error :=
  match files with
  | [] => (v, None)
  | f :: files' =>
      match listPack opts v f with
      | (v', Some err) => (v', Some err)
      | (v', None) => listPacks opts v' files'
      end
  end.

(** The body of [for id, p := range indexPack] over the packs left in
    [indexPack], which are missing from the backend. *)
Definition forgetMissing (v : planner) (e : ID * packInfo.t) : planner :=
  if unneeded e.2 then
    set_indexPack (delete e.1 (indexPack v))
      (onStats (addRemove e.2) (set_ignorePacks ({[e.1]} ∪ v_ignorePacks v) v))
  else v.

(** The loop over the entries [entries] of [indexPack] in the order in
    which the range statement visits them. *)
Definition missingPacksIn (entries : list (ID * packInfo.t)) (v : planner) : planner :=
  foldl forgetMissing v entries.

Definition missingPacks (v : planner) : planner :=
  missingPacksIn (map_to_list (indexPack v)) v.

(** The comparison function given to [sort.Slice], on the two [packInfo]
    that it reads. *)
Definition less (pi pj : packInfo.t) : bool :=
  if (0 <? packInfo.duplicateBlobs pi) && (packInfo.duplicateBlobs pj =? 0) then true
  else if (0 <? packInfo.duplicateBlobs pj) && (packInfo.duplicateBlobs pi =? 0) then false
  else if negb (bool_decide (packInfo.tpe pi = DataBlob))
          && bool_decide (packInfo.tpe pj = DataBlob) then true
  else if negb (bool_decide (packInfo.tpe pj = DataBlob))
          && bool_decide (packInfo.tpe pi = DataBlob) then false
  else mul64 (packInfo.unusedSize pi) (packInfo.usedSize pj)
       >? mul64 (packInfo.unusedSize pj) (packInfo.usedSize pi).

Definition lessCandidate (a b : packInfoWithID) : bool := less (pwInfo a) (pwInfo b).

(** The closure [repack]. *)
Definition repack (id : ID) (p : packInfo.t) (v : planner) : planner :=
  let v := set_repackPacks ({[id]} ∪ v_repackPacks v) v in
  let v := onStats (onBlobs (fun b => blobStats.set_Repack
             (add64 (blobStats.Repack b)
                (add64 (add64 (packInfo.unusedBlobs p) (packInfo.duplicateBlobs p))
                       (packInfo.usedBlobs p))) b)) v in
  let v := onStats (onSize (fun z => sizeStats.set_Repack
             (add64 (sizeStats.Repack z)
                (add64 (packInfo.unusedSize p) (packInfo.usedSize p))) z)) v in
  let v := onStats (onBlobs (fun b => blobStats.set_RepackRm
             (add64 (blobStats.RepackRm b) (packInfo.unusedBlobs p)) b)) v in
  onStats (onSize (fun z => sizeStats.set_RepackRm
             (add64 (sizeStats.RepackRm z) (packInfo.unusedSize p)) z)) v.

(** [reachedUnusedSizeAfter] of the selection loop. *)
Definition reachedUnusedSizeAfter (maxUnusedSizeAfter : Z) (v : planner) : bool :=
  sub64 (sub64 (sizeStats.Unused (Size (stats v))) (sizeStats.Remove (Size (stats v))))
        (sizeStats.RepackRm (Size (stats v)))
  <? maxUnusedSizeAfter.

(** [reachedRepackSize] of the selection loop. *)
Definition reachedRepackSize (opts : PruneOptions) (v : planner) (p : packInfo.t) : bool :=
  if 0 <? MaxRepackBytes opts then
    add64 (add64 (sizeStats.Repack (Size (stats v))) (packInfo.unusedSize p))
          (packInfo.usedSize p)
    >? MaxRepackBytes opts
  else false.

(** The body of [for _, p := range repackCandidates]. *)
Definition selectPack (opts : PruneOptions) (maxUnusedSizeAfter : Z)
    (v : planner) (c : packInfoWithID) : planner :=
  let p := pwInfo c in
  if reachedRepackSize opts v p then
    keep p v
  else if (0 <? packInfo.duplicateBlobs p) || negb (bool_decide (packInfo.tpe p = DataBlob)) then
    (* repacking duplicates/non-data is only limited by repackSize *)
    repack (pwID c) p v
  else if reachedUnusedSizeAfter maxUnusedSizeAfter v then
    (* for all other packs stop repacking if tolerated unused size is reached. *)
    keep p v
  else
    repack (pwID c) p v.

Definition selectPacks (opts : PruneOptions) (maxUnusedSizeAfter : Z)
    (v : planner) (candidates : list packInfoWithID) : planner :=
  foldl (selectPack opts maxUnusedSizeAfter) v candidates.

(** [uint(len(s))] of a set of pack ids. *)
Definition len (s : gset ID) : Z := wrap64 (Z.of_nat (size s)).

(** "if all duplicates are repacked, print out correct statistics" *)
Definition creditDuplicates (v : planner) : pruneStats :=
  if repackAllPacksWithDuplicates v then
    onSize (fun z => sizeStats.set_RepackRm
              (add64 (sizeStats.RepackRm z) (sizeStats.Duplicate z)) z)
      (onBlobs (fun b => blobStats.set_RepackRm
              (add64 (blobStats.RepackRm b) (blobStats.Duplicate b)) b) (stats v))
  else stats v.

(** "calculate totals for statistics": the assignments in their order. *)
Definition totals (v : planner) (s : pruneStats) : pruneStats :=
  let s := set_MessageType "summary" s in
  let s := onBlobs (fun b => blobStats.set_Total
             (add64 (add64 (blobStats.Used b) (blobStats.Unused b)) (blobStats.Duplicate b)) b) s in
  let s := onBlobs (fun b => blobStats.set_RemoveTotal
             (add64 (blobStats.Remove b) (blobStats.RepackRm b)) b) s in
  let s := onBlobs (fun b => blobStats.set_Remain
             (sub64 (blobStats.Total b) (blobStats.RemoveTotal b)) b) s in
  let s := onSize (fun z => sizeStats.set_Total
             (add64 (add64 (add64 (sizeStats.Used z) (sizeStats.Duplicate z))
                           (sizeStats.Unused z)) (sizeStats.Unref z)) z) s in
  let s := onSize (fun z => sizeStats.set_Unused
             (add64 (sizeStats.Duplicate z) (sizeStats.Unused z)) z) s in
  let s := onSize (fun z => sizeStats.set_RemoveTotal
             (add64 (add64 (sizeStats.Remove z) (sizeStats.RepackRm z)) (sizeStats.Unref z)) z) s in
  let s := onSize (fun z => sizeStats.set_Remain
             (sub64 (sizeStats.Total z) (sizeStats.RemoveTotal z)) z) s in
  let s := onSize (fun z => sizeStats.set_RemainUnused
             (sub64 (sub64 (sizeStats.Unused z) (sizeStats.Remove z)) (sizeStats.RepackRm z)) z) s in
  let s := onPacks (packStats.set_Unref (len (v_removePacksFirst v))) s in
  let s := onPacks (fun k => packStats.set_Total
             (add64 (add64 (add64 (packStats.Used k) (packStats.PartlyUsed k))
                           (packStats.Unused k)) (packStats.Unref k)) k) s in
  let s := onPacks (packStats.set_Repack (len (v_repackPacks v))) s in
  let s := onPacks (packStats.set_Remove (len (v_removePacks v))) s in
  onPacks (fun k => packStats.set_RemoveTotal
             (add64 (packStats.Unref k) (packStats.Remove k)) k) s.

(** The planner's variables when the listing starts. *)
Definition startPlanner (indexPack : gmap ID packInfo.t) (s : pruneStats) : planner :=
  mkPlanner indexPack ∅ ∅ ∅ [] true ∅ s.

Section Planner.

(** [sort.Slice] of Go's standard library.  Its contract is that it
    rearranges the slice by the comparison function; the order of elements
    that compare equal is not specified. *)
Variable sortSlice : forall A : Type, (A -> A -> bool) -> list A -> list A.

(** The state after [repo.List] has returned, with the error it returned;
    meaningful when the first pass has found every used blob. *)
Definition reconcile (opts : PruneOptions) (repo : Repository)
    (usedBlobs : gset BlobHandle) : planner * option error :=
  let c := classifyBlobs usedBlobs (IndexEach repo) in
  listPacks opts
    (startPlanner (buildIndexPack (c_keepBlobs c) (c_duplicateBlobs c) repo) (c_stats c))
    (ListPackFiles repo).

(** The candidates are sorted and selected, and the totals computed. *)
Definition selectAndTotal (opts : PruneOptions) (v : planner) : planner :=
  (* calculate limit for number of unused bytes in the repo after repacking *)
  let maxUnusedSizeAfter := maxUnusedBytes opts (sizeStats.Used (Size (stats v))) in
  let v := set_repackCandidates (sortSlice _ lessCandidate (repackCandidates v)) v in
  let v := selectPacks opts maxUnusedSizeAfter v (repackCandidates v) in
  onStats (fun _ => totals v (creditDuplicates v)) v.

(** [planPrune]: the plan, the statistics and the error that it returns. *)
Definition planPrune (opts : PruneOptions) (repo : Repository)
    (usedBlobs : gset BlobHandle) : prunePlan * pruneStats * option error :=
  let c := classifyBlobs usedBlobs (IndexEach repo) in
  (* Check if all used blobs have been found in index *)
  if negb (Nat.eqb (size (c_usedBlobs c)) 0) then
    (zeroPlan, c_stats c, Some errorIndexIncomplete)
  else
    match reconcile opts repo usedBlobs with
    | (v, Some err) => (zeroPlan, stats v, Some err)
    | (v, None) =>
        (* At this point indexPacks contains only missing packs! *)
        let v := missingPacks v in
        if negb (Nat.eqb (size (indexPack v)) 0) then
          (zeroPlan, stats v, Some errorPacksMissing)
        else
          let v := selectAndTotal opts v in
          (mkPrunePlan (v_removePacksFirst v) (v_repackPacks v) (c_keepBlobs c)
             (v_removePacks v) (v_ignorePacks v),
           stats v, None)
    end.

End Planner.

(** Insertion sort as in Go's [sort] package ([insertionSort]), which
    [sort.Slice] runs on short slices: each element in turn moves from the
    end of the sorted prefix towards the front as long as it is less than
    the element before it.  [insertBack] works on the reversed prefix. *)
Fixpoint insertBack {A : Type} (lt : A -> A -> bool) (x : A) (revPrefix : list A) : list A :=
  match revPrefix with
  | [] => [x]
  | y :: rest => if lt x y then y :: insertBack lt x rest else x :: y :: rest
  end.

Definition insertionSort (A : Type) (lt : A -> A -> bool) (l : list A) : list A :=
  rev (foldl (fun revPrefix x => insertBack lt x revPrefix) [] l).

(** ** The options: [verifyPruneOptions] *)

Definition set_MaxRepackBytes (x : Z) (o : PruneOptions) : PruneOptions :=
  mkPruneOptions (DryRun o) (MaxUnused o) (maxUnusedBytes o) (MaxRepackSize o) x
    (RepackCachableOnly o).

Definition set_maxUnusedBytes (f : Z -> Z) (o : PruneOptions) : PruneOptions :=
  mkPruneOptions (DryRun o) (MaxUnused o) f (MaxRepackSize o) (MaxRepackBytes o)
    (RepackCachableOnly o).

(** [float64] is IEEE 754 binary64: [spec_float] with a mantissa of 53 bits
    and the exponent 1024 for the infinities.  The operations round to the
    nearest number, ties to even, as Go's do. *)
Definition float64_of_Z (z : Z) : spec_float := binary_normalize 53 1024 z 0 false.
Definition float64_div : spec_float -> spec_float -> spec_float := SFdiv 53 1024.
Definition float64_sub : spec_float -> spec_float -> spec_float := SFsub 53 1024.
Definition float64_mul : spec_float -> spec_float -> spec_float := SFmul 53 1024.

(** The integer part of a number, towards zero. *)
Definition truncate (f : spec_float) : option Z :=
  match f with
  | S754_zero _ => Some 0
  | S754_finite s m e =>
      let a := if 0 <=? e then Z.pos m * 2 ^ e else Z.pos m / 2 ^ (- e) in
      Some (if s then - a else a)
  | S754_infinity _ | S754_nan => None
  end.

(** Go's strings are sequences of bytes.  [strings.TrimSpace] reads them as
    UTF-8 and removes the leading and the trailing white space, as Unicode
    defines it: [strings.TrimFunc(s, unicode.IsSpace)].  These are, from
    Go's standard library, [utf8.DecodeRuneInString],
    [utf8.DecodeLastRuneInString] and [utf8.RuneStart] of [unicode/utf8],
    [unicode.IsSpace], and [TrimLeftFunc], [TrimRightFunc] and [TrimFunc] of
    [strings]; [strings.HasSuffix] and [strings.TrimSuffix] compare bytes. *)
Definition byte (c : ascii) : Z := Z.of_N (N_of_ascii c).

Definition RuneError : Z := 0xFFFD.
Definition RuneSelf : Z := 0x80.
Definition UTFMax : nat := 4.

(** The tables [first] and [acceptRanges]: for the leading byte of a
    sequence of more than one byte, the length of the sequence and the range
    of its second byte; [None] for the bytes that lead no such sequence. *)
Definition first (s0 : Z) : option (nat * Z * Z) :=
  if (0xC2 <=? s0) && (s0 <=? 0xDF) then Some (2%nat, 0x80, 0xBF)
  else if s0 =? 0xE0 then Some (3%nat, 0xA0, 0xBF)
  else if (0xE1 <=? s0) && (s0 <=? 0xEC) then Some (3%nat, 0x80, 0xBF)
  else if s0 =? 0xED then Some (3%nat, 0x80, 0x9F)
  else if (0xEE <=? s0) && (s0 <=? 0xEF) then Some (3%nat, 0x80, 0xBF)
  else if s0 =? 0xF0 then Some (4%nat, 0x90, 0xBF)
  else if (0xF1 <=? s0) && (s0 <=? 0xF3) then Some (4%nat, 0x80, 0xBF)
  else if s0 =? 0xF4 then Some (4%nat, 0x80, 0x8F)
  else None.

(** [b < lo || hi < b]: the byte is outside the range; the bytes of a
    sequence after the second are in [locb, hicb], 0x80 to 0xBF. *)
Definition outside (lo hi b : Z) : bool := (b <? lo) || (hi <? b).

(** [utf8.DecodeRuneInString]: the first rune of [s] and its width in bytes;
    [(RuneError, 1)] for an encoding that is not valid. *)
Definition DecodeRuneInString (s : string) : Z * nat :=
  match s with
  | EmptyString => (RuneError, 0%nat)
  | String c0 t0 =>
      let s0 := byte c0 in
      if s0 <? RuneSelf then (s0, 1%nat)
      else
        match first s0 with
        | None => (RuneError, 1%nat)
        | Some (sz, lo, hi) =>
            if (String.length s <? sz)%nat then (RuneError, 1%nat)
            else
              match t0 with
              | EmptyString => (RuneError, 1%nat)
              | String c1 t1 =>
                  let s1 := byte c1 in
                  if outside lo hi s1 then (RuneError, 1%nat)
                  else if (sz <=? 2)%nat then
                    (Z.lor (Z.shiftl (Z.land s0 0x1F) 6) (Z.land s1 0x3F), 2%nat)
                  else
                    match t1 with
                    | EmptyString => (RuneError, 1%nat)
                    | String c2 t2 =>
                        let s2 := byte c2 in
                        if outside 0x80 0xBF s2 then (RuneError, 1%nat)
                        else if (sz <=? 3)%nat then
                          (Z.lor (Z.lor (Z.shiftl (Z.land s0 0x0F) 12)
                                        (Z.shiftl (Z.land s1 0x3F) 6))
                                 (Z.land s2 0x3F), 3%nat)
                        else
                          match t2 with
                          | EmptyString => (RuneError, 1%nat)
                          | String c3 _ =>
                              let s3 := byte c3 in
                              if outside 0x80 0xBF s3 then (RuneError, 1%nat)
                              else
                                (Z.lor (Z.lor (Z.lor (Z.shiftl (Z.land s0 0x07) 18)
                                                     (Z.shiftl (Z.land s1 0x3F) 12))
                                              (Z.shiftl (Z.land s2 0x3F) 6))
                                       (Z.land s3 0x3F), 4%nat)
                          end
                    end
              end
        end
  end.

(** [s[i]], with 0 where the index is out of range (the callers index
    within the string). *)
Definition byteAt (s : string) (i : nat) : Z :=
  match String.get i s with
  | Some c => byte c
  | None => 0
  end.

(** [utf8.RuneStart] *)
Definition RuneStart (b : Z) : bool := negb (Z.land b 0xC0 =? 0x80).

(** The loop [for start--; start >= lim; start-- { if RuneStart(s[start])
    { break } }] of [DecodeLastRuneInString], entered with [start] already
    decremented; it runs three times at most. *)
Fixpoint findStart (fuel : nat) (s : string) (lim start : Z) : Z :=
  match fuel with
  | O => start
  | S fuel =>
      if start <? lim then start
      else if RuneStart (byteAt s (Z.to_nat start)) then start
      else findStart fuel s lim (start - 1)
  end.

(** [utf8.DecodeLastRuneInString]: the last rune of [s] and its width. *)
Definition DecodeLastRuneInString (s : string) : Z * nat :=
  let end_ := String.length s in
  if Nat.eqb end_ 0 then (RuneError, 0%nat)
  else
    let start := (end_ - 1)%nat in
    let r := byteAt s start in
    if r <? RuneSelf then (r, 1%nat)
    else
      (* guard against O(n^2) behavior when traversing backwards through
         strings with long sequences of invalid UTF-8 *)
      let lim := Z.max 0 (Z.of_nat end_ - Z.of_nat UTFMax) in
      let start := findStart (S UTFMax) s lim (Z.of_nat start - 1) in
      let start := Z.to_nat (Z.max 0 start) in
      let (r, size) := DecodeRuneInString (substring start (end_ - start) s) in
      if negb (Nat.eqb (start + size) end_) then (RuneError, 1%nat)
      else (r, size).

(** [unicode.IsSpace] *)
Definition IsSpace (r : Z) : bool :=
  if r <=? 0xFF then
    ((0x09 <=? r) && (r <=? 0x0D)) || (r =? 0x20) || (r =? 0x85) || (r =? 0xA0)
  else
    (r =? 0x1680) || ((0x2000 <=? r) && (r <=? 0x200A))
    || ((0x2028 <=? r) && (r <=? 0x2029)) || (r =? 0x202F) || (r =? 0x205F)
    || (r =? 0x3000).

(** [strings.TrimLeftFunc(s, f)]: [s] from its first rune on that does not
    satisfy [f], as [for i, r := range s] finds it; the empty string if
    there is none.  [skip] counts the bytes of the current rune that are
    still to pass. *)
Fixpoint trimLeftFrom (f : Z -> bool) (skip : nat) (s : string) : string :=
  match s with
  | EmptyString => EmptyString
  | String _ t =>
      match skip with
      | S skip => trimLeftFrom f skip t
      | O =>
          let (r, size) := DecodeRuneInString s in
          if f r then trimLeftFrom f (size - 1) t else s
      end
  end.

Definition TrimLeftFunc (s : string) (f : Z -> bool) : string := trimLeftFrom f 0 s.

(** [lastIndexFunc(s, f, false)] of [strings], from the index [i] down:
    the index of the last rune that does not satisfy [f]; [None] is -1. *)
Fixpoint lastIndexFrom (fuel : nat) (s : string) (f : Z -> bool) (i : nat) : option nat :=
  match fuel with
  | O => None
  | S fuel =>
      if Nat.eqb i 0 then None
      else
        let (r, size) := DecodeLastRuneInString (substring 0 i s) in
        let i := (i - size)%nat in
        if negb (f r) then Some i else lastIndexFrom fuel s f i
  end.

Definition lastIndexFunc (s : string) (f : Z -> bool) : option nat :=
  lastIndexFrom (String.length s) s f (String.length s).

(** [strings.TrimRightFunc] *)
Definition TrimRightFunc (s : string) (f : Z -> bool) : string :=
  let i :=
    match lastIndexFunc s f with
    | Some i =>
        if RuneSelf <=? byteAt s i
        then (i + (DecodeRuneInString (substring i (String.length s - i) s)).2)%nat
        else S i
    | None => 0%nat
    end in
  substring 0 i s.

(** [strings.TrimFunc] *)
Definition TrimFunc (s : string) (f : Z -> bool) : string :=
  TrimRightFunc (TrimLeftFunc s f) f.

Definition TrimSpace (s : string) : string := TrimFunc s IsSpace.

Definition HasSuffix (s suffix : string) : bool :=
  Nat.leb (String.length suffix) (String.length s)
  && String.eqb (substring (String.length s - String.length suffix)
                           (String.length suffix) s) suffix.

Definition TrimSuffix (s suffix : string) : string :=
  if HasSuffix s suffix then substring 0 (String.length s - String.length suffix) s else s.

(** The special values that [strconv.ParseFloat] reads before it tries a
    number: NaN and the signed infinities, in any case of the letters. *)
Definition lower (c : ascii) : ascii :=
  let n := nat_of_ascii c in
  if Nat.leb 65 n && Nat.leb n 90 then ascii_of_nat (n + 32) else c.

Fixpoint toLower (s : string) : string :=
  match s with
  | EmptyString => EmptyString
  | String c s' => String (lower c) (toLower s')
  end.

Definition special (s : string) : option spec_float :=
  let t := toLower s in
  if String.eqb t "nan" then Some S754_nan
  else if String.eqb t "inf" || String.eqb t "+inf"
          || String.eqb t "infinity" || String.eqb t "+infinity" then Some (S754_infinity false)
  else if String.eqb t "-inf" || String.eqb t "-infinity" then Some (S754_infinity true)
  else None.

Section Options.

(** [strconv.ParseFloat(s, 64)] on the strings that are not special values:
    the decimal and hexadecimal numbers, rounded, or an error. *)
Variable parseNumber : string -> spec_float * option error.

(** Modelled from the spec: [parseSizeStr] (cmd/restic) reads a number of
    bytes with an optional suffix k/K, m/M, g/G or t/T into an [int64], or
    fails. *)
Variable parseSizeStr : string -> Z * option error.

(** The conversion [uint64(f)] of a [float64] whose integer part is not a
    [uint64]; Go leaves its result to the implementation. *)
Variable uint64OutOfRange : spec_float -> Z.

Definition ParseFloat (s : string) : spec_float * option error :=
  match special s with
  | Some f => (f, None)
  | None => parseNumber s
  end.

(** [uint64(f)] *)
Definition uint64_of_float64 (f : spec_float) : Z :=
  match truncate f with
  | Some z => if (0 <=? z) && (z <? 2 ^ 64) then z else uint64OutOfRange f
  | None => uint64OutOfRange f
  end.

(** The closure that [verifyPruneOptions] installs for a percentage [p]:
    [uint64(p / (100 - p) * float64(used))]. *)
Definition percentageOfUsed (p : spec_float) (used : Z) : Z :=
  uint64_of_float64
    (float64_mul (float64_div p (float64_sub (float64_of_Z 100) p)) (float64_of_Z used)).

(** [verifyPruneOptions]: the options after the call and the error that it
    returns. *)
Definition verifyPruneOptions (opts : PruneOptions) : PruneOptions * option error :=
  let sized :=
    if (0 <? String.length (MaxRepackSize opts))%nat then
      match parseSizeStr (MaxRepackSize opts) with
      | (_, Some err) => (opts, Some err)
      | (size, None) => (set_MaxRepackBytes (wrap64 size) opts, None)
      end
    else (opts, None) in
  match sized with
  | (opts, Some err) => (opts, Some err)
  | (opts, None) =>
      let maxUnused := TrimSpace (MaxUnused opts) in
      if String.eqb maxUnused EmptyString then
        (opts, Some (Fatalf "invalid value for --max-unused: %q" [MaxUnused opts]))
      (* parse MaxUnused either as unlimited, a percentage, or an absolute number of bytes *)
      else if String.eqb maxUnused "unlimited" then
        (set_maxUnusedBytes (fun used => MaxUint64) opts, None)
      else if HasSuffix maxUnused "%" then
        let maxUnused := TrimSuffix maxUnused "%" in
        match ParseFloat maxUnused with
        | (_, Some err) =>
            (opts, Some (Fatalf "invalid percentage %q passed for --max-unused: %v"
                           [MaxUnused opts; errorText err]))
        | (p, None) =>
            if SFltb p (float64_of_Z 0) then
              (opts, Some (Fatal "percentage for --max-unused must be positive"))
            else if SFleb (float64_of_Z 100) p then
              (opts, Some (Fatal "percentage for --max-unused must be below 100%"))
            else
              (set_maxUnusedBytes (percentageOfUsed p) opts, None)
        end
      else
        match parseSizeStr maxUnused with
        | (_, Some err) =>
            (opts, Some (Fatalf "invalid number of bytes %q for --max-unused: %v"
                           [MaxUnused opts; errorText err]))
        | (size, None) => (set_maxUnusedBytes (fun used => wrap64 size) opts, None)
        end
  end.

End Options.

(** ** [shortenStatus] *)

(** [shortenStatus(maxLength, s)]; a string is its sequence of bytes, which
    [len] counts and a slice expression cuts.  [None] is the run-time
    panic of the slice expression [s[:maxLength]] for a negative
    [maxLength]. *)
Definition shortenStatus (maxLength : Z) (s : string) : option string :=
  if Z.of_nat (String.length s) <=? maxLength then Some s
  else if maxLength <? 3 then
    if maxLength <? 0 then None
    else Some (substring 0 (Z.to_nat maxLength) s)
  else Some (String.append (substring 0 (Z.to_nat (maxLength - 3)) s) "...").

(** ** Carrying out the plan: [runPrune], [runPruneWithRepo], [doPrune] *)

(** Modelled from the spec: [restic.FileType] (internal/restic), of which
    the pack files and the index files occur here. *)
Inductive FileType := PackFile | IndexFile.

(** Modelled from the spec: the fields of [GlobalOptions]
    (cmd/restic/global.go) that this file reads; [JSON] alone decides a
    result, the others choose messages. *)
Record GlobalOptions := mkGlobalOptions {
  JSON : bool;
  verbosity : Z;
  Quiet : bool
}.

(** The calls to the collaborators that open, lock, read and change the
    repository, with their arguments, in the order in which a run makes
    them. *)
Inductive call :=
  | OpenRepository
  | LockRepoExclusive
  | UnlockRepo
  | DisableAutoIndexUpdate
  | LoadIndex
  | GetUsedBlobs (ignoreSnapshots : gset ID)
  | EncodeStats (s : pruneStats)
  | DeleteFiles (fileList : gset ID) (fileType : FileType)
  | Repack (packs : gset ID) (kept : gset BlobHandle)
  | Save (packBlacklist : gset ID) (extraObsolete : list ID)
  | DeleteFilesChecked (fileList : gset ID) (fileType : FileType).

(** What the collaborators return; a run calls each of them at most once.
    [getUsedBlobs] is of this file, but [restic.ForAllSnapshots] and
    [restic.FindUsedBlobs], which do its work, are not: its result is taken
    as given.  [DeleteFiles] returns nothing. *)
Record Collaborators := mkCollaborators {
  openRepositoryErr : option error;
  lockRepoExclusiveErr : option error;
  loadIndexErr : option error;
  usedBlobsFound : gset BlobHandle * option error;
  encodeErr : option error;
  repackErr : option error;
  saveResult : gset ID * option error;
  deleteFilesCheckedErr : option error
}.

(** [printPruneStats]: the error that it returns; the lines that it prints
    are left out. *)
Definition printPruneStats (w : Collaborators) (gopts : GlobalOptions) (s : pruneStats)
    : list call * option error :=
  if JSON gopts then ([EncodeStats s], encodeErr w) else ([], None).

(** [rebuildIndexFiles] *)
Definition rebuildIndexFiles (w : Collaborators) (removePacks : gset ID)
    (extraObsolete : list ID) : list call * option error :=
  match saveResult w with
  | (_, Some err) => ([Save removePacks extraObsolete], Some err)
  | (obsoleteIndexes, None) =>
      ([Save removePacks extraObsolete; DeleteFilesChecked obsoleteIndexes IndexFile],
       deleteFilesCheckedErr w)
  end.

(** [doPrune]: the calls that it makes and the error that it returns.
    [removePacks'] and [ignorePacks'] are [plan.removePacks] and
    [plan.ignorePacks] as the function changes them.  The sets of the plan
    are the maps that [planPrune] has made (none is nil). *)
Definition doPrune (w : Collaborators) (opts : PruneOptions) (plan : prunePlan)
    : list call * option error :=
  if DryRun opts then
    (* Always quit here if DryRun was set! *)
    ([], None)
  else
    (* unreferenced packs can be safely deleted first *)
    let calls :=
      if negb (Nat.eqb (size (removePacksFirst plan)) 0)
      then [DeleteFiles (removePacksFirst plan) PackFile] else [] in
    let repacked :=
      if negb (Nat.eqb (size (repackPacks plan)) 0) then
        match repackErr w with
        | Some err =>
            (calls ++ [Repack (repackPacks plan) (keepBlobs plan)], removePacks plan,
             Some (Fatalf "%s" [errorText err]))
        | None =>
            (* Also remove repacked packs *)
            (calls ++ [Repack (repackPacks plan) (keepBlobs plan)],
             removePacks plan ∪ repackPacks plan, None)
        end
      else (calls, removePacks plan, None) in
    match repacked with
    | (calls, _, Some err) => (calls, Some err)
    | (calls, removePacks', None) =>
        let ignorePacks' :=
          if Nat.eqb (size (ignorePacks plan)) 0 then removePacks'
          else ignorePacks plan ∪ removePacks' in
        let rebuilt :=
          if negb (Nat.eqb (size ignorePacks') 0) then
            match rebuildIndexFiles w ignorePacks' [] with
            | (cs, Some err) => (calls ++ cs, Some (Fatalf "%s" [errorText err]))
            | (cs, None) => (calls ++ cs, None)
            end
          else (calls, None) in
        match rebuilt with
        | (calls, Some err) => (calls, Some err)
        | (calls, None) =>
            if negb (Nat.eqb (size removePacks') 0)
            then (calls ++ [DeleteFiles removePacks' PackFile], None)
            else (calls, None)
        end
    end.

Section Run.

Variable sortSlice : forall A : Type, (A -> A -> bool) -> list A -> list A.
Variable parseNumber : string -> spec_float * option error.
Variable parseSizeStr : string -> Z * option error.
Variable uint64OutOfRange : spec_float -> Z.

(** [runPruneWithRepo].  [repo] is what [planPrune] reads of the
    repository once the index is loaded. *)
Definition runPruneWithRepo (w : Collaborators) (opts : PruneOptions)
    (gopts : GlobalOptions) (repo : Repository) (ignoreSnapshots : gset ID)
    : list call * option error :=
  (* we do not need index updates while pruning! *)
  let calls := [DisableAutoIndexUpdate; LoadIndex] in
  match loadIndexErr w with
  | Some err => (calls, Some err)
  | None =>
      let calls := calls ++ [GetUsedBlobs ignoreSnapshots] in
      match usedBlobsFound w with
      | (_, Some err) => (calls, Some err)
      | (usedBlobs, None) =>
          match planPrune sortSlice opts repo usedBlobs with
          | (_, _, Some err) => (calls, Some err)
          | (plan, stats, None) =>
              match printPruneStats w gopts stats with
              | (cs, Some err) => (calls ++ cs, Some err)
              | (cs, None) =>
                  let calls := calls ++ cs in
                  match doPrune w opts plan with
                  | (cs, err) => (calls ++ cs, err)
                  end
              end
          end
      end
  end.

(** [runPrune].  The deferred [unlockRepo] runs when the function returns,
    also when the lock was not obtained. *)
Definition runPrune (w : Collaborators) (opts : PruneOptions) (gopts : GlobalOptions)
    (repo : Repository) : list call * option error :=
  match verifyPruneOptions parseNumber parseSizeStr uint64OutOfRange opts with
  | (_, Some err) => ([], Some err)
  | (opts, None) =>
      match openRepositoryErr w with
      | Some err => ([OpenRepository], Some err)
      | None =>
          match lockRepoExclusiveErr w with
          | Some err => ([OpenRepository; LockRepoExclusive; UnlockRepo], Some err)
          | None =>
              match runPruneWithRepo w opts gopts repo ∅ with
              | (cs, err) => ([OpenRepository; LockRepoExclusive] ++ cs ++ [UnlockRepo], err)
              end
          end
      end
  end.

End Run.

(** ** A sample repository *)

Definition dataHandle (n : N) : BlobHandle := mkBlobHandle n DataBlob.

(** Pack 1 holds the used blobs 1 and 2, pack 2 a second copy of blob 1,
    pack 3 and pack 4 an unused blob each.  Pack 4 is missing from the
    backend and pack 9 is on the backend only. *)
Definition sampleRepo : Repository :=
  mkRepository
    [mkPackedBlob (dataHandle 1) 10 1%N; mkPackedBlob (dataHandle 2) 20 1%N;
     mkPackedBlob (dataHandle 1) 10 2%N; mkPackedBlob (dataHandle 3) 30 3%N;
     mkPackedBlob (dataHandle 4) 40 4%N]
    (list_to_map [(1%N, 5); (2%N, 5); (3%N, 5); (4%N, 5)])
    [(1%N, 35); (2%N, 15); (3%N, 35); (9%N, 100)].

Definition sampleUsed : gset BlobHandle := {[dataHandle 1; dataHandle 2]}.


(** The options after [--max-unused unlimited]. *)
Definition sampleOpts : PruneOptions :=
  mkPruneOptions false "unlimited" (fun _ => MaxUint64) EmptyString 0 false.

(** The planner's variables on the sample repository when the listing of
    the pack files starts. *)
Definition samplePlanner : planner :=
  let c := classifyBlobs sampleUsed (IndexEach sampleRepo) in
  startPlanner (buildIndexPack (c_keepBlobs c) (c_duplicateBlobs c) sampleRepo) (c_stats c).

(** Two data packs with one used and one unused blob of ten bytes each:
    neither is less than the other for [less].  [files] is the listing of
    the backend. *)
Definition tiedRepo (files : list (ID * Z)) : Repository :=
  mkRepository
    [mkPackedBlob (dataHandle 1) 10 1%N; mkPackedBlob (dataHandle 3) 10 1%N;
     mkPackedBlob (dataHandle 2) 10 2%N; mkPackedBlob (dataHandle 4) 10 2%N]
    (list_to_map [(1%N, 5); (2%N, 5)])
    files.

(** The options after [--max-unused 0 --max-repack-size 30]. *)
Definition cappedOpts : PruneOptions :=
  mkPruneOptions false "0" (fun _ => 0) "30" 30 false.

(** The options after [--max-unused 0], without [--max-repack-size]. *)
Definition zeroOpts : PruneOptions :=
  mkPruneOptions false "0" (fun _ => 0) EmptyString 0 false.

(** The options after [--max-unused unlimited --repack-cacheable-only]. *)
Definition cacheableOpts : PruneOptions :=
  mkPruneOptions false "unlimited" (fun _ => MaxUint64) EmptyString 0 true.

(** Two data packs without duplicates whose sizes do not fit 32 bits: the
    first has one used byte and 2^32 unused bytes, the second 2^32 used
    bytes and one unused byte. *)
Definition mostlyUnused : packInfo.t := packInfo.mk 1 1 0 1 (2 ^ 32) DataBlob.
Definition mostlyUsed : packInfo.t := packInfo.mk 1 1 0 (2 ^ 32) 1 DataBlob.

(** Collaborators that all succeed; the index files 7 and 8 are obsolete
    after the index is saved. *)
Definition sampleCollaborators : Collaborators :=
  mkCollaborators None None None (sampleUsed, None) None None ({[7%N; 8%N]}, None) None.

(** Global options without [--json]. *)
Definition sampleGlobalOptions : GlobalOptions := mkGlobalOptions false 1 false.

(** The plan that [planPrune] makes for the sample repository. *)
Definition samplePlan : prunePlan :=
  mkPrunePlan {[9%N]} {[1%N; 2%N]} sampleUsed {[3%N]} {[4%N]}.

(** Readers for the examples.  [digits] reads a string of decimal digits;
    [sampleParseNumber] and [sampleParseSizeStr] read such a string as
    [strconv.ParseFloat] and [parseSizeStr] do and refuse every other
    string; [sampleOutOfRange] is the conversion of amd64. *)
Fixpoint digitsFrom (acc : Z) (s : string) : option Z :=
  match s with
  | EmptyString => Some acc
  | String c s' =>
      let n := nat_of_ascii c in
      if Nat.leb 48 n && Nat.leb n 57
      then digitsFrom (10 * acc + Z.of_nat (n - 48)) s'
      else None
  end.

Definition digits (s : string) : option Z :=
  match s with
  | EmptyString => None
  | _ => digitsFrom 0 s
  end.

Definition sampleParseNumber (s : string) : spec_float * option error :=
  match digits s with
  | Some n => (float64_of_Z n, None)
  | None => (S754_zero false, Some (Plain "invalid syntax"))
  end.

Definition sampleParseSizeStr (s : string) : Z * option error :=
  match digits s with
  | Some n => (n, None)
  | None => (0, Some (Plain "invalid syntax"))
  end.

Definition sampleOutOfRange (f : spec_float) : Z := 2 ^ 63.

(** The options before [--max-unused NaN%] and [--max-unused 50%] are
    verified. *)
Definition nanOpts : PruneOptions :=
  mkPruneOptions false "NaN%" (fun _ => 0) EmptyString 0 false.

Definition halfOpts : PruneOptions :=
  mkPruneOptions false "50%" (fun _ => 0) EmptyString 0 false.

(** ** Notions used to state the properties *)

(** Only the six counters of the classification are set by the loop. *)
Definition classificationOnly (st : pruneStats) : Prop :=
  st = mkPruneStats EmptyString
         (blobStats.mk (blobStats.Used (Blobs st)) (blobStats.Duplicate (Blobs st))
            (blobStats.Unused (Blobs st)) 0 0 0 0 0 0 0)
         (sizeStats.mk (sizeStats.Used (Size st)) (sizeStats.Duplicate (Size st))
            (sizeStats.Unused (Size st)) 0 0 0 0 0 0 0 0)
         packStats.zero.

(** The number of elements of a list that satisfy a test. *)
Fixpoint countZ {A : Type} (f : A -> bool) (l : list A) : Z :=
  match l with
  | [] => 0
  | x :: l' => (if f x then 1 else 0) + countZ f l'
  end.

(** The blob is counted as a duplicate, or as a used blob, of pack [id]. *)
Definition countsDuplicate (duplicateBlobs : gset BlobHandle) (id : ID) (b : PackedBlob) : bool :=
  bool_decide (PackID b = id) && bool_decide (Handle b ∈ duplicateBlobs).

Definition countsUsed (keepBlobs duplicateBlobs : gset BlobHandle) (id : ID) (b : PackedBlob) : bool :=
  bool_decide (PackID b = id) && negb (bool_decide (Handle b ∈ duplicateBlobs))
  && bool_decide (Handle b ∈ keepBlobs).

(** [indexPack[id]] as Go reads it: the zero value for a missing key. *)
Definition entry (m : gmap ID packInfo.t) (id : ID) : packInfo.t :=
  default packInfo.zero (m !! id).

(** The state after the callback has seen a pack that the index does not
    know, and a pack of the index that passes the size test. *)
Definition listedUnknown (v : planner) (id : ID) (packSize : Z) : planner :=
  onStats (onSize (fun z => sizeStats.set_Unref (add64 (sizeStats.Unref z) (wrap64 packSize)) z))
    (set_removePacksFirst ({[id]} ∪ v_removePacksFirst v) v).

Definition listedKnown (opts : PruneOptions) (v : planner) (id : ID) (p : packInfo.t) : planner :=
  let v' := decidePack opts id p (onStats (countPack p) v) in
  set_indexPack (delete id (indexPack v')) v'.

(** The unused blobs and bytes of the unneeded packs among [entries]. *)
Definition forgottenBlobs (entries : list (ID * packInfo.t)) : Z :=
  foldr (fun e a => (if unneeded e.2 then packInfo.unusedBlobs e.2 else 0) + a) 0 entries.

Definition forgottenBytes (entries : list (ID * packInfo.t)) : Z :=
  foldr (fun e a => (if unneeded e.2 then packInfo.unusedSize e.2 else 0) + a) 0 entries.

(** The removal counters are in the range of their type. *)
Definition removeInRange (s : pruneStats) : Prop :=
  wrap64 (blobStats.Remove (Blobs s)) = blobStats.Remove (Blobs s)
  /\ wrap64 (sizeStats.Remove (Size s)) = sizeStats.Remove (Size s).

(** The options when [verifyPruneOptions] has read [--max-repack-size]. *)
Definition sizedOptions (parseSizeStr : string -> Z * option error)
    (opts : PruneOptions) : PruneOptions :=
  if (0 <? String.length (MaxRepackSize opts))%nat
  then set_MaxRepackBytes (wrap64 (parseSizeStr (MaxRepackSize opts)).1) opts
  else opts.

(** The ratio of the unused to the used bytes of a pack that has used
    bytes. *)
Definition ratio (p : packInfo.t) : Q :=
  Qmake (packInfo.unusedSize p) (Z.to_pos (packInfo.usedSize p)).

(** The sizes of a pack fit 32 bits. *)
Definition sizesFit32 (p : packInfo.t) : Prop :=
  0 <= packInfo.usedSize p < 2 ^ 32 /\ 0 <= packInfo.unusedSize p < 2 ^ 32.

(** The blobs that the index places in pack [id], in the order of the
    enumeration, the sum of their lengths and their types. *)
Definition blobsOfPack (id : ID) (blobs : list PackedBlob) : list PackedBlob :=
  filter (fun b => PackID b = id) blobs.

Definition sumLengths (blobs : list PackedBlob) : Z :=
  foldr (fun b a => Length b + a) 0 blobs.

Definition typesOfPack (id : ID) (blobs : list PackedBlob) : list BlobType :=
  (fun b => bhType (Handle b)) <$> blobsOfPack id blobs.

(** The type of a pack after the second loop has seen one more of its
    blobs, of type [t]: "Set blob type if not yet set" and "mark mixed
    packs with Invalid blob type". *)
Definition tagBlob (tpe t : BlobType) : BlobType :=
  let tpe := if decide (tpe = NumBlobTypes) then t else tpe in
  if decide (tpe <> t) then InvalidBlob else tpe.

(** The two cases of the decision switch of the listing that keep a pack
    with a used or a duplicate blob: a data pack under
    [--repack-cacheable-only], and a pack without unused and duplicate
    blobs that is not mixed. *)
Definition keptAsIs (opts : PruneOptions) (p : packInfo.t) : bool :=
  (RepackCachableOnly opts && bool_decide (packInfo.tpe p = DataBlob))
  || ((packInfo.unusedBlobs p =? 0) && (packInfo.duplicateBlobs p =? 0)
      && negb (bool_decide (packInfo.tpe p = InvalidBlob))).

(** The calls that change the data of the repository. *)
Definition mutates (c : call) : bool :=
  match c with
  | DeleteFiles _ _ | Repack _ _ | Save _ _ | DeleteFilesChecked _ _ => true
  | _ => false
  end.

(** The packs that the statistics switch of the listing has counted, and
    the packs that its decision switch has kept, marked for removal or made
    candidates. *)
Definition packsSeen (s : pruneStats) : Z :=
  packStats.Used (Packs s) + packStats.PartlyUsed (Packs s) + packStats.Unused (Packs s).

Definition packsDecided (v : planner) : Z :=
  packStats.Keep (Packs (stats v)) + Z.of_nat (size (v_removePacks v))
  + Z.of_nat (length (repackCandidates v)).

(** What the listing keeps true: every pack counted is decided, no pack is
    a candidate twice, and the packs decided have left [indexPack]. *)
Definition listingInvariant (v : planner) : Prop :=
  wrap64 (packsSeen (stats v)) = wrap64 (packsDecided v)
  /\ NoDup (pwID <$> repackCandidates v)
  /\ forall id, (id ∈ v_removePacks v) \/ (id ∈ pwID <$> repackCandidates v) ->
       indexPack v !! id = None.

(** The six counters that the first pass sets. *)
Definition classification (s : pruneStats) : (Z * Z * Z) * (Z * Z * Z) :=
  ((blobStats.Used (Blobs s), blobStats.Duplicate (Blobs s), blobStats.Unused (Blobs s)),
   (sizeStats.Used (Size s), sizeStats.Duplicate (Size s), sizeStats.Unused (Size s))).

(** The runes of a string, as [for _, r := range s] yields them: the
    code points that its bytes encode in UTF-8, with [RuneError] for each
    byte that is part of no valid encoding. *)
Fixpoint runesFrom (skip : nat) (s : string) : list Z :=
  match s with
  | EmptyString => []
  | String _ t =>
      match skip with
      | S skip => runesFrom skip t
      | O => let (r, size) := DecodeRuneInString s in r :: runesFrom (size - 1) t
      end
  end.

Definition runes (s : string) : list Z := runesFrom 0 s.

(** The string is empty or holds white space only. *)
Definition blank (s : string) : bool := forallb IsSpace (runes s).

(** The conditions of the selection loop, in the words of its description:
    the cap on the repacked bytes would be exceeded; the candidate is one
    that is repacked whatever the unused space; the target for the unused
    space is met; and the candidate is to be repacked. *)
Definition wouldExceedRepack (opts : PruneOptions) (v : planner) (p : packInfo.t) : Prop :=
  0 < MaxRepackBytes opts
  /\ MaxRepackBytes opts
     < add64 (add64 (sizeStats.Repack (Size (stats v))) (packInfo.unusedSize p))
             (packInfo.usedSize p).

Definition alwaysRepacked (p : packInfo.t) : Prop :=
  0 < packInfo.duplicateBlobs p \/ packInfo.tpe p ≠ DataBlob.

Definition targetReached (maxUnusedSizeAfter : Z) (v : planner) : Prop :=
  sub64 (sub64 (sizeStats.Unused (Size (stats v))) (sizeStats.Remove (Size (stats v))))
        (sizeStats.RepackRm (Size (stats v)))
  < maxUnusedSizeAfter.

Definition toRepack (opts : PruneOptions) (maxUnusedSizeAfter : Z)
    (v : planner) (p : packInfo.t) : Prop :=
  ~ wouldExceedRepack opts v p
  /\ (alwaysRepacked p \/ ~ targetReached maxUnusedSizeAfter v).

(** What a step of the selection loop from [v] to [next] shows of a
    candidate that is kept: the set of packs to repack and the counters of
    repacking are as before and one more pack is counted as kept. *)
Definition candidateKept (v next : planner) : Prop :=
  v_repackPacks next = v_repackPacks v
  /\ sizeStats.Repack (Size (stats next)) = sizeStats.Repack (Size (stats v))
  /\ sizeStats.RepackRm (Size (stats next)) = sizeStats.RepackRm (Size (stats v))
  /\ blobStats.Repack (Blobs (stats next)) = blobStats.Repack (Blobs (stats v))
  /\ blobStats.RepackRm (Blobs (stats next)) = blobStats.RepackRm (Blobs (stats v))
  /\ packStats.Keep (Packs (stats next)) = add64 (packStats.Keep (Packs (stats v))) 1.

(** And of a candidate that is repacked: its id has entered the set of packs
    to repack, its bytes and blobs are counted as repacked and its unused
    bytes and blobs as removed by repacking (in uint64), and no pack is
    counted as kept. *)
Definition candidateRepacked (c : packInfoWithID) (v next : planner) : Prop :=
  let p := pwInfo c in
  v_repackPacks next = {[pwID c]} ∪ v_repackPacks v
  /\ sizeStats.Repack (Size (stats next))
     = add64 (sizeStats.Repack (Size (stats v)))
             (add64 (packInfo.unusedSize p) (packInfo.usedSize p))
  /\ sizeStats.RepackRm (Size (stats next))
     = add64 (sizeStats.RepackRm (Size (stats v))) (packInfo.unusedSize p)
  /\ blobStats.Repack (Blobs (stats next))
     = add64 (blobStats.Repack (Blobs (stats v)))
             (add64 (add64 (packInfo.unusedBlobs p) (packInfo.duplicateBlobs p))
                    (packInfo.usedBlobs p))
  /\ blobStats.RepackRm (Blobs (stats next))
     = add64 (blobStats.RepackRm (Blobs (stats v))) (packInfo.unusedBlobs p)
  /\ packStats.Keep (Packs (stats next)) = packStats.Keep (Packs (stats v)).

(** * Properties *)

(** ** Machine arithmetic *)

Lemma wrap64_range z : 0 <= wrap64 z < 2 ^ 64.
Proof. unfold wrap64. apply Z.mod_pos_bound. lia. Qed.

Lemma wrap64_small z : 0 <= z < 2 ^ 64 -> wrap64 z = z.
Proof. intros H. unfold wrap64. apply Z.mod_small. exact H. Qed.

Lemma wrap64_idemp z : wrap64 (wrap64 z) = wrap64 z.
Proof. apply wrap64_small, wrap64_range. Qed.

Lemma add64_wrap_l a b : add64 (wrap64 a) b = add64 a b.
Proof. unfold add64, wrap64. by rewrite Zplus_mod_idemp_l. Qed.

Lemma add64_wrap_r a b : add64 a (wrap64 b) = add64 a b.
Proof. unfold add64, wrap64. by rewrite Zplus_mod_idemp_r. Qed.

Lemma add64_swap a x y : add64 (add64 a x) y = add64 (add64 a y) x.
Proof.
  unfold add64, wrap64. rewrite !Zplus_mod_idemp_l. f_equal. lia.
Qed.

Lemma add64_assoc a x y : add64 (add64 a x) y = add64 a (x + y).
Proof.
  unfold add64, wrap64. rewrite Zplus_mod_idemp_l. f_equal. lia.
Qed.

(** ** Pass 1 *)

Section Classification.

Implicit Types (s : classified) (blobs : list PackedBlob) (h : BlobHandle).

(** A handle is still in [usedBlobs] after the loop when it was there
    before and no blob of the enumeration carries it. *)
Lemma classify_used blobs : forall s h,
  h ∈ c_usedBlobs (foldl classifyBlob s blobs)
  <-> h ∈ c_usedBlobs s /\ h ∉ Handle <$> blobs.
Proof.
  induction blobs as [|b blobs IH]; intros s h; cbn [foldl].
  - rewrite fmap_nil, elem_of_nil. tauto.
  - rewrite IH, fmap_cons, not_elem_of_cons. unfold classifyBlob.
    repeat case_decide; simpl; set_solver.
Qed.

(** Handles move from [usedBlobs] to [keepBlobs] and are never lost. *)
Lemma classify_keeps blobs : forall s h,
  h ∈ c_usedBlobs s \/ h ∈ c_keepBlobs s ->
  h ∈ c_usedBlobs (foldl classifyBlob s blobs)
  \/ h ∈ c_keepBlobs (foldl classifyBlob s blobs).
Proof.
  induction blobs as [|b blobs IH]; intros s h H; simpl; [done|].
  apply IH. unfold classifyBlob.
  repeat case_decide; simpl; [|done..].
  destruct (decide (h = Handle b)); set_solver.
Qed.

(** Every duplicate is a kept handle. *)
Lemma classify_duplicates blobs : forall s,
  c_duplicateBlobs s ⊆ c_keepBlobs s ->
  c_duplicateBlobs (foldl classifyBlob s blobs)
  ⊆ c_keepBlobs (foldl classifyBlob s blobs).
Proof.
  induction blobs as [|b blobs IH]; intros s H; simpl; [done|].
  apply IH. unfold classifyBlob.
  repeat case_decide; simpl; set_solver.
Qed.

Lemma classify_stats blobs : forall s,
  classificationOnly (c_stats s) ->
  classificationOnly (c_stats (foldl classifyBlob s blobs)).
Proof.
  induction blobs as [|b blobs IH]; intros s H; simpl; [done|].
  apply IH. unfold classifyBlob, classificationOnly in *.
  repeat case_decide; simpl; rewrite H; reflexivity.
Qed.

Lemma classifyBlobs_complete (usedBlobs : gset BlobHandle) blobs :
  size (c_usedBlobs (classifyBlobs usedBlobs blobs)) = 0%nat
  <-> forall h, h ∈ usedBlobs -> h ∈ Handle <$> blobs.
Proof.
  rewrite size_empty_iff, elem_of_equiv_empty. unfold classifyBlobs. split.
  - intros He h Hh. destruct (decide (h ∈ Handle <$> blobs)) as [|Hn]; [done|].
    exfalso. apply (He h). apply classify_used. by split.
  - intros Ha h Hh. apply classify_used in Hh as [Hu Hn]. simpl in Hu. auto.
Qed.

Lemma classifyBlobs_keep (usedBlobs : gset BlobHandle) blobs h :
  size (c_usedBlobs (classifyBlobs usedBlobs blobs)) = 0%nat ->
  h ∈ usedBlobs -> h ∈ c_keepBlobs (classifyBlobs usedBlobs blobs).
Proof.
  intros He Hh. rewrite size_empty_iff, elem_of_equiv_empty in He.
  destruct (classify_keeps blobs (mkClassified usedBlobs ∅ ∅ zeroStats) h) as [H|H];
    [by left | | exact H].
  exfalso. by apply (He h).
Qed.

Lemma classifyBlobs_duplicates (usedBlobs : gset BlobHandle) blobs :
  c_duplicateBlobs (classifyBlobs usedBlobs blobs)
  ⊆ c_keepBlobs (classifyBlobs usedBlobs blobs).
Proof. apply classify_duplicates. done. Qed.

End Classification.

(** ** Pass 2 *)

Lemma countZ_bounds {A : Type} (f : A -> bool) l :
  0 <= countZ f l <= Z.of_nat (length l).
Proof. induction l as [|x l IH]; simpl; [lia|]. destruct (f x); lia. Qed.

Lemma countZ_zero {A : Type} (f : A -> bool) l x :
  countZ f l = 0 -> x ∈ l -> f x = false.
Proof.
  induction l as [|y l IH]; simpl; intros Hc Hx.
  - by apply elem_of_nil in Hx.
  - pose proof (countZ_bounds f l). apply elem_of_cons in Hx as [->|Hx].
    + destruct (f y); [lia|done].
    + apply IH; [|done]. destruct (f y); lia.
Qed.

Section Accounting.

Variables keepBlobs duplicateBlobs : gset BlobHandle.

Lemma accountBlob_usedBlobs m b id :
  packInfo.usedBlobs (entry (accountBlob keepBlobs duplicateBlobs m b) id)
  = if countsUsed keepBlobs duplicateBlobs id b then add64 (packInfo.usedBlobs (entry m id)) 1
    else packInfo.usedBlobs (entry m id).
Proof.
  unfold accountBlob, countsUsed, entry.
  destruct (decide (PackID b = id)) as [->|Hne].
  - rewrite lookup_insert_eq, bool_decide_eq_true_2 by done. simpl.
    repeat case_decide; simpl;
      repeat (first [rewrite bool_decide_eq_true_2 by done
                    |rewrite bool_decide_eq_false_2 by done]); simpl; done.
  - rewrite lookup_insert_ne, bool_decide_eq_false_2 by done. done.
Qed.

Lemma accountBlob_duplicateBlobs m b id :
  packInfo.duplicateBlobs (entry (accountBlob keepBlobs duplicateBlobs m b) id)
  = if countsDuplicate duplicateBlobs id b then add64 (packInfo.duplicateBlobs (entry m id)) 1
    else packInfo.duplicateBlobs (entry m id).
Proof.
  unfold accountBlob, countsDuplicate, entry.
  destruct (decide (PackID b = id)) as [->|Hne].
  - rewrite lookup_insert_eq, bool_decide_eq_true_2 by done. simpl.
    repeat case_decide; simpl;
      repeat (first [rewrite bool_decide_eq_true_2 by done
                    |rewrite bool_decide_eq_false_2 by done]); simpl; done.
  - rewrite lookup_insert_ne, bool_decide_eq_false_2 by done. done.
Qed.

(** Every pack that holds a blob has an entry after the loop. *)
Lemma account_known blobs : forall m b,
  b ∈ blobs ->
  is_Some (foldl (accountBlob keepBlobs duplicateBlobs) m blobs !! PackID b).
Proof.
  assert (Hmono : forall blobs m id, is_Some (m !! id) ->
            is_Some (foldl (accountBlob keepBlobs duplicateBlobs) m blobs !! id)).
  { induction blobs0 as [|c blobs0 IH]; intros m id H; simpl; [done|].
    apply IH. unfold accountBlob.
    destruct (decide (PackID c = id)) as [->|Hne].
    - rewrite lookup_insert_eq. eauto.
    - by rewrite lookup_insert_ne. }
  induction blobs as [|c blobs IH]; intros m b Hb; simpl.
  - by apply elem_of_nil in Hb.
  - apply elem_of_cons in Hb as [->|Hb]; [|by apply IH].
    apply Hmono. unfold accountBlob. rewrite lookup_insert_eq. eauto.
Qed.

(** While the counters cannot wrap, they count the blobs. *)
Lemma account_usedBlobs blobs : forall m id,
  0 <= packInfo.usedBlobs (entry m id) ->
  packInfo.usedBlobs (entry m id) + Z.of_nat (length blobs) < 2 ^ 64 ->
  packInfo.usedBlobs (entry (foldl (accountBlob keepBlobs duplicateBlobs) m blobs) id)
  = packInfo.usedBlobs (entry m id) + countZ (countsUsed keepBlobs duplicateBlobs id) blobs.
Proof.
  induction blobs as [|b blobs IH]; intros m id H0 Hlt; simpl; [lia|].
  simpl in Hlt.
  assert (Hstep : packInfo.usedBlobs (entry (accountBlob keepBlobs duplicateBlobs m b) id)
                  = packInfo.usedBlobs (entry m id) + (if countsUsed keepBlobs duplicateBlobs id b then 1 else 0)).
  { rewrite accountBlob_usedBlobs. destruct (countsUsed keepBlobs duplicateBlobs id b); [|lia].
    unfold add64. apply wrap64_small. lia. }
  rewrite IH; rewrite Hstep; destruct (countsUsed keepBlobs duplicateBlobs id b); lia.
Qed.

Lemma account_duplicateBlobs blobs : forall m id,
  0 <= packInfo.duplicateBlobs (entry m id) ->
  packInfo.duplicateBlobs (entry m id) + Z.of_nat (length blobs) < 2 ^ 64 ->
  packInfo.duplicateBlobs (entry (foldl (accountBlob keepBlobs duplicateBlobs) m blobs) id)
  = packInfo.duplicateBlobs (entry m id) + countZ (countsDuplicate duplicateBlobs id) blobs.
Proof.
  induction blobs as [|b blobs IH]; intros m id H0 Hlt; simpl; [lia|].
  simpl in Hlt.
  assert (Hstep : packInfo.duplicateBlobs (entry (accountBlob keepBlobs duplicateBlobs m b) id)
                  = packInfo.duplicateBlobs (entry m id)
                    + (if countsDuplicate duplicateBlobs id b then 1 else 0)).
  { rewrite accountBlob_duplicateBlobs. destruct (countsDuplicate duplicateBlobs id b); [|lia].
    unfold add64. apply wrap64_small. lia. }
  rewrite IH; rewrite Hstep; destruct (countsDuplicate duplicateBlobs id b); lia.
Qed.

Lemma seedIndexPack_entry packSize id :
  packInfo.usedBlobs (entry (seedIndexPack packSize) id) = 0
  /\ packInfo.duplicateBlobs (entry (seedIndexPack packSize) id) = 0.
Proof.
  unfold entry, seedIndexPack. rewrite lookup_fmap.
  destruct (packSize !! id); simpl; done.
Qed.

(** A pack whose two counters are zero holds no blob of [keepBlobs] or
    [duplicateBlobs]. *)
Lemma buildIndexPack_unneeded repo id p b :
  Z.of_nat (length (IndexEach repo)) < 2 ^ 64 ->
  buildIndexPack keepBlobs duplicateBlobs repo !! id = Some p ->
  unneeded p = true ->
  (b ∈ IndexEach repo) -> PackID b = id ->
  (Handle b ∉ keepBlobs) /\ (Handle b ∉ duplicateBlobs).
Proof.
  intros Hlen Hp Hun Hb Hid. unfold buildIndexPack in Hp.
  destruct (seedIndexPack_entry (IndexPackSize repo) id) as [Hu0 Hd0].
  pose proof (account_usedBlobs (IndexEach repo) (seedIndexPack (IndexPackSize repo)) id) as Hu.
  pose proof (account_duplicateBlobs (IndexEach repo) (seedIndexPack (IndexPackSize repo)) id) as Hd.
  rewrite Hu0 in Hu. rewrite Hd0 in Hd.
  assert (Hz : 0 <= 0) by lia.
  assert (Hl : 0 + Z.of_nat (length (IndexEach repo)) < 2 ^ 64) by lia.
  specialize (Hu Hz Hl). specialize (Hd Hz Hl).
  unfold entry in Hu, Hd. rewrite Hp in Hu, Hd. simpl in Hu, Hd.
  unfold unneeded in Hun. apply andb_true_iff in Hun as [Hu1 Hd1].
  apply Z.eqb_eq in Hu1, Hd1.
  assert (Hcu : countsUsed keepBlobs duplicateBlobs id b = false)
    by (apply (countZ_zero (countsUsed keepBlobs duplicateBlobs id) (IndexEach repo)); [lia|done]).
  assert (Hcd : countsDuplicate duplicateBlobs id b = false)
    by (apply (countZ_zero (countsDuplicate duplicateBlobs id) (IndexEach repo)); [lia|done]).
  unfold countsUsed, countsDuplicate in Hcu, Hcd.
  rewrite (bool_decide_eq_true_2 _ Hid) in Hcu, Hcd. simpl in Hcu, Hcd.
  apply bool_decide_eq_false in Hcd. rewrite (bool_decide_eq_false_2 _ Hcd) in Hcu.
  simpl in Hcu. apply bool_decide_eq_false in Hcu. done.
Qed.

End Accounting.

(** ** The listing of the pack files *)

Section Listing.

Variable opts : PruneOptions.

Implicit Types (v : planner) (p : packInfo.t) (id : ID) (files : list (ID * Z)).

(** What [decidePack] and [keep] leave alone. *)
Lemma keep_fields p v :
  indexPack (keep p v) = indexPack v
  /\ v_removePacksFirst (keep p v) = v_removePacksFirst v
  /\ v_removePacks (keep p v) = v_removePacks v
  /\ v_repackPacks (keep p v) = v_repackPacks v
  /\ repackCandidates (keep p v) = repackCandidates v
  /\ v_ignorePacks (keep p v) = v_ignorePacks v.
Proof. unfold keep. destruct (0 <? packInfo.duplicateBlobs p); simpl; done. Qed.

Lemma decidePack_fields id p v :
  indexPack (decidePack opts id p v) = indexPack v
  /\ v_removePacksFirst (decidePack opts id p v) = v_removePacksFirst v
  /\ v_repackPacks (decidePack opts id p v) = v_repackPacks v
  /\ v_ignorePacks (decidePack opts id p v) = v_ignorePacks v.
Proof.
  unfold decidePack. destruct (keep_fields p v) as (?&?&?&?&?&?).
  repeat case_match; simpl; done.
Qed.

Lemma decidePack_removePacks id p v :
  v_removePacks (decidePack opts id p v)
  = if unneeded p then {[id]} ∪ v_removePacks v else v_removePacks v.
Proof.
  unfold decidePack. destruct (keep_fields p v) as (?&?&?&?&?&?).
  repeat case_match; simpl; done.
Qed.


Lemma listPack_unknown v id packSize :
  indexPack v !! id = None ->
  listPack opts v (id, packSize) = (listedUnknown v id packSize, None).
Proof. intros H. unfold listPack. simpl. rewrite H. done. Qed.

Lemma listPack_known v id packSize p :
  indexPack v !! id = Some p ->
  listPack opts v (id, packSize)
  = if sizeMismatch p packSize then (v, Some errorSizeNotMatching)
    else (listedKnown opts v id p, None).
Proof. intros H. unfold listPack. simpl. rewrite H. done. Qed.

Lemma listedKnown_fields v id p :
  indexPack (listedKnown opts v id p) = delete id (indexPack v)
  /\ v_removePacksFirst (listedKnown opts v id p) = v_removePacksFirst v
  /\ v_repackPacks (listedKnown opts v id p) = v_repackPacks v
  /\ v_ignorePacks (listedKnown opts v id p) = v_ignorePacks v
  /\ v_removePacks (listedKnown opts v id p)
     = (if unneeded p then {[id]} ∪ v_removePacks v else v_removePacks v).
Proof.
  unfold listedKnown.
  destruct (decidePack_fields id p (onStats (countPack p) v)) as (Hi&Hf&Hr&Hg).
  pose proof (decidePack_removePacks id p (onStats (countPack p) v)) as Hrm.
  simpl. rewrite Hi, Hf, Hr, Hg, Hrm. done.
Qed.


(** The callback fails with [errorSizeNotMatching] only. *)
Lemma listPacks_error files : forall v,
  (listPacks opts v files).2 = None
  \/ (listPacks opts v files).2 = Some errorSizeNotMatching.
Proof.
  induction files as [|[id sz] files IH]; intros v; simpl; [by left|].
  destruct (indexPack v !! id) as [p|] eqn:Hl.
  - rewrite (listPack_known _ _ _ _ Hl). destruct (sizeMismatch p sz); simpl; [by right|apply IH].
  - rewrite (listPack_unknown _ _ _ Hl). apply IH.
Qed.

(** The listing only deletes from [indexPack]: what is left are the packs
    that were not listed. *)
Lemma listPacks_indexPack files : forall v id,
  (listPacks opts v files).2 = None ->
  indexPack (listPacks opts v files).1 !! id
  = if decide (id ∈ files.*1) then None else indexPack v !! id.
Proof.
  induction files as [|[i sz] files IH]; intros v id; cbn [listPacks].
  - intros _. rewrite fmap_nil. case_decide as H; [by apply elem_of_nil in H|done].
  - rewrite fmap_cons. cbn [fst].
    destruct (indexPack v !! i) as [p|] eqn:Hl.
    + rewrite (listPack_known _ _ _ _ Hl). destruct (sizeMismatch p sz); [done|].
      intros Hok. rewrite (IH _ _ Hok).
      destruct (listedKnown_fields v i p) as (Hi&_). rewrite Hi.
      destruct (decide (id = i)) as [->|Hne].
      * rewrite lookup_delete_eq.
        rewrite (decide_True (P := i ∈ i :: files.*1)) by apply list_elem_of_here.
        by case_decide.
      * rewrite lookup_delete_ne by done.
        repeat case_decide; try done; set_solver.
    + rewrite (listPack_unknown _ _ _ Hl). intros Hok. rewrite (IH _ _ Hok).
      destruct (decide (id = i)) as [->|Hne].
      * rewrite (decide_True (P := i ∈ i :: files.*1)) by apply list_elem_of_here.
        case_decide; [done|]. unfold listedUnknown. simpl. done.
      * unfold listedUnknown. simpl. repeat case_decide; try done; set_solver.
Qed.

(** The listing does not touch [repackPacks] and [ignorePacks]. *)
Lemma listPacks_untouched files : forall v,
  v_repackPacks (listPacks opts v files).1 = v_repackPacks v
  /\ v_ignorePacks (listPacks opts v files).1 = v_ignorePacks v.
Proof.
  induction files as [|[i sz] files IH]; intros v; simpl; [done|].
  destruct (indexPack v !! i) as [p|] eqn:Hl.
  - rewrite (listPack_known _ _ _ _ Hl). destruct (sizeMismatch p sz); simpl; [done|].
    destruct (IH (listedKnown opts v i p)) as [-> ->].
    destruct (listedKnown_fields v i p) as (_&_&->&->&_). done.
  - rewrite (listPack_unknown _ _ _ Hl). destruct (IH (listedUnknown v i sz)) as [-> ->]. done.
Qed.

(** [removePacks] receives exactly the listed packs of the index that have
    no used and no duplicate blob. *)
Lemma listPacks_removePacks files : forall v id,
  (listPacks opts v files).2 = None ->
  id ∈ v_removePacks (listPacks opts v files).1
  <-> id ∈ v_removePacks v
      \/ (id ∈ files.*1 /\ exists p, indexPack v !! id = Some p /\ unneeded p = true).
Proof.
  induction files as [|[i sz] files IH]; intros v id; simpl.
  - intros _. rewrite elem_of_nil. naive_solver.
  - destruct (indexPack v !! i) as [p|] eqn:Hl.
    + rewrite (listPack_known _ _ _ _ Hl). destruct (sizeMismatch p sz); simpl; [done|].
      intros Hok. rewrite (IH _ _ Hok).
      destruct (listedKnown_fields v i p) as (Hi&_&_&_&Hr). rewrite Hi, Hr.
      rewrite elem_of_cons.
      destruct (decide (id = i)) as [->|Hne].
      * rewrite lookup_delete_eq, Hl. destruct (unneeded p) eqn:Hun.
        -- split; [intros _; right; eauto|set_solver].
        -- split; [naive_solver|]. intros [?|[_ [q [[= <-] Hq]]]]; [by left|congruence].
      * rewrite lookup_delete_ne by done. destruct (unneeded p); set_solver.
    + rewrite (listPack_unknown _ _ _ Hl). intros Hok. rewrite (IH _ _ Hok). simpl.
      rewrite elem_of_cons.
      destruct (decide (id = i)) as [->|Hne]; [rewrite Hl|]; naive_solver.
Qed.


(** When no file is listed twice, [removePacksFirst] receives exactly the
    listed packs that the index does not know. *)
Lemma listPacks_removePacksFirst files : forall v id,
  NoDup files.*1 ->
  (listPacks opts v files).2 = None ->
  id ∈ v_removePacksFirst (listPacks opts v files).1
  <-> id ∈ v_removePacksFirst v \/ (id ∈ files.*1 /\ indexPack v !! id = None).
Proof.
  induction files as [|[i sz] files IH]; intros v id Hnd; simpl.
  - intros _. rewrite elem_of_nil. naive_solver.
  - simpl in Hnd. apply NoDup_cons in Hnd as [Hni Hnd].
    rewrite elem_of_cons.
    destruct (indexPack v !! i) as [p|] eqn:Hl.
    + rewrite (listPack_known _ _ _ _ Hl). destruct (sizeMismatch p sz); simpl; [done|].
      intros Hok. rewrite (IH _ _ Hnd Hok).
      destruct (listedKnown_fields v i p) as (Hi&Hf&_). rewrite Hi, Hf.
      destruct (decide (id = i)) as [->|Hne].
      * rewrite lookup_delete_eq, Hl. naive_solver.
      * rewrite lookup_delete_ne by done. naive_solver.
    + rewrite (listPack_unknown _ _ _ Hl). intros Hok. rewrite (IH _ _ Hnd Hok). simpl.
      destruct (decide (id = i)) as [->|Hne]; [rewrite Hl|]; set_solver.
Qed.

(** When no file is listed twice, the listing succeeds exactly when no
    listed pack of the index fails the size test. *)
Lemma listPacks_succeeds files : forall v,
  NoDup files.*1 ->
  (listPacks opts v files).2 = None
  <-> forall id sz p, (id, sz) ∈ files -> indexPack v !! id = Some p ->
        sizeMismatch p sz = false.
Proof.
  induction files as [|[i sz] files IH]; intros v Hnd; simpl.
  - split; [|done]. intros _ id sz p H. by apply elem_of_nil in H.
  - simpl in Hnd. apply NoDup_cons in Hnd as [Hni Hnd].
    assert (Hother : forall v', (forall id, id ≠ i -> indexPack v' !! id = indexPack v !! id) ->
      ((forall id sz0 p, (id, sz0) ∈ files -> indexPack v' !! id = Some p ->
          sizeMismatch p sz0 = false)
       <-> (forall id sz0 p, (id, sz0) ∈ files -> indexPack v !! id = Some p ->
          sizeMismatch p sz0 = false))).
    { intros v' Hv'. split; intros H id sz0 p Hin Hlk.
      - apply (H id sz0 p Hin). rewrite Hv'; [done|]. intros ->.
        apply Hni. apply list_elem_of_fmap. exists (i, sz0). done.
      - apply (H id sz0 p Hin). rewrite <- Hv'; [done|]. intros ->.
        apply Hni. apply list_elem_of_fmap. exists (i, sz0). done. }
    destruct (indexPack v !! i) as [p|] eqn:Hl.
    + rewrite (listPack_known _ _ _ _ Hl). destruct (sizeMismatch p sz) eqn:Hm; simpl.
      * split; [done|]. intros H. specialize (H i sz p (list_elem_of_here _ _) Hl). congruence.
      * rewrite (IH _ Hnd). rewrite Hother.
        -- split.
           ++ intros H id sz0 q Hin Hlk. apply elem_of_cons in Hin as [[= -> ->]|Hin].
              ** congruence.
              ** by apply (H id sz0 q).
           ++ intros H id sz0 q Hin Hlk. apply (H id sz0 q); [by apply list_elem_of_further|done].
        -- intros id Hne. destruct (listedKnown_fields v i p) as (Hi&_). rewrite Hi.
           by rewrite lookup_delete_ne.
    + rewrite (listPack_unknown _ _ _ Hl). rewrite (IH _ Hnd). rewrite Hother by done.
      split.
      * intros H id sz0 q Hin Hlk. apply elem_of_cons in Hin as [[= -> ->]|Hin].
        -- congruence.
        -- by apply (H id sz0 q).
      * intros H id sz0 q Hin Hlk. apply (H id sz0 q); [by apply list_elem_of_further|done].
Qed.

(** A listing that fails has met a pack of the index that fails the size
    test. *)
Lemma listPacks_fails files : forall v,
  (listPacks opts v files).2 ≠ None ->
  exists id sz p, (id, sz) ∈ files /\ indexPack v !! id = Some p
                  /\ sizeMismatch p sz = true.
Proof.
  induction files as [|[i sz] files IH]; intros v; cbn [listPacks]; [done|].
  destruct (indexPack v !! i) as [p|] eqn:Hl.
  - rewrite (listPack_known _ _ _ _ Hl). destruct (sizeMismatch p sz) eqn:Hm.
    + intros _. exists i, sz, p. split; [apply list_elem_of_here|done].
    + intros H. apply IH in H as (id&sz0&q&Hin&Hlk&Hq).
      destruct (listedKnown_fields v i p) as (Hi&_). rewrite Hi in Hlk.
      apply lookup_delete_Some in Hlk as [_ Hlk].
      exists id, sz0, q. split; [by apply list_elem_of_further|done].
  - rewrite (listPack_unknown _ _ _ Hl).
    intros H. apply IH in H as (id&sz0&q&Hin&Hlk&Hq).
    exists id, sz0, q. split; [by apply list_elem_of_further|done].
Qed.

End Listing.

(** ** The packs that are missing from the backend *)

Section Missing.

Implicit Types (v : planner) (p : packInfo.t) (id : ID) (entries : list (ID * packInfo.t)).

Lemma forgetMissing_fields v e :
  v_removePacksFirst (forgetMissing v e) = v_removePacksFirst v
  /\ v_removePacks (forgetMissing v e) = v_removePacks v
  /\ v_repackPacks (forgetMissing v e) = v_repackPacks v
  /\ repackCandidates (forgetMissing v e) = repackCandidates v
  /\ repackAllPacksWithDuplicates (forgetMissing v e) = repackAllPacksWithDuplicates v.
Proof. unfold forgetMissing. destruct (unneeded e.2); simpl; done. Qed.

(** An unneeded pack is inserted into [ignorePacks], its unused blobs and
    bytes are added to the removal counters and it leaves [indexPack];
    a needed pack changes nothing. *)
Lemma forgetMissing_unneeded v id p :
  unneeded p = true ->
  v_ignorePacks (forgetMissing v (id, p)) = {[id]} ∪ v_ignorePacks v
  /\ indexPack (forgetMissing v (id, p)) = delete id (indexPack v)
  /\ blobStats.Remove (Blobs (stats (forgetMissing v (id, p))))
     = add64 (blobStats.Remove (Blobs (stats v))) (packInfo.unusedBlobs p)
  /\ sizeStats.Remove (Size (stats (forgetMissing v (id, p))))
     = add64 (sizeStats.Remove (Size (stats v))) (packInfo.unusedSize p).
Proof. intros H. unfold forgetMissing. simpl. rewrite H. simpl. done. Qed.

Lemma forgetMissing_needed v id p :
  unneeded p = false -> forgetMissing v (id, p) = v.
Proof. intros H. unfold forgetMissing. simpl. by rewrite H. Qed.

Lemma missingPacksIn_fields entries : forall v,
  v_removePacksFirst (missingPacksIn entries v) = v_removePacksFirst v
  /\ v_removePacks (missingPacksIn entries v) = v_removePacks v
  /\ v_repackPacks (missingPacksIn entries v) = v_repackPacks v
  /\ repackCandidates (missingPacksIn entries v) = repackCandidates v
  /\ repackAllPacksWithDuplicates (missingPacksIn entries v) = repackAllPacksWithDuplicates v.
Proof.
  unfold missingPacksIn.
  induction entries as [|e entries IH]; intros v; simpl; [done|].
  destruct (IH (forgetMissing v e)) as (->&->&->&->&->).
  apply forgetMissing_fields.
Qed.

Lemma missingPacksIn_ignorePacks entries : forall v id,
  id ∈ v_ignorePacks (missingPacksIn entries v)
  <-> id ∈ v_ignorePacks v \/ exists p, (id, p) ∈ entries /\ unneeded p = true.
Proof.
  unfold missingPacksIn.
  induction entries as [|[i q] entries IH]; intros v id; simpl.
  - split; [by left|]. intros [?|(p&H&_)]; [done|]. by apply elem_of_nil in H.
  - rewrite IH. destruct (unneeded q) eqn:Hq.
    + destruct (forgetMissing_unneeded v i q Hq) as (->&_).
      rewrite elem_of_union, elem_of_singleton. split.
      * intros [[->|?]|(p&H&Hp)]; [right; exists q|by left|right; exists p].
        -- split; [apply list_elem_of_here|done].
        -- split; [by apply list_elem_of_further|done].
      * intros [?|(p&H&Hp)]; [by left; right|].
        apply elem_of_cons in H as [[= -> ->]|H]; [by left; left|right; eauto].
    + rewrite (forgetMissing_needed v i q Hq). split.
      * intros [?|(p&H&Hp)]; [by left|right; exists p].
        split; [by apply list_elem_of_further|done].
      * intros [?|(p&H&Hp)]; [by left|].
        apply elem_of_cons in H as [[= -> ->]|H]; [congruence|right; eauto].
Qed.

Lemma missingPacksIn_indexPack entries : forall v id p,
  indexPack (missingPacksIn entries v) !! id = Some p
  <-> indexPack v !! id = Some p
      /\ ~ exists q, (id, q) ∈ entries /\ unneeded q = true.
Proof.
  unfold missingPacksIn.
  induction entries as [|[i q] entries IH]; intros v id p; simpl.
  - split; [|tauto]. intros H. split; [done|]. intros (q&Hq&_). by apply elem_of_nil in Hq.
  - rewrite IH. destruct (unneeded q) eqn:Hq.
    + destruct (forgetMissing_unneeded v i q Hq) as (_&->&_).
      rewrite lookup_delete_Some. split.
      * intros [[Hne Hl] Hn]. split; [done|]. intros (r&Hr&Hu).
        apply elem_of_cons in Hr as [[= ? ?]|Hr]; [done|]. apply Hn. eauto.
      * intros [Hl Hn]. split; [split; [|done]|].
        -- intros <-. apply Hn. exists q. split; [apply list_elem_of_here|done].
        -- intros (r&Hr&Hu). apply Hn. exists r. split; [by apply list_elem_of_further|done].
    + rewrite (forgetMissing_needed v i q Hq). split.
      * intros [Hl Hn]. split; [done|]. intros (r&Hr&Hu).
        apply elem_of_cons in Hr as [[= -> ->]|Hr]; [congruence|]. apply Hn. eauto.
      * intros [Hl Hn]. split; [done|]. intros (r&Hr&Hu).
        apply Hn. exists r. split; [by apply list_elem_of_further|done].
Qed.

Lemma missingPacksIn_remove entries : forall v,
  wrap64 (blobStats.Remove (Blobs (stats v))) = blobStats.Remove (Blobs (stats v)) ->
  wrap64 (sizeStats.Remove (Size (stats v))) = sizeStats.Remove (Size (stats v)) ->
  blobStats.Remove (Blobs (stats (missingPacksIn entries v)))
  = add64 (blobStats.Remove (Blobs (stats v))) (forgottenBlobs entries)
  /\ sizeStats.Remove (Size (stats (missingPacksIn entries v)))
     = add64 (sizeStats.Remove (Size (stats v))) (forgottenBytes entries).
Proof.
  unfold missingPacksIn.
  induction entries as [|[i q] entries IH]; intros v Hb Hs; simpl.
  - unfold add64. rewrite !Z.add_0_r. done.
  - destruct (unneeded q) eqn:Hq.
    + destruct (forgetMissing_unneeded v i q Hq) as (_&_&Eb&Es).
      destruct (IH (forgetMissing v (i, q))) as [-> ->].
      * rewrite Eb. apply wrap64_idemp.
      * rewrite Es. apply wrap64_idemp.
      * rewrite Eb, Es, !add64_assoc. done.
    + rewrite (forgetMissing_needed v i q Hq).
      destruct (IH v Hb Hs) as [-> ->]. done.
Qed.

(** The statistics of the classification are not touched. *)
Lemma missingPacksIn_unused entries : forall v,
  sizeStats.Unused (Size (stats (missingPacksIn entries v))) = sizeStats.Unused (Size (stats v)).
Proof.
  unfold missingPacksIn.
  induction entries as [|e entries IH]; intros v; simpl; [done|].
  rewrite IH. unfold forgetMissing. destruct (unneeded e.2); done.
Qed.

Lemma missingPacksIn_repack entries : forall v,
  sizeStats.Repack (Size (stats (missingPacksIn entries v))) = sizeStats.Repack (Size (stats v)).
Proof.
  unfold missingPacksIn.
  induction entries as [|e entries IH]; intros v; simpl; [done|].
  rewrite IH. unfold forgetMissing. destruct (unneeded e.2); done.
Qed.

(** The order in which the range statement visits [indexPack] does not
    matter: two visits in different orders end in the same state. *)
Lemma addRemove_comm p q s :
  addRemove p (addRemove q s) = addRemove q (addRemove p s).
Proof.
  destruct s as [m [] [] k].
  unfold addRemove, onSize, onBlobs, blobStats.set_Remove, sizeStats.set_Remove.
  cbn [Blobs Size Packs MessageType blobStats.Remove sizeStats.Remove].
  cbv beta iota delta [blobStats.Used blobStats.Duplicate blobStats.Unused blobStats.Total
    blobStats.Repack blobStats.RepackRm blobStats.Remove blobStats.RemoveTotal
    blobStats.Remain blobStats.RemainUnused
    sizeStats.Used sizeStats.Duplicate sizeStats.Unused sizeStats.Unref sizeStats.Total
    sizeStats.Repack sizeStats.RepackRm sizeStats.Remove sizeStats.RemoveTotal
    sizeStats.Remain sizeStats.RemainUnused].
  f_equal; f_equal; apply add64_swap.
Qed.

Lemma forgetMissing_comm v e1 e2 :
  forgetMissing (forgetMissing v e1) e2 = forgetMissing (forgetMissing v e2) e1.
Proof.
  unfold forgetMissing.
  destruct (unneeded e1.2), (unneeded e2.2); [|reflexivity..].
  destruct v as [ip rpf rp rep cands flag ign st].
  unfold set_indexPack, onStats, set_ignorePacks.
  cbn [indexPack v_removePacksFirst v_removePacks v_repackPacks repackCandidates
       repackAllPacksWithDuplicates v_ignorePacks stats].
  f_equal.
  - apply delete_delete.
  - set_solver.
  - apply addRemove_comm.
Qed.

Lemma missingPacksIn_permutation entries1 entries2 v :
  entries1 ≡ₚ entries2 ->
  missingPacksIn entries1 v = missingPacksIn entries2 v.
Proof.
  unfold missingPacksIn. intros Hp. revert v.
  induction Hp as [|e l1 l2 _ IH|e1 e2 l|l1 l2 l3 _ IH1 _ IH2]; intros v; simpl.
  - done.
  - apply IH.
  - by rewrite forgetMissing_comm.
  - by rewrite IH1.
Qed.

End Missing.

(** ** What the phases do to the statistics *)

Lemma listPack_stats opts v f :
  sizeStats.Unused (Size (stats (listPack opts v f).1)) = sizeStats.Unused (Size (stats v))
  /\ sizeStats.Repack (Size (stats (listPack opts v f).1)) = sizeStats.Repack (Size (stats v))
  /\ (removeInRange (stats v) -> removeInRange (stats (listPack opts v f).1)).
Proof.
  unfold listPack, removeInRange. destruct (indexPack v !! f.1) as [p|]; [|simpl; done].
  destruct (sizeMismatch p f.2); [simpl; done|].
  unfold decidePack, countPack, keep, addRemove.
  repeat case_match; simpl; try done.
  all: split; [done|split; [done|]]; intros _; split; apply wrap64_idemp.
Qed.

Lemma listPacks_stats opts files : forall v,
  sizeStats.Unused (Size (stats (listPacks opts v files).1)) = sizeStats.Unused (Size (stats v))
  /\ sizeStats.Repack (Size (stats (listPacks opts v files).1)) = sizeStats.Repack (Size (stats v))
  /\ (removeInRange (stats v) -> removeInRange (stats (listPacks opts v files).1)).
Proof.
  induction files as [|f files IH]; intros v; simpl; [done|].
  pose proof (listPack_stats opts v f) as (Hu&Hr&Hi).
  destruct (listPack opts v f) as [v' [e|]]; simpl in *; [done|].
  destruct (IH v') as (->&->&Hi'). auto.
Qed.

Lemma classifyBlobs_removeInRange usedBlobs blobs :
  removeInRange (c_stats (classifyBlobs usedBlobs blobs)).
Proof.
  pose proof (classify_stats blobs (mkClassified usedBlobs ∅ ∅ zeroStats)) as H.
  unfold classifyBlobs. rewrite H; [|reflexivity]. split; reflexivity.
Qed.

(** ** The selection of the packs to repack *)

Section Selection.

Variable opts : PruneOptions.
Variable maxUnusedSizeAfter : Z.

Implicit Types (v : planner) (p : packInfo.t) (id : ID) (c : packInfoWithID).

Lemma repack_fields id p v :
  indexPack (repack id p v) = indexPack v
  /\ v_removePacksFirst (repack id p v) = v_removePacksFirst v
  /\ v_removePacks (repack id p v) = v_removePacks v
  /\ v_ignorePacks (repack id p v) = v_ignorePacks v
  /\ v_repackPacks (repack id p v) = {[id]} ∪ v_repackPacks v.
Proof. done. Qed.

Lemma repack_stats id p v :
  sizeStats.Repack (Size (stats (repack id p v)))
  = add64 (sizeStats.Repack (Size (stats v)))
          (add64 (packInfo.unusedSize p) (packInfo.usedSize p))
  /\ sizeStats.Unused (Size (stats (repack id p v))) = sizeStats.Unused (Size (stats v))
  /\ blobStats.Remove (Blobs (stats (repack id p v))) = blobStats.Remove (Blobs (stats v))
  /\ sizeStats.Remove (Size (stats (repack id p v))) = sizeStats.Remove (Size (stats v)).
Proof. done. Qed.

Lemma keep_stats p v :
  Size (stats (keep p v)) = Size (stats v)
  /\ Blobs (stats (keep p v)) = Blobs (stats v)
  /\ packStats.Keep (Packs (stats (keep p v))) = add64 (packStats.Keep (Packs (stats v))) 1.
Proof. unfold keep. destruct (0 <? packInfo.duplicateBlobs p); done. Qed.

(** Keeping and repacking are different outcomes. *)
Lemma keep_not_repack id p v : keep p v ≠ repack id p v.
Proof.
  intros H. destruct (keep_stats p v) as (_&_&Hk).
  rewrite H in Hk. simpl in Hk.
  pose proof (wrap64_range (packStats.Keep (Packs (stats v)) + 1)) as Hr.
  unfold add64 in Hk. rewrite <- Hk in Hr.
  destruct (Z.eq_dec (packStats.Keep (Packs (stats v)) + 1) (2 ^ 64)) as [E|E].
  - rewrite E in Hk. change (wrap64 (2 ^ 64)) with 0 in Hk. lia.
  - rewrite wrap64_small in Hk by lia. lia.
Qed.

Lemma selectPack_cases v c :
  selectPack opts maxUnusedSizeAfter v c = keep (pwInfo c) v
  \/ selectPack opts maxUnusedSizeAfter v c = repack (pwID c) (pwInfo c) v.
Proof. unfold selectPack. repeat case_match; auto. Qed.

Lemma selectPacks_fields cs : forall v,
  indexPack (selectPacks opts maxUnusedSizeAfter v cs) = indexPack v
  /\ v_removePacksFirst (selectPacks opts maxUnusedSizeAfter v cs) = v_removePacksFirst v
  /\ v_removePacks (selectPacks opts maxUnusedSizeAfter v cs) = v_removePacks v
  /\ v_ignorePacks (selectPacks opts maxUnusedSizeAfter v cs) = v_ignorePacks v.
Proof.
  unfold selectPacks.
  induction cs as [|c cs IH]; intros v; simpl; [done|].
  destruct (IH (selectPack opts maxUnusedSizeAfter v c)) as (->&->&->&->).
  destruct (selectPack_cases v c) as [-> | ->].
  - destruct (keep_fields (pwInfo c) v) as (?&?&?&?&?&?). done.
  - done.
Qed.

(** Only candidates are repacked. *)
Lemma selectPacks_repackPacks cs : forall v id,
  id ∈ v_repackPacks (selectPacks opts maxUnusedSizeAfter v cs) ->
  id ∈ v_repackPacks v \/ id ∈ pwID <$> cs.
Proof.
  unfold selectPacks.
  induction cs as [|c cs IH]; intros v id; simpl; [by left|].
  intros H. apply IH in H as [H|H]; [|right; by apply list_elem_of_further].
  destruct (selectPack_cases v c) as [E | E]; rewrite E in H.
  - destruct (keep_fields (pwInfo c) v) as (_&_&_&Hr&_). rewrite Hr in H. by left.
  - simpl in H. apply elem_of_union in H as [H|H]; [|by left].
    apply elem_of_singleton in H as ->. right. apply list_elem_of_here.
Qed.

Lemma selectPacks_stats cs : forall v,
  sizeStats.Unused (Size (stats (selectPacks opts maxUnusedSizeAfter v cs)))
  = sizeStats.Unused (Size (stats v))
  /\ blobStats.Remove (Blobs (stats (selectPacks opts maxUnusedSizeAfter v cs)))
     = blobStats.Remove (Blobs (stats v))
  /\ sizeStats.Remove (Size (stats (selectPacks opts maxUnusedSizeAfter v cs)))
     = sizeStats.Remove (Size (stats v)).
Proof.
  unfold selectPacks.
  induction cs as [|c cs IH]; intros v; simpl; [done|].
  destruct (IH (selectPack opts maxUnusedSizeAfter v c)) as (->&->&->).
  destruct (selectPack_cases v c) as [-> | ->].
  - destruct (keep_stats (pwInfo c) v) as (->&->&_). done.
  - done.
Qed.

(** A step keeps the bytes to repack under the cap. *)
Lemma selectPack_cap v c :
  0 < MaxRepackBytes opts ->
  sizeStats.Repack (Size (stats v)) <= MaxRepackBytes opts ->
  sizeStats.Repack (Size (stats (selectPack opts maxUnusedSizeAfter v c)))
  <= MaxRepackBytes opts.
Proof.
  intros Hcap Hle. unfold selectPack, reachedRepackSize.
  apply Z.ltb_lt in Hcap. rewrite Hcap.
  destruct (_ >? _) eqn:Hgt.
  - destruct (keep_stats (pwInfo c) v) as (->&_). done.
  - assert (Hrep : sizeStats.Repack (Size (stats (repack (pwID c) (pwInfo c) v)))
                   <= MaxRepackBytes opts).
    { simpl. unfold add64 at 2. rewrite add64_wrap_r.
      rewrite Z.gtb_ltb in Hgt. apply Z.ltb_ge in Hgt.
      rewrite add64_assoc in Hgt. exact Hgt. }
    repeat case_match; try exact Hrep.
    destruct (keep_stats (pwInfo c) v) as (->&_). done.
Qed.

Lemma selectPacks_cap cs : forall v,
  0 < MaxRepackBytes opts ->
  sizeStats.Repack (Size (stats v)) <= MaxRepackBytes opts ->
  sizeStats.Repack (Size (stats (selectPacks opts maxUnusedSizeAfter v cs)))
  <= MaxRepackBytes opts.
Proof.
  unfold selectPacks.
  induction cs as [|c cs IH]; intros v Hcap Hle; simpl; [done|].
  apply IH; [done|]. by apply selectPack_cap.
Qed.

End Selection.

(** ** The results of [planPrune] *)

Section Results.

Variable sortSlice : forall A : Type, (A -> A -> bool) -> list A -> list A.
Variable opts : PruneOptions.
Variable repo : Repository.
Variable usedBlobs : gset BlobHandle.

Let c := classifyBlobs usedBlobs (IndexEach repo).
Let r := reconcile opts repo usedBlobs.

(** The three ways in which [planPrune] fails and the way it succeeds. *)
Lemma planPrune_incomplete :
  size (c_usedBlobs c) ≠ 0%nat ->
  planPrune sortSlice opts repo usedBlobs = (zeroPlan, c_stats c, Some errorIndexIncomplete).
Proof.
  intros H. unfold planPrune. fold c.
  destruct (Nat.eqb_spec (size (c_usedBlobs c)) 0); [done|]. done.
Qed.

Lemma planPrune_listing_failed :
  size (c_usedBlobs c) = 0%nat -> r.2 ≠ None ->
  planPrune sortSlice opts repo usedBlobs = (zeroPlan, stats r.1, Some errorSizeNotMatching).
Proof.
  intros H Hr. unfold planPrune. fold c. rewrite H. simpl. fold r.
  pose proof (listPacks_error opts (ListPackFiles repo)
    (startPlanner (buildIndexPack (c_keepBlobs c) (c_duplicateBlobs c) repo) (c_stats c))) as He.
  fold c in He. change (listPacks _ _ _) with r in He.
  destruct r as [v [e|]]; simpl in *; [|done].
  destruct He as [He|He]; [done|]. by inversion He.
Qed.

Lemma planPrune_missing :
  size (c_usedBlobs c) = 0%nat -> r.2 = None ->
  size (indexPack (missingPacks r.1)) ≠ 0%nat ->
  planPrune sortSlice opts repo usedBlobs
  = (zeroPlan, stats (missingPacks r.1), Some errorPacksMissing).
Proof.
  intros H Hr Hm. unfold planPrune. fold c. rewrite H. simpl. fold r.
  destruct r as [v [e|]]; simpl in *; [done|].
  destruct (Nat.eqb_spec (size (indexPack (missingPacks v))) 0); [done|]. done.
Qed.

Lemma planPrune_planned :
  size (c_usedBlobs c) = 0%nat -> r.2 = None ->
  size (indexPack (missingPacks r.1)) = 0%nat ->
  planPrune sortSlice opts repo usedBlobs
  = (let v := selectAndTotal sortSlice opts (missingPacks r.1) in
     (mkPrunePlan (v_removePacksFirst v) (v_repackPacks v) (c_keepBlobs c)
        (v_removePacks v) (v_ignorePacks v), stats v, None)).
Proof.
  intros H Hr Hm. unfold planPrune. fold c. rewrite H. simpl. fold r.
  destruct r as [v [e|]]; simpl in *; [done|].
  rewrite Hm. done.
Qed.

Lemma planPrune_succeeds :
  (planPrune sortSlice opts repo usedBlobs).2 = None
  <-> size (c_usedBlobs c) = 0%nat /\ r.2 = None
      /\ size (indexPack (missingPacks r.1)) = 0%nat.
Proof.
  split.
  - intros Hok.
    destruct (decide (size (c_usedBlobs c) = 0%nat)) as [H|H];
      [|by rewrite (planPrune_incomplete H) in Hok].
    destruct (decide (r.2 = None)) as [Hr|Hr];
      [|by rewrite (planPrune_listing_failed H Hr) in Hok].
    destruct (decide (size (indexPack (missingPacks r.1)) = 0%nat)) as [Hm|Hm];
      [|by rewrite (planPrune_missing H Hr Hm) in Hok].
    done.
  - intros (H&Hr&Hm). by rewrite (planPrune_planned H Hr Hm).
Qed.

(** The sets of the plan in terms of the phases. *)
Lemma selectAndTotal_fields v :
  v_removePacksFirst (selectAndTotal sortSlice opts v) = v_removePacksFirst v
  /\ v_removePacks (selectAndTotal sortSlice opts v) = v_removePacks v
  /\ v_ignorePacks (selectAndTotal sortSlice opts v) = v_ignorePacks v.
Proof.
  unfold selectAndTotal. simpl.
  match goal with |- context [selectPacks ?o ?m ?w ?cs] =>
    destruct (selectPacks_fields o m cs w) as (_&->&->&->) end.
  done.
Qed.

Lemma selectAndTotal_repackPacks v id :
  (forall l : list packInfoWithID, sortSlice _ lessCandidate l ≡ₚ l) ->
  id ∈ v_repackPacks (selectAndTotal sortSlice opts v) ->
  id ∈ v_repackPacks v \/ id ∈ pwID <$> repackCandidates v.
Proof.
  intros Hsort. unfold selectAndTotal. simpl. intros H.
  apply selectPacks_repackPacks in H as [H|H]; [by left|right].
  simpl in H. by rewrite Hsort in H.
Qed.

(** The plan and the statistics of a run that succeeds. *)
Lemma planPrune_plan :
  (planPrune sortSlice opts repo usedBlobs).2 = None ->
  keepBlobs (planPrune sortSlice opts repo usedBlobs).1.1 = c_keepBlobs c
  /\ removePacksFirst (planPrune sortSlice opts repo usedBlobs).1.1 = v_removePacksFirst r.1
  /\ removePacks (planPrune sortSlice opts repo usedBlobs).1.1 = v_removePacks r.1
  /\ ignorePacks (planPrune sortSlice opts repo usedBlobs).1.1
     = v_ignorePacks (missingPacks r.1)
  /\ repackPacks (planPrune sortSlice opts repo usedBlobs).1.1
     = v_repackPacks (selectAndTotal sortSlice opts (missingPacks r.1))
  /\ (planPrune sortSlice opts repo usedBlobs).1.2
     = stats (selectAndTotal sortSlice opts (missingPacks r.1)).
Proof.
  intros Hok. apply planPrune_succeeds in Hok as (Hz&Hr&Hm).
  rewrite (planPrune_planned Hz Hr Hm). cbv zeta.
  cbn [fst snd keepBlobs removePacksFirst removePacks ignorePacks repackPacks].
  destruct (selectAndTotal_fields (missingPacks r.1)) as (->&->&->).
  destruct (missingPacksIn_fields (map_to_list (indexPack r.1)) r.1) as (Hf&Hp&_).
  unfold missingPacks at 1 2. rewrite Hf, Hp. done.
Qed.

(** The selection and the totals leave the removal counters alone. *)
Lemma totals_remove v s :
  blobStats.Remove (Blobs (totals v s)) = blobStats.Remove (Blobs s)
  /\ sizeStats.Remove (Size (totals v s)) = sizeStats.Remove (Size s).
Proof. destruct s as [m [] [] []]. split; reflexivity. Qed.

Lemma creditDuplicates_remove v :
  blobStats.Remove (Blobs (creditDuplicates v)) = blobStats.Remove (Blobs (stats v))
  /\ sizeStats.Remove (Size (creditDuplicates v)) = sizeStats.Remove (Size (stats v)).
Proof. unfold creditDuplicates. destruct (repackAllPacksWithDuplicates v); split; reflexivity. Qed.

Lemma selectAndTotal_remove v :
  blobStats.Remove (Blobs (stats (selectAndTotal sortSlice opts v)))
  = blobStats.Remove (Blobs (stats v))
  /\ sizeStats.Remove (Size (stats (selectAndTotal sortSlice opts v)))
     = sizeStats.Remove (Size (stats v)).
Proof.
  unfold selectAndTotal. cbv zeta. cbn [stats onStats].
  match goal with |- context [totals ?w (creditDuplicates ?w)] =>
    destruct (totals_remove w (creditDuplicates w)) as [-> ->];
    destruct (creditDuplicates_remove w) as [-> ->] end.
  match goal with |- context [selectPacks ?o ?m ?w ?cs] =>
    destruct (selectPacks_stats o m cs w) as (_&->&->) end.
  done.
Qed.

(** The statistics that [planPrune] returns once the listing has
    succeeded carry the removal counters of the loop over the missing
    packs, whether it then fails or not. *)
Lemma planPrune_remove :
  size (c_usedBlobs c) = 0%nat -> r.2 = None ->
  blobStats.Remove (Blobs (planPrune sortSlice opts repo usedBlobs).1.2)
  = blobStats.Remove (Blobs (stats (missingPacks r.1)))
  /\ sizeStats.Remove (Size (planPrune sortSlice opts repo usedBlobs).1.2)
     = sizeStats.Remove (Size (stats (missingPacks r.1))).
Proof.
  intros Hz Hr.
  destruct (decide (size (indexPack (missingPacks r.1)) = 0%nat)) as [Hm|Hm].
  - rewrite (planPrune_planned Hz Hr Hm). cbv zeta. cbn [fst snd].
    apply selectAndTotal_remove.
  - rewrite (planPrune_missing Hz Hr Hm). done.
Qed.

(** The statistics that the totals are computed from. *)
Lemma totals_closure v s :
  let t := totals v s in
  blobStats.Total (Blobs t)
  = add64 (add64 (blobStats.Used (Blobs t)) (blobStats.Unused (Blobs t)))
          (blobStats.Duplicate (Blobs t))
  /\ blobStats.RemoveTotal (Blobs t)
     = add64 (blobStats.Remove (Blobs t)) (blobStats.RepackRm (Blobs t))
  /\ blobStats.Remain (Blobs t)
     = sub64 (blobStats.Total (Blobs t)) (blobStats.RemoveTotal (Blobs t))
  /\ sizeStats.Total (Size t)
     = add64 (add64 (add64 (sizeStats.Used (Size t)) (sizeStats.Duplicate (Size t)))
                    (sizeStats.Unused (Size s)))
             (sizeStats.Unref (Size t))
  /\ sizeStats.Unused (Size t)
     = add64 (sizeStats.Duplicate (Size t)) (sizeStats.Unused (Size s))
  /\ sizeStats.RemoveTotal (Size t)
     = add64 (add64 (sizeStats.Remove (Size t)) (sizeStats.RepackRm (Size t)))
             (sizeStats.Unref (Size t))
  /\ sizeStats.Remain (Size t)
     = sub64 (sizeStats.Total (Size t)) (sizeStats.RemoveTotal (Size t)).
Proof. destruct s as [m [] [] []]. cbv zeta. repeat split; reflexivity. Qed.

Lemma totals_repack v s :
  sizeStats.Repack (Size (totals v s)) = sizeStats.Repack (Size s).
Proof. destruct s as [m [] [] []]. reflexivity. Qed.

Lemma creditDuplicates_size v :
  sizeStats.Unused (Size (creditDuplicates v)) = sizeStats.Unused (Size (stats v))
  /\ sizeStats.Repack (Size (creditDuplicates v)) = sizeStats.Repack (Size (stats v)).
Proof. unfold creditDuplicates. destruct (repackAllPacksWithDuplicates v); split; reflexivity. Qed.

(** The unused bytes of the first pass reach the totals unchanged. *)
Lemma reconcile_unused :
  sizeStats.Unused (Size (stats (missingPacks r.1))) = sizeStats.Unused (Size (c_stats c))
  /\ sizeStats.Repack (Size (stats (missingPacks r.1))) = 0.
Proof.
  unfold missingPacks. rewrite missingPacksIn_unused, missingPacksIn_repack.
  unfold r, reconcile. fold c.
  match goal with |- context [listPacks ?o ?w ?fs] =>
    destruct (listPacks_stats o fs w) as (->&->&_) end.
  cbn [stats startPlanner]. split; [done|].
  pose proof (classify_stats (IndexEach repo) (mkClassified usedBlobs ∅ ∅ zeroStats)) as H.
  fold (classifyBlobs usedBlobs (IndexEach repo)) in H. fold c in H.
  rewrite H; [|reflexivity]. reflexivity.
Qed.

Lemma selectAndTotal_cap v :
  0 < MaxRepackBytes opts ->
  sizeStats.Repack (Size (stats v)) <= MaxRepackBytes opts ->
  sizeStats.Repack (Size (stats (selectAndTotal sortSlice opts v))) <= MaxRepackBytes opts.
Proof.
  intros Hcap Hle. unfold selectAndTotal. cbv zeta. cbn [stats onStats].
  rewrite totals_repack.
  match goal with |- context [creditDuplicates ?w] =>
    destruct (creditDuplicates_size w) as [_ ->] end.
  by apply selectPacks_cap.
Qed.

(** The packs left in [indexPack] after the listing are the packs of the
    index that were not listed. *)
Lemma reconcile_indexPack id p :
  r.2 = None ->
  (id, p) ∈ map_to_list (indexPack r.1)
  <-> buildIndexPack (c_keepBlobs c) (c_duplicateBlobs c) repo !! id = Some p
      /\ (id ∉ (ListPackFiles repo).*1).
Proof.
  intros Hr. rewrite elem_of_map_to_list.
  unfold r, reconcile in *. fold c in Hr |- *.
  rewrite (listPacks_indexPack _ _ _ _ Hr). cbn [indexPack startPlanner].
  case_decide; naive_solver.
Qed.

(** Packs are left after the loop over the missing packs exactly when one
    of them has a used or a duplicate blob. *)
Lemma missingPacks_left v :
  size (indexPack (missingPacks v)) ≠ 0%nat
  <-> exists id p, (id, p) ∈ map_to_list (indexPack v) /\ unneeded p = false.
Proof.
  rewrite map_size_non_empty_iff. unfold missingPacks. split.
  - intros Hne. apply map_choose in Hne as (id&p&Hl).
    apply missingPacksIn_indexPack in Hl as [Hl Hn].
    exists id, p. split; [by apply elem_of_map_to_list|].
    destruct (unneeded p) eqn:Hun; [|done].
    exfalso. apply Hn. exists p. split; [by apply elem_of_map_to_list|done].
  - intros (id&p&Hin&Hun) He.
    assert (Hl : indexPack (missingPacksIn (map_to_list (indexPack v)) v) !! id = Some p).
    { apply missingPacksIn_indexPack. apply elem_of_map_to_list in Hin. split; [done|].
      intros (q&Hq&Hu). apply elem_of_map_to_list in Hq. congruence. }
    rewrite He in Hl. by rewrite lookup_empty in Hl.
Qed.

End Results.

(** ** Insertion sort rearranges its argument *)

Lemma insertBack_permutation {A : Type} (lt : A -> A -> bool) x (l : list A) :
  insertBack lt x l ≡ₚ x :: l.
Proof.
  induction l as [|y l IH]; simpl; [done|].
  destruct (lt x y); [|done].
  rewrite IH. apply Permutation_swap.
Qed.

Lemma insertionSort_permutation (A : Type) (lt : A -> A -> bool) (l : list A) :
  insertionSort A lt l ≡ₚ l.
Proof.
  unfold insertionSort. etrans; [symmetry; apply Permutation_rev|].
  assert (H : forall acc, foldl (fun revPrefix x => insertBack lt x revPrefix) acc l ≡ₚ l ++ acc).
  { induction l as [|x l IH]; intros acc; simpl; [done|].
    rewrite IH, insertBack_permutation. by rewrite Permutation_middle. }
  rewrite H. by rewrite app_nil_r.
Qed.

(** ** The options *)

Lemma SFcompare_none x y :
  SFcompare x y = None -> x = S754_nan \/ y = S754_nan.
Proof.
  destruct x as [[]|[]| |[] mx ex], y as [[]|[]| |[] my ey]; simpl; intros H; auto; discriminate.
Qed.

Lemma SFcompare_antisym x y :
  SFcompare y x = option_map CompOpp (SFcompare x y).
Proof.
  destruct x as [[]|[]| |[] mx ex], y as [[]|[]| |[] my ey]; simpl; try reflexivity.
  all: rewrite (Z.compare_antisym ex ey); destruct (ex ?= ey); simpl; try reflexivity.
  all: f_equal; rewrite ?CompOpp_involutive;
       first [apply (Pos.compare_cont_antisym my mx Eq)
             |symmetry; apply (Pos.compare_cont_antisym mx my Eq)].
Qed.

(** On numbers, [x <= y] is the negation of [y < x]. *)
Lemma SFleb_negb x y :
  x <> S754_nan -> y <> S754_nan -> SFleb x y = negb (SFltb y x).
Proof.
  intros Hx Hy. unfold SFleb, SFltb. rewrite (SFcompare_antisym y x).
  destruct (SFcompare y x) as [[]|] eqn:E; simpl; try reflexivity.
  apply SFcompare_none in E. tauto.
Qed.

Section VerifiedOptions.

Variable parseNumber : string -> spec_float * option error.
Variable parseSizeStr : string -> Z * option error.
Variable uint64OutOfRange : spec_float -> Z.

Let verify := verifyPruneOptions parseNumber parseSizeStr uint64OutOfRange.

Lemma sizedOptions_MaxUnused opts :
  MaxUnused (sizedOptions parseSizeStr opts) = MaxUnused opts.
Proof. unfold sizedOptions. by destruct (_ <? _)%nat. Qed.

Lemma verifyPruneOptions_sized opts :
  MaxRepackSize opts = EmptyString \/ (parseSizeStr (MaxRepackSize opts)).2 = None ->
  verify opts
  = let opts' := sizedOptions parseSizeStr opts in
    let maxUnused := TrimSpace (MaxUnused opts) in
    if String.eqb maxUnused EmptyString then
      (opts', Some (Fatalf "invalid value for --max-unused: %q" [MaxUnused opts]))
    else if String.eqb maxUnused "unlimited" then
      (set_maxUnusedBytes (fun used => MaxUint64) opts', None)
    else if HasSuffix maxUnused "%" then
      match ParseFloat parseNumber (TrimSuffix maxUnused "%") with
      | (_, Some err) =>
          (opts', Some (Fatalf "invalid percentage %q passed for --max-unused: %v"
                          [MaxUnused opts; errorText err]))
      | (p, None) =>
          if SFltb p (float64_of_Z 0) then
            (opts', Some (Fatal "percentage for --max-unused must be positive"))
          else if SFleb (float64_of_Z 100) p then
            (opts', Some (Fatal "percentage for --max-unused must be below 100%"))
          else
            (set_maxUnusedBytes (percentageOfUsed uint64OutOfRange p) opts', None)
      end
    else
      match parseSizeStr maxUnused with
      | (_, Some err) =>
          (opts', Some (Fatalf "invalid number of bytes %q for --max-unused: %v"
                          [MaxUnused opts; errorText err]))
      | (size, None) => (set_maxUnusedBytes (fun used => wrap64 size) opts', None)
      end.
Proof.
  intros H. unfold verify, verifyPruneOptions, sizedOptions.
  destruct (0 <? String.length (MaxRepackSize opts))%nat eqn:Hlen.
  - destruct H as [H|H]; [rewrite H in Hlen; discriminate|].
    destruct (parseSizeStr (MaxRepackSize opts)) as [size [err|]]; [discriminate|].
    reflexivity.
  - reflexivity.
Qed.

End VerifiedOptions.

(** ** The order of the listing *)

(** When no file is listed twice, the order of the listing decides neither
    whether the listing succeeds nor, when it does, the packs that are left
    in [indexPack] and the sets [removePacksFirst], [removePacks] and
    [ignorePacks]. *)
Lemma listPacks_permutation opts v files1 files2 :
  files1 ≡ₚ files2 -> NoDup files1.*1 ->
  ((listPacks opts v files1).2 = None <-> (listPacks opts v files2).2 = None)
  /\ ((listPacks opts v files1).2 = None ->
      indexPack (listPacks opts v files1).1 = indexPack (listPacks opts v files2).1
      /\ v_removePacksFirst (listPacks opts v files1).1
         = v_removePacksFirst (listPacks opts v files2).1
      /\ v_removePacks (listPacks opts v files1).1 = v_removePacks (listPacks opts v files2).1
      /\ v_ignorePacks (listPacks opts v files1).1 = v_ignorePacks (listPacks opts v files2).1).
Proof.
  intros Hp Hnd1.
  assert (Hnd2 : NoDup files2.*1) by (by rewrite <- Hp).
  assert (Hin : forall f, f ∈ files1 <-> f ∈ files2) by (intros f; by rewrite Hp).
  assert (Hid : forall id, id ∈ files1.*1 <-> id ∈ files2.*1) by (intros id; by rewrite Hp).
  assert (Hok : (listPacks opts v files1).2 = None <-> (listPacks opts v files2).2 = None).
  { rewrite !listPacks_succeeds by done.
    split; intros H id sz p Hf; apply H; by apply Hin. }
  split; [exact Hok|]. intros H1. pose proof (proj1 Hok H1) as H2.
  split; [|split; [|split]].
  - apply map_eq. intros id.
    rewrite (listPacks_indexPack _ _ _ _ H1), (listPacks_indexPack _ _ _ _ H2).
    repeat case_decide; try done; exfalso; naive_solver.
  - apply set_eq. intros id.
    rewrite (listPacks_removePacksFirst _ _ _ _ Hnd1 H1),
            (listPacks_removePacksFirst _ _ _ _ Hnd2 H2), Hid. done.
  - apply set_eq. intros id.
    rewrite (listPacks_removePacks _ _ _ _ H1), (listPacks_removePacks _ _ _ _ H2), Hid. done.
  - destruct (listPacks_untouched opts files1 v) as [_ ->].
    destruct (listPacks_untouched opts files2 v) as [_ ->]. done.
Qed.

(** The set [ignorePacks] after the loop over the missing packs depends on
    the planner through [indexPack] and [ignorePacks] only. *)
Lemma missingPacks_ignorePacks v1 v2 :
  indexPack v1 = indexPack v2 -> v_ignorePacks v1 = v_ignorePacks v2 ->
  v_ignorePacks (missingPacks v1) = v_ignorePacks (missingPacks v2).
Proof.
  intros Hi Hg. apply set_eq. intros id. unfold missingPacks.
  rewrite !missingPacksIn_ignorePacks, Hi, Hg. done.
Qed.

Lemma missingPacks_left_eq v1 v2 :
  indexPack v1 = indexPack v2 ->
  size (indexPack (missingPacks v1)) = 0%nat <-> size (indexPack (missingPacks v2)) = 0%nat.
Proof.
  intros Hi.
  pose proof (missingPacks_left v1) as H1. pose proof (missingPacks_left v2) as H2.
  rewrite Hi in H1. rewrite <- H2 in H1.
  destruct (decide (size (indexPack (missingPacks v1)) = 0%nat)),
           (decide (size (indexPack (missingPacks v2)) = 0%nat)); tauto.
Qed.

(** * The claims *)

(** C3.  [planPrune] fails with [errorIndexIncomplete] exactly when some
    handle of the used set that it is given occurs on no blob of the index.
    It then returns the zero plan and the statistics of the first pass, in
    which only the counters of the classification are set; it has read the
    index only (the backend is neither listed nor changed). *)
Theorem planPrune_index_incomplete
    (sortSlice : forall A : Type, (A -> A -> bool) -> list A -> list A)
    (opts : PruneOptions) (repo : Repository) (usedBlobs : gset BlobHandle) :
  ((planPrune sortSlice opts repo usedBlobs).2 = Some errorIndexIncomplete
   <-> exists h, h ∈ usedBlobs /\ h ∉ Handle <$> IndexEach repo)
  /\ ((planPrune sortSlice opts repo usedBlobs).2 = Some errorIndexIncomplete ->
      (planPrune sortSlice opts repo usedBlobs).1.1 = zeroPlan
      /\ (planPrune sortSlice opts repo usedBlobs).1.2
         = c_stats (classifyBlobs usedBlobs (IndexEach repo))
      /\ classificationOnly (planPrune sortSlice opts repo usedBlobs).1.2).
Proof.
  set (c := classifyBlobs usedBlobs (IndexEach repo)).
  assert (Hiff : (planPrune sortSlice opts repo usedBlobs).2 = Some errorIndexIncomplete
                 <-> size (c_usedBlobs c) ≠ 0%nat).
  { split.
    - intros He Hz.
      destruct (decide ((reconcile opts repo usedBlobs).2 = None)) as [Hr|Hr];
        [|by rewrite (planPrune_listing_failed sortSlice _ _ _ Hz Hr) in He].
      destruct (decide (size (indexPack (missingPacks (reconcile opts repo usedBlobs).1)) = 0%nat))
        as [Hm|Hm].
      + by rewrite (planPrune_planned sortSlice _ _ _ Hz Hr Hm) in He.
      + by rewrite (planPrune_missing sortSlice _ _ _ Hz Hr Hm) in He.
    - intros Hn. by rewrite (planPrune_incomplete sortSlice _ _ _ Hn). }
  split.
  - rewrite Hiff. split.
    + intros Hn. apply size_non_empty_iff in Hn.
      apply set_choose in Hn as [h Hh]. unfold c, classifyBlobs in Hh.
      apply classify_used in Hh as [Hu Hi].
      exists h. by split.
    + intros (h&Hu&Hi) Hz. unfold c in Hz.
      apply Hi. by apply (proj1 (classifyBlobs_complete _ _) Hz).
  - intros He. apply Hiff in He.
    rewrite (planPrune_incomplete sortSlice _ _ _ He). simpl.
    split; [done|split; [done|]].
    by apply classify_stats.
Qed.

(** C1.  When [planPrune] returns without error, every handle of the used
    set that it was given is in [plan.keepBlobs], and every pack of
    [plan.removePacks] has zero used and zero duplicate blobs in
    [indexPack]: no blob that the index places in it has its handle in
    [keepBlobs], in [duplicateBlobs] or in the used set.  (The index has
    fewer than 2^64 blobs, so the counters of blobs do not wrap.) *)
Theorem planPrune_safety
    (sortSlice : forall A : Type, (A -> A -> bool) -> list A -> list A)
    (opts : PruneOptions) (repo : Repository) (usedBlobs : gset BlobHandle) :
  Z.of_nat (length (IndexEach repo)) < 2 ^ 64 ->
  (planPrune sortSlice opts repo usedBlobs).2 = None ->
  let plan := (planPrune sortSlice opts repo usedBlobs).1.1 in
  let duplicateBlobs := c_duplicateBlobs (classifyBlobs usedBlobs (IndexEach repo)) in
  (forall h, h ∈ usedBlobs -> h ∈ keepBlobs plan)
  /\ (forall id, id ∈ removePacks plan ->
       (exists p, buildIndexPack (keepBlobs plan) duplicateBlobs repo !! id = Some p
                  /\ packInfo.usedBlobs p = 0 /\ packInfo.duplicateBlobs p = 0)
       /\ (forall b, b ∈ IndexEach repo -> PackID b = id ->
             (Handle b ∉ keepBlobs plan) /\ (Handle b ∉ duplicateBlobs)
             /\ (Handle b ∉ usedBlobs))).
Proof.
  intros Hlen Hok.
  destruct (planPrune_plan sortSlice opts repo usedBlobs Hok) as (Hk&_&Hrp&_).
  apply planPrune_succeeds in Hok as (Hz&Hr&Hm).
  cbv zeta. rewrite Hk, Hrp.
  set (c := classifyBlobs usedBlobs (IndexEach repo)).
  assert (Hkeep : forall h, h ∈ usedBlobs -> h ∈ c_keepBlobs c)
    by (intros h; by apply classifyBlobs_keep).
  split; [exact Hkeep|].
  intros id Hid.
  unfold reconcile in Hid. fold c in Hid.
  apply listPacks_removePacks in Hid; [|exact Hr].
  destruct Hid as [Hid|(_&p&Hp&Hun)]; [by apply elem_of_empty in Hid|].
  cbn [indexPack startPlanner] in Hp.
  assert (Hfacts : forall b, b ∈ IndexEach repo -> PackID b = id ->
            (Handle b ∉ c_keepBlobs c) /\ (Handle b ∉ c_duplicateBlobs c)).
  { intros b Hb Hpid. by eapply buildIndexPack_unneeded. }
  split.
  - exists p. split; [done|]. unfold unneeded in Hun.
    apply andb_true_iff in Hun as [Hu Hd]. apply Z.eqb_eq in Hu, Hd. done.
  - intros b Hb Hpid. destruct (Hfacts b Hb Hpid) as [Hk' Hd].
    split; [done|split; [done|]]. intros Hu. by apply Hk', Hkeep.
Qed.

(** A run of [planPrune] on the sample repository, for C1. *)
Lemma planPrune_safety_witness :
  (forall h, h ∈ sampleUsed ->
     h ∈ keepBlobs (planPrune insertionSort sampleOpts sampleRepo sampleUsed).1.1)
  /\ (forall id, id ∈ removePacks (planPrune insertionSort sampleOpts sampleRepo sampleUsed).1.1 ->
       (exists p, buildIndexPack
                    (keepBlobs (planPrune insertionSort sampleOpts sampleRepo sampleUsed).1.1)
                    (c_duplicateBlobs (classifyBlobs sampleUsed (IndexEach sampleRepo)))
                    sampleRepo !! id = Some p
                  /\ packInfo.usedBlobs p = 0 /\ packInfo.duplicateBlobs p = 0)
       /\ (forall b, b ∈ IndexEach sampleRepo -> PackID b = id ->
             (Handle b ∉ keepBlobs (planPrune insertionSort sampleOpts sampleRepo sampleUsed).1.1)
             /\ (Handle b ∉ c_duplicateBlobs (classifyBlobs sampleUsed (IndexEach sampleRepo)))
             /\ (Handle b ∉ sampleUsed))).
Proof.
  apply (planPrune_safety insertionSort sampleOpts sampleRepo sampleUsed).
  - simpl. lia.
  - vm_compute. reflexivity.
Defined.



(** The run of [planPrune]: when no file is listed twice and every used
    blob is in the index, [planPrune] fails with [errorSizeNotMatching]
    exactly when some listed pack of the index fails the size test. *)
Lemma planPrune_size_mismatch
    (sortSlice : forall A : Type, (A -> A -> bool) -> list A -> list A)
    (opts : PruneOptions) (repo : Repository) (usedBlobs : gset BlobHandle) :
  NoDup (ListPackFiles repo).*1 ->
  size (c_usedBlobs (classifyBlobs usedBlobs (IndexEach repo))) = 0%nat ->
  let c := classifyBlobs usedBlobs (IndexEach repo) in
  (planPrune sortSlice opts repo usedBlobs).2 = Some errorSizeNotMatching
  <-> exists id sz p, (id, sz) ∈ ListPackFiles repo
        /\ buildIndexPack (c_keepBlobs c) (c_duplicateBlobs c) repo !! id = Some p
        /\ sizeMismatch p sz = true.
Proof.
  intros Hnd Hz c.
  pose proof (listPacks_succeeds opts (ListPackFiles repo)
    (startPlanner (buildIndexPack (c_keepBlobs c) (c_duplicateBlobs c) repo) (c_stats c)) Hnd)
    as Hs.
  change (listPacks _ _ _) with (reconcile opts repo usedBlobs) in Hs. simpl in Hs.
  split.
  - intros He.
    destruct (decide ((reconcile opts repo usedBlobs).2 = None)) as [Hr|Hr].
    + exfalso.
      destruct (decide (size (indexPack (missingPacks (reconcile opts repo usedBlobs).1)) = 0%nat))
        as [Hm|Hm].
      * by rewrite (planPrune_planned sortSlice _ _ _ Hz Hr Hm) in He.
      * by rewrite (planPrune_missing sortSlice _ _ _ Hz Hr Hm) in He.
    + by apply (listPacks_fails opts) in Hr.
  - intros (id&sz&p&Hin&Hl&Hm).
    rewrite (planPrune_listing_failed sortSlice); [done|done|].
    rewrite Hs. intros H. specialize (H id sz p Hin Hl). congruence.
Qed.

(** C5.  Once every used blob has been found and the listing has
    succeeded, the packs left in [indexPack] are the packs of the index
    that are absent from the listing.  [planPrune] fails with
    [errorPacksMissing] exactly when one of them has a used or a duplicate
    blob, and succeeds exactly when none has.  When it succeeds,
    [plan.ignorePacks] holds exactly the missing packs (each has zero used
    and zero duplicate blobs).  In both cases the unused blobs and bytes
    of the missing packs with zero used and zero duplicate blobs have been
    added (in uint64) to [stats.Blobs.Remove] and [stats.Size.Remove]. *)
Theorem planPrune_missing_packs
    (sortSlice : forall A : Type, (A -> A -> bool) -> list A -> list A)
    (opts : PruneOptions) (repo : Repository) (usedBlobs : gset BlobHandle) :
  let c := classifyBlobs usedBlobs (IndexEach repo) in
  let index := buildIndexPack (c_keepBlobs c) (c_duplicateBlobs c) repo in
  let listed := reconcile opts repo usedBlobs in
  let missing := map_to_list (indexPack listed.1) in
  let result := planPrune sortSlice opts repo usedBlobs in
  size (c_usedBlobs c) = 0%nat ->
  listed.2 = None ->
  (forall id p, (id, p) ∈ missing
     <-> index !! id = Some p /\ (id ∉ (ListPackFiles repo).*1))
  /\ (result.2 = Some errorPacksMissing
      <-> exists id p, (id, p) ∈ missing
            /\ ~ (packInfo.usedBlobs p = 0 /\ packInfo.duplicateBlobs p = 0))
  /\ (result.2 = None
      <-> forall id p, (id, p) ∈ missing ->
            packInfo.usedBlobs p = 0 /\ packInfo.duplicateBlobs p = 0)
  /\ (result.2 = None ->
      forall id, id ∈ ignorePacks result.1.1
        <-> exists p, (id, p) ∈ missing
              /\ packInfo.usedBlobs p = 0 /\ packInfo.duplicateBlobs p = 0)
  /\ blobStats.Remove (Blobs result.1.2)
     = add64 (blobStats.Remove (Blobs (stats listed.1))) (forgottenBlobs missing)
  /\ sizeStats.Remove (Size result.1.2)
     = add64 (sizeStats.Remove (Size (stats listed.1))) (forgottenBytes missing).
Proof.
  intros c index listed missing result Hz Hr.
  assert (Hun : forall p, unneeded p = true
                  <-> packInfo.usedBlobs p = 0 /\ packInfo.duplicateBlobs p = 0).
  { intros p. unfold unneeded. rewrite andb_true_iff, !Z.eqb_eq. done. }
  assert (Hleft : size (indexPack (missingPacks listed.1)) ≠ 0%nat
                  <-> exists id p, (id, p) ∈ missing
                        /\ ~ (packInfo.usedBlobs p = 0 /\ packInfo.duplicateBlobs p = 0)).
  { rewrite missingPacks_left. fold missing.
    split; intros (id&p&Hin&Hp); exists id, p; (split; [done|]).
    - rewrite <- Hun. by rewrite Hp.
    - rewrite <- Hun in Hp. by destruct (unneeded p). }
  assert (Herr : result.2 = Some errorPacksMissing
                 <-> size (indexPack (missingPacks listed.1)) ≠ 0%nat).
  { unfold result. split.
    - intros He Hm. by rewrite (planPrune_planned sortSlice _ _ _ Hz Hr Hm) in He.
    - intros Hm. by rewrite (planPrune_missing sortSlice _ _ _ Hz Hr Hm). }
  assert (Hok : result.2 = None <-> size (indexPack (missingPacks listed.1)) = 0%nat).
  { unfold result. rewrite planPrune_succeeds. fold c listed. naive_solver. }
  split; [|split; [|split; [|split]]].
  - intros id p. by apply reconcile_indexPack.
  - by rewrite Herr.
  - rewrite Hok. split.
    + intros Hm id p Hin.
      destruct (decide (packInfo.usedBlobs p = 0 /\ packInfo.duplicateBlobs p = 0)) as [|Hn];
        [done|].
      exfalso. apply Hleft; [|done]. eauto.
    + intros Hall. destruct (decide (size (indexPack (missingPacks listed.1)) = 0%nat)) as [|Hn];
        [done|].
      apply Hleft in Hn as (id&p&Hin&Hp). exfalso. apply Hp. by apply (Hall id).
  - intros Hnone id.
    destruct (planPrune_plan sortSlice opts repo usedBlobs Hnone) as (_&_&_&Hi&_).
    unfold result. rewrite Hi. unfold missingPacks.
    rewrite missingPacksIn_ignorePacks. fold listed missing.
    assert (Hempty : v_ignorePacks listed.1 = ∅).
    { unfold listed, reconcile.
      match goal with |- context [listPacks ?o ?w ?fs] =>
        destruct (listPacks_untouched o fs w) as [_ ->] end.
      done. }
    rewrite Hempty. setoid_rewrite Hun. set_solver.
  - destruct (planPrune_remove sortSlice opts repo usedBlobs Hz Hr) as [Hb Hs].
    assert (Hrange : removeInRange (stats listed.1)).
    { unfold listed, reconcile.
      match goal with |- context [listPacks ?o ?w ?fs] =>
        destruct (listPacks_stats o fs w) as (_&_&Hi) end.
      apply Hi. apply classifyBlobs_removeInRange. }
    destruct Hrange as [Hrb Hrs].
    destruct (missingPacksIn_remove missing listed.1 Hrb Hrs) as [Eb Es].
    unfold result. rewrite Hb, Hs. unfold missingPacks. fold listed missing.
    by rewrite Eb, Es.
Qed.

(** The sample repository, for C5: pack 4 is in the index and not on the
    backend, and it holds one unused blob of 40 bytes. *)
Lemma planPrune_missing_packs_witness :
  let listed := reconcile sampleOpts sampleRepo sampleUsed in
  let missing := map_to_list (indexPack listed.1) in
  let result := planPrune insertionSort sampleOpts sampleRepo sampleUsed in
  missing = [(4%N, packInfo.mk 0 1 0 5 40 DataBlob)]
  /\ result.2 = None
  /\ (forall id, id ∈ ignorePacks result.1.1
        <-> exists p, (id, p) ∈ missing
              /\ packInfo.usedBlobs p = 0 /\ packInfo.duplicateBlobs p = 0)
  /\ blobStats.Remove (Blobs result.1.2)
     = add64 (blobStats.Remove (Blobs (stats listed.1))) (forgottenBlobs missing)
  /\ sizeStats.Remove (Size result.1.2)
     = add64 (sizeStats.Remove (Size (stats listed.1))) (forgottenBytes missing).
Proof.
  intros listed missing result.
  destruct (planPrune_missing_packs insertionSort sampleOpts sampleRepo sampleUsed)
    as (_&_&_&Hi&Hs).
  - vm_compute. reflexivity.
  - vm_compute. reflexivity.
  - split; [vm_compute; reflexivity|].
    split; [vm_compute; reflexivity|].
    split; [apply Hi; vm_compute; reflexivity|exact Hs].
Defined.




(** A step of the selection loop in terms of the conditions. *)
Lemma selectPack_toRepack (opts : PruneOptions) (maxUnusedSizeAfter : Z)
    (v : planner) (c : packInfoWithID) :
  (wouldExceedRepack opts v (pwInfo c) <-> reachedRepackSize opts v (pwInfo c) = true)
  /\ (alwaysRepacked (pwInfo c)
      <-> (0 <? packInfo.duplicateBlobs (pwInfo c))
          || negb (bool_decide (packInfo.tpe (pwInfo c) = DataBlob)) = true)
  /\ (targetReached maxUnusedSizeAfter v
      <-> reachedUnusedSizeAfter maxUnusedSizeAfter v = true)
  /\ (toRepack opts maxUnusedSizeAfter v (pwInfo c) ->
      selectPack opts maxUnusedSizeAfter v c = repack (pwID c) (pwInfo c) v)
  /\ (~ toRepack opts maxUnusedSizeAfter v (pwInfo c) ->
      selectPack opts maxUnusedSizeAfter v c = keep (pwInfo c) v).
Proof.
  set (p := pwInfo c).
  assert (Hex : wouldExceedRepack opts v p <-> reachedRepackSize opts v p = true).
  { unfold reachedRepackSize, wouldExceedRepack.
    destruct (0 <? MaxRepackBytes opts) eqn:Hcap.
    - apply Z.ltb_lt in Hcap. rewrite Z.gtb_ltb, Z.ltb_lt. tauto.
    - apply Z.ltb_ge in Hcap. split; [|done]. intros [? _]. lia. }
  assert (Hal : alwaysRepacked p
                <-> (0 <? packInfo.duplicateBlobs p)
                    || negb (bool_decide (packInfo.tpe p = DataBlob)) = true).
  { unfold alwaysRepacked. destruct (Z.ltb_spec 0 (packInfo.duplicateBlobs p)) as [Hd|Hd];
      [cbn [orb]; tauto|].
    cbn [orb]. case_bool_decide as Ht; cbn [negb]; [|tauto].
    split; [|done]. intros [?|?]; [lia|done]. }
  assert (Hre : targetReached maxUnusedSizeAfter v
                <-> reachedUnusedSizeAfter maxUnusedSizeAfter v = true).
  { unfold reachedUnusedSizeAfter, targetReached. symmetry. apply Z.ltb_lt. }
  split; [exact Hex|]. split; [exact Hal|]. split; [exact Hre|].
  unfold toRepack, selectPack. fold p.
  destruct (reachedRepackSize opts v p).
  { split; [|done]. intros [Hw _]. destruct Hw. by apply Hex. }
  destruct (_ || _).
  { split; [done|]. intros Hn. destruct Hn. split; [|left; by apply Hal].
    intros Hw. by apply Hex in Hw. }
  destruct (reachedUnusedSizeAfter maxUnusedSizeAfter v).
  - split; [|done]. intros [_ [Ha|Hr]]; [by apply Hal in Ha|]. destruct Hr. by apply Hre.
  - split; [done|]. intros Hn. destruct Hn. split.
    + intros Hw. by apply Hex in Hw.
    + right. intros Hr. by apply Hre in Hr.
Qed.

(** The conditions are decidable. *)
Lemma toRepack_dec (opts : PruneOptions) (maxUnusedSizeAfter : Z)
    (v : planner) (p : packInfo.t) :
  {toRepack opts maxUnusedSizeAfter v p} + {~ toRepack opts maxUnusedSizeAfter v p}.
Proof.
  unfold toRepack, wouldExceedRepack, alwaysRepacked, targetReached.
  apply (decide _).
Qed.

(** What keeping and repacking show. *)
Lemma keep_candidateKept (p : packInfo.t) (v : planner) : candidateKept v (keep p v).
Proof.
  destruct (keep_fields p v) as (_&_&_&Hr&_).
  destruct (keep_stats p v) as (Hs&Hb&Hk).
  unfold candidateKept. rewrite Hr, Hs, Hb, Hk. done.
Qed.

Lemma repack_candidateRepacked (c : packInfoWithID) (v : planner) :
  candidateRepacked c v (repack (pwID c) (pwInfo c) v).
Proof.
  unfold candidateRepacked. cbv zeta.
  destruct v as [ip rf rp rr cs ra ig [m [] [] []]]. cbn. done.
Qed.

Lemma candidateKept_not_repacked (c : packInfoWithID) (v next : planner) :
  candidateKept v next -> candidateRepacked c v next -> False.
Proof.
  intros (_&_&_&_&_&Hk) (_&_&_&_&_&Hk'). rewrite Hk in Hk'.
  revert Hk'. unfold add64, wrap64.
  set (k := packStats.Keep (Packs (stats v))). intros Hk'.
  assert (Hr : 0 <= k < 2 ^ 64) by (rewrite <- Hk'; apply Z.mod_pos_bound; lia).
  destruct (decide (k + 1 < 2 ^ 64)) as [Hlt|Hge].
  - rewrite Z.mod_small in Hk' by lia. lia.
  - assert (k + 1 = 2 ^ 64) as Heq by lia. rewrite Heq, Z.mod_same in Hk' by lia. lia.
Qed.

(** The packs that the selection loop has repacked: those already repacked
    and the candidates that were to be repacked at their turn. *)
Lemma selectPacks_chosen (opts : PruneOptions) (maxUnusedSizeAfter : Z)
    (cs : list packInfoWithID) : forall (v : planner) (id : ID),
  id ∈ v_repackPacks (selectPacks opts maxUnusedSizeAfter v cs)
  <-> id ∈ v_repackPacks v
      \/ exists pre c post,
           cs = pre ++ c :: post /\ pwID c = id
           /\ toRepack opts maxUnusedSizeAfter
                (selectPacks opts maxUnusedSizeAfter v pre) (pwInfo c).
Proof.
  induction cs as [|c cs IH]; intros v id.
  - cbn. split; [by left|]. intros [?|(pre&c&post&E&_)]; [done|].
    by destruct pre.
  - change (selectPacks opts maxUnusedSizeAfter v (c :: cs))
      with (selectPacks opts maxUnusedSizeAfter (selectPack opts maxUnusedSizeAfter v c) cs).
    rewrite IH. clear IH.
    destruct (selectPack_toRepack opts maxUnusedSizeAfter v c) as (_&_&_&Hyes&Hno).
    split.
    + intros [Hin|(pre&c'&post&->&Hid&Hto)].
      * destruct (toRepack_dec opts maxUnusedSizeAfter v (pwInfo c)) as [Ht|Ht].
        -- rewrite (Hyes Ht) in Hin.
           destruct (repack_fields (pwID c) (pwInfo c) v) as (_&_&_&_&Hr).
           rewrite Hr in Hin. apply elem_of_union in Hin as [Hin|Hin]; [|by left].
           apply elem_of_singleton in Hin. right. exists [], c, cs. done.
        -- rewrite (Hno Ht) in Hin.
           destruct (keep_fields (pwInfo c) v) as (_&_&_&Hr&_).
           rewrite Hr in Hin. by left.
      * right. exists (c :: pre), c', post. done.
    + intros [Hin|(pre&c'&post&E&Hid&Hto)].
      * left.
        destruct (selectPack_cases opts maxUnusedSizeAfter v c) as [->| ->].
        -- destruct (keep_fields (pwInfo c) v) as (_&_&_&->&_). done.
        -- destruct (repack_fields (pwID c) (pwInfo c) v) as (_&_&_&_&->).
           apply elem_of_union. by right.
      * destruct pre as [|c0 pre]; cbn in E; injection E as <- ->.
        -- left. cbn in Hto. rewrite (Hyes Hto).
           destruct (repack_fields (pwID c) (pwInfo c) v) as (_&_&_&_&->).
           apply elem_of_union. left. by apply elem_of_singleton.
        -- right. exists pre, c', post. done.
Qed.

(** C7.  The selection loop runs [selectPack] on the candidates in the
    order in which [sort.Slice] has left them, with [maxUnusedSizeAfter]
    computed by [opts.maxUnusedBytes] from [stats.Size.Used].  A step keeps
    the candidate when [MaxRepackBytes] is set (positive) and
    [stats.Size.Repack] plus the candidate's unused and used bytes (in
    uint64) exceeds it; otherwise it repacks a candidate that has a
    duplicate blob or whose type is not [DataBlob]; otherwise it keeps the
    candidate exactly when [Size.Unused - Size.Remove - Size.RepackRm] (in
    uint64) is strictly below [maxUnusedSizeAfter] and repacks it exactly
    when it is not.  A candidate that is kept leaves [repackPacks] and the
    counters of repacking as they are and is counted in [Packs.Keep]; a
    candidate that is repacked enters [repackPacks], and its bytes and
    blobs are added to [Size.Repack], [Size.RepackRm], [Blobs.Repack] and
    [Blobs.RepackRm]; no step does both.  Hence the loop repacks exactly
    the candidates that are to be repacked at their turn, and so does a run
    of [planPrune] that succeeds, on the sorted candidates.  When
    [MaxRepackBytes] is set, [stats.Size.Repack] never exceeds it: a step
    preserves the bound, and so do the loop and a run of [planPrune]. *)
Theorem selectPack_decision
    (opts : PruneOptions) (maxUnusedSizeAfter : Z) (v : planner) (c : packInfoWithID) :
  let p := pwInfo c in
  let next := selectPack opts maxUnusedSizeAfter v c in
  (wouldExceedRepack opts v p -> next = keep p v /\ candidateKept v next)
  /\ (~ wouldExceedRepack opts v p -> alwaysRepacked p ->
      next = repack (pwID c) p v /\ candidateRepacked c v next)
  /\ (~ wouldExceedRepack opts v p -> ~ alwaysRepacked p ->
      (candidateKept v next <-> targetReached maxUnusedSizeAfter v)
      /\ (candidateRepacked c v next <-> ~ targetReached maxUnusedSizeAfter v))
  /\ ~ (candidateKept v next /\ candidateRepacked c v next)
  /\ (pwID c ∈ v_repackPacks next
      <-> pwID c ∈ v_repackPacks v \/ toRepack opts maxUnusedSizeAfter v p)
  /\ (0 < MaxRepackBytes opts ->
      sizeStats.Repack (Size (stats v)) <= MaxRepackBytes opts ->
      sizeStats.Repack (Size (stats next)) <= MaxRepackBytes opts)
  /\ (forall (cs : list packInfoWithID) (id : ID),
        id ∈ v_repackPacks (selectPacks opts maxUnusedSizeAfter v cs)
        <-> id ∈ v_repackPacks v
            \/ exists pre c' post,
                 cs = pre ++ c' :: post /\ pwID c' = id
                 /\ toRepack opts maxUnusedSizeAfter
                      (selectPacks opts maxUnusedSizeAfter v pre) (pwInfo c'))
  /\ (forall (sortSlice : forall A : Type, (A -> A -> bool) -> list A -> list A)
             (repo : Repository) (usedBlobs : gset BlobHandle),
        (planPrune sortSlice opts repo usedBlobs).2 = None ->
        let v0 := missingPacks (reconcile opts repo usedBlobs).1 in
        let limit := maxUnusedBytes opts (sizeStats.Used (Size (stats v0))) in
        let sorted := sortSlice _ lessCandidate (repackCandidates v0) in
        let start := set_repackCandidates sorted v0 in
        (forall id : ID,
           id ∈ repackPacks (planPrune sortSlice opts repo usedBlobs).1.1
           <-> exists pre c' post,
                 sorted = pre ++ c' :: post /\ pwID c' = id
                 /\ toRepack opts limit (selectPacks opts limit start pre) (pwInfo c'))
        /\ (0 < MaxRepackBytes opts ->
            sizeStats.Repack (Size (planPrune sortSlice opts repo usedBlobs).1.2)
            <= MaxRepackBytes opts)).
Proof.
  intros p next.
  destruct (selectPack_toRepack opts maxUnusedSizeAfter v c) as (Hex&Hal&Hre&Hyes&Hno).
  fold p in Hex, Hal, Hyes, Hno. fold next in Hyes, Hno.
  assert (Hk : next = keep p v -> candidateKept v next).
  { intros ->. apply keep_candidateKept. }
  assert (Hr : next = repack (pwID c) p v -> candidateRepacked c v next).
  { intros ->. apply repack_candidateRepacked. }
  assert (Hx : ~ (candidateKept v next /\ candidateRepacked c v next)).
  { intros [H1 H2]. exact (candidateKept_not_repacked c v next H1 H2). }
  split; [|split; [|split; [|split; [|split; [|split; [|split]]]]]].
  - intros Hw. assert (next = keep p v) as E; [|by split; [|apply Hk]].
    apply Hno. by intros [Hn _].
  - intros Hw Ha. assert (next = repack (pwID c) p v) as E; [|by split; [|apply Hr]].
    apply Hyes. split; [done|by left].
  - intros Hw Ha.
    destruct (Z_lt_dec (sub64 (sub64 (sizeStats.Unused (Size (stats v)))
                                     (sizeStats.Remove (Size (stats v))))
                              (sizeStats.RepackRm (Size (stats v)))) maxUnusedSizeAfter)
      as [Ht|Ht]; fold (targetReached maxUnusedSizeAfter v) in Ht.
    + assert (next = keep p v) as E.
      { apply Hno. intros [_ [?|?]]; done. }
      split; split; try done.
      * intros _. by apply Hk.
      * intros H2. destruct Hx. split; [by apply Hk|done].
    + assert (next = repack (pwID c) p v) as E.
      { apply Hyes. split; [done|by right]. }
      split; split; try done.
      * intros H1. destruct Hx. split; [done|by apply Hr].
      * intros _. by apply Hr.
  - exact Hx.
  - destruct (toRepack_dec opts maxUnusedSizeAfter v p) as [Ht|Ht].
    + rewrite (Hyes Ht).
      destruct (repack_fields (pwID c) p v) as (_&_&_&_&->).
      split; [by right|]. intros _. apply elem_of_union. left. by apply elem_of_singleton.
    + rewrite (Hno Ht).
      destruct (keep_fields p v) as (_&_&_&->&_).
      split; [by left|]. by intros [?|?].
  - intros Hcap Hle. by apply selectPack_cap.
  - intros cs id. apply selectPacks_chosen.
  - intros sortSlice repo usedBlobs Hok v0 limit sorted start.
    destruct (planPrune_plan sortSlice opts repo usedBlobs Hok) as (_&_&_&_&Hrp&Hst).
    split.
    + intros id. rewrite Hrp. fold v0.
      change (v_repackPacks (selectAndTotal sortSlice opts v0))
        with (v_repackPacks (selectPacks opts limit start sorted)).
      rewrite selectPacks_chosen.
      assert (Hempty : v_repackPacks start = ∅).
      { unfold start, v0, missingPacks. cbn [v_repackPacks set_repackCandidates].
        destruct (missingPacksIn_fields
                    (map_to_list (indexPack (reconcile opts repo usedBlobs).1))
                    (reconcile opts repo usedBlobs).1) as (_&_&->&_).
        unfold reconcile.
        match goal with |- context [listPacks ?o ?w ?fs] =>
          destruct (listPacks_untouched o fs w) as [-> _] end.
        done. }
      rewrite Hempty. split; [|by right]. intros [Hin|?]; [|done].
      by apply elem_of_empty in Hin.
    + intros Hcap. rewrite Hst. apply selectAndTotal_cap; [done|].
      destruct (reconcile_unused opts repo usedBlobs) as [_ ->]. lia.
Qed.

(** Steps of the selection on the sample planner and a run on two tied
    packs, for C7: with [--max-repack-size 30] a candidate of 35 bytes is
    kept; a candidate of 25 bytes with a duplicate is repacked, and its id
    and its bytes are recorded; with [--max-unused 0] a data pack of 25
    bytes without duplicates is repacked and with [--max-unused unlimited]
    it is kept; and of the two tied packs of 25 bytes the run repacks the
    first, which leaves no room for the second. *)
Lemma selectPack_decision_witness :
  let big := mkPackInfoWithID 1%N (packInfo.mk 2 0 0 35 0 DataBlob) in
  let dup := mkPackInfoWithID 2%N (packInfo.mk 1 1 1 15 10 DataBlob) in
  let plain := mkPackInfoWithID 3%N (packInfo.mk 1 1 0 15 10 DataBlob) in
  let tied := tiedRepo [(1%N, 25); (2%N, 25)] in
  let used : gset BlobHandle := {[dataHandle 1; dataHandle 2]} in
  candidateKept samplePlanner (selectPack cappedOpts 0 samplePlanner big)
  /\ (candidateRepacked dup samplePlanner (selectPack cappedOpts 0 samplePlanner dup)
      /\ v_repackPacks (selectPack cappedOpts 0 samplePlanner dup) = {[2%N]}
      /\ sizeStats.Repack (Size (stats (selectPack cappedOpts 0 samplePlanner dup))) = 25)
  /\ candidateRepacked plain samplePlanner (selectPack zeroOpts 0 samplePlanner plain)
  /\ candidateKept samplePlanner (selectPack sampleOpts MaxUint64 samplePlanner plain)
  /\ (1%N ∈ repackPacks (planPrune insertionSort cappedOpts tied used).1.1
      /\ 2%N ∉ repackPacks (planPrune insertionSort cappedOpts tied used).1.1).
Proof.
  intros big dup plain tied used.
  split; [|split; [|split; [|split]]].
  - destruct (selectPack_decision cappedOpts 0 samplePlanner big) as (H&_).
    apply H. vm_compute. split; reflexivity.
  - destruct (selectPack_decision cappedOpts 0 samplePlanner dup) as (_&H&_).
    split; [|split; vm_compute; reflexivity].
    apply H.
    + intros [_ Hlt]. vm_compute in Hlt. discriminate.
    + left. vm_compute. reflexivity.
  - destruct (selectPack_decision zeroOpts 0 samplePlanner plain) as (_&_&H&_).
    apply H.
    + intros [Hlt _]. vm_compute in Hlt. discriminate.
    + intros [Hlt|Hne]; [vm_compute in Hlt; discriminate|by destruct Hne].
    + intros Hlt. vm_compute in Hlt. discriminate.
  - destruct (selectPack_decision sampleOpts MaxUint64 samplePlanner plain) as (_&_&H&_).
    apply H.
    + intros [Hlt _]. vm_compute in Hlt. discriminate.
    + intros [Hlt|Hne]; [vm_compute in Hlt; discriminate|by destruct Hne].
    + vm_compute. reflexivity.
  - destruct (selectPack_decision cappedOpts 0 samplePlanner big)
      as (_&_&_&_&_&_&_&H).
    destruct (H insertionSort tied used ltac:(vm_compute; reflexivity)) as [Hiff _].
    split.
    + apply Hiff.
      exists [], (mkPackInfoWithID 1%N (packInfo.mk 1 1 0 15 10 DataBlob)),
        [mkPackInfoWithID 2%N (packInfo.mk 1 1 0 15 10 DataBlob)].
      split; [vm_compute; reflexivity|]. split; [reflexivity|].
      split.
      * intros [_ Hlt]. vm_compute in Hlt. discriminate.
      * right. intros Hlt. vm_compute in Hlt. discriminate.
    + vm_compute. intros Hin. apply (bool_decide_pack _) in Hin. vm_compute in Hin. done.
Defined.



(** C2, as stated, fails for the counters of blobs: on the sample
    repository the run succeeds with 100 unreferenced bytes in one
    unreferenced pack, and [Blobs.RemoveTotal] is [Remove + RepackRm] = 3,
    with no share for what is unreferenced. *)
Lemma planPrune_accounting_counterexample :
  let result := planPrune insertionSort sampleOpts sampleRepo sampleUsed in
  let st := result.1.2 in
  result.2 = None
  /\ sizeStats.Unref (Size st) = 100
  /\ packStats.Unref (Packs st) = 1
  /\ blobStats.RemoveTotal (Blobs st) = 3
  /\ blobStats.RemoveTotal (Blobs st)
     <> add64 (add64 (blobStats.Remove (Blobs st)) (blobStats.RepackRm (Blobs st)))
              (sizeStats.Unref (Size st))
  /\ blobStats.RemoveTotal (Blobs st)
     <> add64 (add64 (blobStats.Remove (Blobs st)) (blobStats.RepackRm (Blobs st)))
              (packStats.Unref (Packs st)).
Proof. vm_compute. repeat split; discriminate. Qed.

(** C2, amended.  The statistics of a run of [planPrune] that succeeds
    satisfy, in uint64 arithmetic:
    [Blobs.Total = Used + Unused + Duplicate];
    [Size.Total = Used + Duplicate + unused + Unref], where [unused] is
    [Size.Unused] as the first pass has accumulated it, the returned
    [Size.Unused] being [Duplicate + unused];
    [Blobs.RemoveTotal = Remove + RepackRm] (the counters of blobs have no
    unreferenced part) and [Size.RemoveTotal = Remove + RepackRm + Unref];
    [Remain = Total - RemoveTotal] for blobs and for bytes. *)
Theorem planPrune_accounting
    (sortSlice : forall A : Type, (A -> A -> bool) -> list A -> list A)
    (opts : PruneOptions) (repo : Repository) (usedBlobs : gset BlobHandle) :
  (planPrune sortSlice opts repo usedBlobs).2 = None ->
  let st := (planPrune sortSlice opts repo usedBlobs).1.2 in
  let unused := sizeStats.Unused (Size (c_stats (classifyBlobs usedBlobs (IndexEach repo)))) in
  blobStats.Total (Blobs st)
  = add64 (add64 (blobStats.Used (Blobs st)) (blobStats.Unused (Blobs st)))
          (blobStats.Duplicate (Blobs st))
  /\ blobStats.RemoveTotal (Blobs st)
     = add64 (blobStats.Remove (Blobs st)) (blobStats.RepackRm (Blobs st))
  /\ blobStats.Remain (Blobs st)
     = sub64 (blobStats.Total (Blobs st)) (blobStats.RemoveTotal (Blobs st))
  /\ sizeStats.Total (Size st)
     = add64 (add64 (add64 (sizeStats.Used (Size st)) (sizeStats.Duplicate (Size st))) unused)
             (sizeStats.Unref (Size st))
  /\ sizeStats.Unused (Size st) = add64 (sizeStats.Duplicate (Size st)) unused
  /\ sizeStats.RemoveTotal (Size st)
     = add64 (add64 (sizeStats.Remove (Size st)) (sizeStats.RepackRm (Size st)))
             (sizeStats.Unref (Size st))
  /\ sizeStats.Remain (Size st)
     = sub64 (sizeStats.Total (Size st)) (sizeStats.RemoveTotal (Size st)).
Proof.
  intros Hok.
  destruct (planPrune_plan sortSlice opts repo usedBlobs Hok) as (_&_&_&_&_&Hst).
  cbv zeta. rewrite Hst.
  unfold selectAndTotal. cbv zeta. cbn [stats onStats].
  match goal with |- context [totals ?w (creditDuplicates ?w)] =>
    pose proof (totals_closure w (creditDuplicates w)) as Hc;
    destruct (creditDuplicates_size w) as [Hu _] end.
  cbv zeta in Hc. rewrite Hu in Hc.
  match type of Hc with context [selectPacks ?o ?m ?w ?cs] =>
    destruct (selectPacks_stats o m cs w) as (Hs&_&_) end.
  rewrite Hs in Hc. cbn [stats set_repackCandidates] in Hc.
  destruct (reconcile_unused opts repo usedBlobs) as [Hr _].
  rewrite Hr in Hc. exact Hc.
Qed.

(** The statistics of the sample repository, for C2. *)
Lemma planPrune_accounting_witness :
  let st := (planPrune insertionSort sampleOpts sampleRepo sampleUsed).1.2 in
  (blobStats.Total (Blobs st) = 5 /\ blobStats.RemoveTotal (Blobs st) = 3
   /\ blobStats.Remain (Blobs st) = 2)
  /\ (sizeStats.Total (Size st) = 210 /\ sizeStats.Unused (Size st) = 80
      /\ sizeStats.RemoveTotal (Size st) = 180 /\ sizeStats.Remain (Size st) = 30)
  /\ blobStats.RemoveTotal (Blobs st)
     = add64 (blobStats.Remove (Blobs st)) (blobStats.RepackRm (Blobs st))
  /\ sizeStats.RemoveTotal (Size st)
     = add64 (add64 (sizeStats.Remove (Size st)) (sizeStats.RepackRm (Size st)))
             (sizeStats.Unref (Size st)).
Proof.
  intros st.
  destruct (planPrune_accounting insertionSort sampleOpts sampleRepo sampleUsed)
    as (_&Hb&_&_&_&Hs&_).
  - vm_compute. reflexivity.
  - split; [vm_compute; repeat split; reflexivity|].
    split; [vm_compute; repeat split; reflexivity|].
    split; [exact Hb|exact Hs].
Defined.

(** C6, as stated, fails when the products leave uint64: [mostlyUnused]
    and [mostlyUsed] are data packs without duplicates, the product
    2^32 * 2^32 of the first exceeds the product 1 * 1 of the second and
    its ratio is the higher one, but [less] places the second first. *)
Lemma less_counterexample :
  packInfo.unusedSize mostlyUnused * packInfo.usedSize mostlyUsed
  > packInfo.unusedSize mostlyUsed * packInfo.usedSize mostlyUnused
  /\ Qlt (ratio mostlyUsed) (ratio mostlyUnused)
  /\ less mostlyUnused mostlyUsed = false
  /\ less mostlyUsed mostlyUnused = true.
Proof. vm_compute. repeat split. Qed.

(** C6, amended.  [less pi pj] holds when [pi] has duplicate blobs and [pj]
    has none, and fails the other way round; for packs tied on that it
    holds when the type of [pi] is not [DataBlob] and that of [pj] is, and
    fails the other way round; for packs tied on both it compares the
    products [unusedSize pi * usedSize pj] and [unusedSize pj * usedSize pi]
    as uint64 computes them.  When the sizes of both packs fit 32 bits, as
    the comment in the source assumes, these are the exact products, and for
    packs with used bytes [less pi pj] holds exactly when the ratio of
    unused to used bytes of [pi] is the higher one. *)
Theorem less_ordering (pi pj : packInfo.t) :
  let tiedOnDuplicates :=
    ~ (0 < packInfo.duplicateBlobs pi /\ packInfo.duplicateBlobs pj = 0)
    /\ ~ (0 < packInfo.duplicateBlobs pj /\ packInfo.duplicateBlobs pi = 0) in
  let tiedOnType := packInfo.tpe pi = DataBlob <-> packInfo.tpe pj = DataBlob in
  (0 < packInfo.duplicateBlobs pi -> packInfo.duplicateBlobs pj = 0 -> less pi pj = true)
  /\ (0 < packInfo.duplicateBlobs pj -> packInfo.duplicateBlobs pi = 0 -> less pi pj = false)
  /\ (tiedOnDuplicates -> packInfo.tpe pi <> DataBlob -> packInfo.tpe pj = DataBlob ->
      less pi pj = true)
  /\ (tiedOnDuplicates -> packInfo.tpe pj <> DataBlob -> packInfo.tpe pi = DataBlob ->
      less pi pj = false)
  /\ (tiedOnDuplicates -> tiedOnType ->
      less pi pj = (mul64 (packInfo.unusedSize pi) (packInfo.usedSize pj)
                    >? mul64 (packInfo.unusedSize pj) (packInfo.usedSize pi)))
  /\ (tiedOnDuplicates -> tiedOnType -> sizesFit32 pi -> sizesFit32 pj ->
      (less pi pj = true
       <-> packInfo.unusedSize pi * packInfo.usedSize pj
           > packInfo.unusedSize pj * packInfo.usedSize pi))
  /\ (tiedOnDuplicates -> tiedOnType -> sizesFit32 pi -> sizesFit32 pj ->
      0 < packInfo.usedSize pi -> 0 < packInfo.usedSize pj ->
      (less pi pj = true <-> Qlt (ratio pj) (ratio pi))).
Proof.
  intros tiedOnDuplicates tiedOnType.
  assert (Hdup : forall a b, (0 <? a) && (b =? 0) = true <-> 0 < a /\ b = 0).
  { intros a b. rewrite andb_true_iff, Z.ltb_lt, Z.eqb_eq. done. }
  assert (Htied : tiedOnDuplicates ->
            (0 <? packInfo.duplicateBlobs pi) && (packInfo.duplicateBlobs pj =? 0) = false
            /\ (0 <? packInfo.duplicateBlobs pj) && (packInfo.duplicateBlobs pi =? 0) = false).
  { intros [H1 H2]. split; apply not_true_is_false; intros H; apply Hdup in H; tauto. }
  assert (Htype : tiedOnType ->
            negb (bool_decide (packInfo.tpe pi = DataBlob))
              && bool_decide (packInfo.tpe pj = DataBlob) = false
            /\ negb (bool_decide (packInfo.tpe pj = DataBlob))
                 && bool_decide (packInfo.tpe pi = DataBlob) = false).
  { intros Ht. unfold tiedOnType in Ht. repeat case_bool_decide; cbn; tauto. }
  assert (Hcode : tiedOnDuplicates -> tiedOnType ->
            less pi pj = (mul64 (packInfo.unusedSize pi) (packInfo.usedSize pj)
                          >? mul64 (packInfo.unusedSize pj) (packInfo.usedSize pi))).
  { intros Hd Ht. unfold less.
    destruct (Htied Hd) as [-> ->]. destruct (Htype Ht) as [-> ->]. done. }
  assert (Hexact : tiedOnDuplicates -> tiedOnType -> sizesFit32 pi -> sizesFit32 pj ->
            (less pi pj = true
             <-> packInfo.unusedSize pi * packInfo.usedSize pj
                 > packInfo.unusedSize pj * packInfo.usedSize pi)).
  { intros Hd Ht [Hsi Hui] [Hsj Huj]. rewrite (Hcode Hd Ht).
    unfold mul64. rewrite !wrap64_small by nia.
    rewrite Z.gtb_ltb, Z.ltb_lt. lia. }
  split; [|split; [|split; [|split; [|split; [|split]]]]].
  - intros H1 H2. unfold less.
    assert (E : (0 <? packInfo.duplicateBlobs pi) && (packInfo.duplicateBlobs pj =? 0) = true)
      by (by apply Hdup).
    by rewrite E.
  - intros H1 H2. unfold less.
    assert (E : (0 <? packInfo.duplicateBlobs pj) && (packInfo.duplicateBlobs pi =? 0) = true)
      by (by apply Hdup).
    rewrite E.
    assert (E' : (0 <? packInfo.duplicateBlobs pi) && (packInfo.duplicateBlobs pj =? 0) = false).
    { apply not_true_is_false. intros H. apply Hdup in H. lia. }
    by rewrite E'.
  - intros Hd Hi Hj. unfold less. destruct (Htied Hd) as [-> ->].
    rewrite (bool_decide_eq_false_2 _ Hi), (bool_decide_eq_true_2 _ Hj). done.
  - intros Hd Hj Hi. unfold less. destruct (Htied Hd) as [-> ->].
    rewrite (bool_decide_eq_false_2 _ Hj), (bool_decide_eq_true_2 _ Hi). done.
  - exact Hcode.
  - exact Hexact.
  - intros Hd Ht Hfi Hfj Hpi Hpj. rewrite (Hexact Hd Ht Hfi Hfj).
    unfold ratio, Qlt. cbn [Qnum Qden].
    rewrite !Z2Pos.id by done. lia.
Qed.

(** Two data packs of the same used size without duplicates, for C6: the
    one with more unused bytes comes first. *)
Lemma less_ordering_witness :
  less (packInfo.mk 1 1 0 15 10 DataBlob) (packInfo.mk 1 1 0 15 5 DataBlob) = true.
Proof.
  destruct (less_ordering (packInfo.mk 1 1 0 15 10 DataBlob) (packInfo.mk 1 1 0 15 5 DataBlob))
    as (_&_&_&_&_&_&H).
  apply H.
  - split; cbn; lia.
  - cbn. tauto.
  - split; cbn; lia.
  - split; cbn; lia.
  - cbn. lia.
  - cbn. lia.
  - vm_compute. reflexivity.
Defined.

(** C9, as stated, fails for [repackPacks]: [tiedRepo] holds two packs
    that are candidates of equal priority ([less] holds in neither
    direction), and with [--max-repack-size 30] only the first of them is
    repacked.  The two listings hold the same files with the same sizes;
    the run on the first repacks pack 1, the run on the second pack 2. *)
Lemma planPrune_order_counterexample :
  let files1 := [(1%N, 25); (2%N, 25)] in
  let files2 := [(2%N, 25); (1%N, 25)] in
  let p := packInfo.mk 1 1 0 15 10 DataBlob in
  let run1 := planPrune insertionSort cappedOpts (tiedRepo files1) sampleUsed in
  let run2 := planPrune insertionSort cappedOpts (tiedRepo files2) sampleUsed in
  files1 ≡ₚ files2
  /\ repackCandidates (reconcile cappedOpts (tiedRepo files1) sampleUsed).1
     = [mkPackInfoWithID 1%N p; mkPackInfoWithID 2%N p]
  /\ repackCandidates (reconcile cappedOpts (tiedRepo files2) sampleUsed).1
     = [mkPackInfoWithID 2%N p; mkPackInfoWithID 1%N p]
  /\ less p p = false
  /\ run1.2 = None /\ run2.2 = None
  /\ repackPacks run1.1.1 = {[1%N]}
  /\ repackPacks run2.1.1 = {[2%N]}
  /\ repackPacks run1.1.1 <> repackPacks run2.1.1.
Proof.
  cbv zeta.
  assert (Hne : ({[1%N]} : gset ID) <> {[2%N]}).
  { intros H. assert (Hin : 1%N ∈ ({[2%N]} : gset ID)) by (rewrite <- H; set_solver).
    set_solver. }
  assert (H1 : repackPacks (planPrune insertionSort cappedOpts
                 (tiedRepo [(1%N, 25); (2%N, 25)]) sampleUsed).1.1 = {[1%N]})
    by (vm_compute; reflexivity).
  assert (H2 : repackPacks (planPrune insertionSort cappedOpts
                 (tiedRepo [(2%N, 25); (1%N, 25)]) sampleUsed).1.1 = {[2%N]})
    by (vm_compute; reflexivity).
  split; [apply perm_swap|].
  split; [vm_compute; reflexivity|].
  split; [vm_compute; reflexivity|].
  split; [vm_compute; reflexivity|].
  split; [vm_compute; reflexivity|].
  split; [vm_compute; reflexivity|].
  split; [exact H1|]. split; [exact H2|].
  exact (fun H => Hne (eq_trans (eq_trans (eq_sym H1) H) H2)).
Qed.

(** C9, amended.  Two runs of [planPrune] with the same options, the same
    used set and the same index on two listings that hold the same files
    with the same sizes, none twice, in any order, return the same error
    and the same sets [removePacksFirst], [removePacks], [ignorePacks] and
    [keepBlobs]; when the order of the listing is the same as well, the
    whole results are equal, [repackPacks] included.  The order in which
    the range statement visits the missing packs changes nothing. *)
Theorem planPrune_listing_order
    (sortSlice : forall A : Type, (A -> A -> bool) -> list A -> list A)
    (opts : PruneOptions) (repo1 repo2 : Repository) (usedBlobs : gset BlobHandle) :
  IndexEach repo1 = IndexEach repo2 ->
  IndexPackSize repo1 = IndexPackSize repo2 ->
  ListPackFiles repo1 ≡ₚ ListPackFiles repo2 ->
  NoDup (ListPackFiles repo1).*1 ->
  let run1 := planPrune sortSlice opts repo1 usedBlobs in
  let run2 := planPrune sortSlice opts repo2 usedBlobs in
  run1.2 = run2.2
  /\ removePacksFirst run1.1.1 = removePacksFirst run2.1.1
  /\ removePacks run1.1.1 = removePacks run2.1.1
  /\ ignorePacks run1.1.1 = ignorePacks run2.1.1
  /\ keepBlobs run1.1.1 = keepBlobs run2.1.1
  /\ (ListPackFiles repo1 = ListPackFiles repo2 -> run1 = run2)
  /\ (forall (v : planner) (entries : list (ID * packInfo.t)),
        entries ≡ₚ map_to_list (indexPack v) -> missingPacksIn entries v = missingPacks v).
Proof.
  intros He Hs Hp Hnd.
  destruct repo1 as [blobs sizes files1], repo2 as [blobs2 sizes2 files2].
  cbn [IndexEach IndexPackSize ListPackFiles] in He, Hs, Hp, Hnd.
  subst blobs2 sizes2. intros run1 run2.
  assert (Hsame : ListPackFiles (mkRepository blobs sizes files1)
                  = ListPackFiles (mkRepository blobs sizes files2) -> run1 = run2).
  { cbn [ListPackFiles]. intros E. unfold run1, run2. by rewrite E. }
  assert (Hrange : forall (v : planner) (entries : list (ID * packInfo.t)),
            entries ≡ₚ map_to_list (indexPack v) -> missingPacksIn entries v = missingPacks v).
  { intros v entries He. unfold missingPacks. by apply missingPacksIn_permutation. }
  set (repo1 := mkRepository blobs sizes files1) in *.
  set (repo2 := mkRepository blobs sizes files2) in *.
  set (c := classifyBlobs usedBlobs blobs).
  set (v0 := startPlanner (buildIndexPack (c_keepBlobs c) (c_duplicateBlobs c) repo1) (c_stats c)).
  assert (Hr1 : reconcile opts repo1 usedBlobs = listPacks opts v0 files1) by reflexivity.
  assert (Hr2 : reconcile opts repo2 usedBlobs = listPacks opts v0 files2) by reflexivity.
  destruct (listPacks_permutation opts v0 files1 files2 Hp Hnd) as [Hok Hsets].
  rewrite <- Hr1, <- Hr2 in Hok, Hsets.
  assert (Hmain : run1.2 = run2.2
                  /\ removePacksFirst run1.1.1 = removePacksFirst run2.1.1
                  /\ removePacks run1.1.1 = removePacks run2.1.1
                  /\ ignorePacks run1.1.1 = ignorePacks run2.1.1
                  /\ keepBlobs run1.1.1 = keepBlobs run2.1.1).
  { unfold run1, run2.
    destruct (decide (size (c_usedBlobs c) = 0%nat)) as [Hz|Hz].
    2:{ rewrite (planPrune_incomplete sortSlice opts repo1 usedBlobs Hz),
                (planPrune_incomplete sortSlice opts repo2 usedBlobs Hz). done. }
    destruct (decide ((reconcile opts repo1 usedBlobs).2 = None)) as [H1|H1].
    2:{ assert (H2 : (reconcile opts repo2 usedBlobs).2 <> None) by (rewrite <- Hok; exact H1).
        rewrite (planPrune_listing_failed sortSlice opts repo1 usedBlobs Hz H1),
                (planPrune_listing_failed sortSlice opts repo2 usedBlobs Hz H2). done. }
    pose proof (proj1 Hok H1) as H2.
    destruct (Hsets H1) as (Hi&Hf&Hrm&Hg).
    pose proof (missingPacks_left_eq _ _ Hi) as Hleft.
    destruct (decide (size (indexPack (missingPacks (reconcile opts repo1 usedBlobs).1)) = 0%nat))
      as [Hm1|Hm1].
    - pose proof (proj1 Hleft Hm1) as Hm2.
      assert (Hs1 : (planPrune sortSlice opts repo1 usedBlobs).2 = None)
        by (by apply planPrune_succeeds).
      assert (Hs2 : (planPrune sortSlice opts repo2 usedBlobs).2 = None)
        by (by apply planPrune_succeeds).
      destruct (planPrune_plan sortSlice opts repo1 usedBlobs Hs1) as (->&->&->&->&_).
      destruct (planPrune_plan sortSlice opts repo2 usedBlobs Hs2) as (->&->&->&->&_).
      rewrite Hs1, Hs2, Hf, Hrm, (missingPacks_ignorePacks _ _ Hi Hg). done.
    - assert (Hm2 : size (indexPack (missingPacks (reconcile opts repo2 usedBlobs).1)) <> 0%nat)
        by (rewrite <- Hleft; exact Hm1).
      rewrite (planPrune_missing sortSlice opts repo1 usedBlobs Hz H1 Hm1),
              (planPrune_missing sortSlice opts repo2 usedBlobs Hz H2 Hm2). done. }
  destruct Hmain as (?&?&?&?&?). done.
Qed.

(** The two listings of [tiedRepo], for C9. *)
Lemma planPrune_listing_order_witness :
  let run1 := planPrune insertionSort cappedOpts (tiedRepo [(1%N, 25); (2%N, 25)]) sampleUsed in
  let run2 := planPrune insertionSort cappedOpts (tiedRepo [(2%N, 25); (1%N, 25)]) sampleUsed in
  run1.2 = run2.2
  /\ removePacksFirst run1.1.1 = removePacksFirst run2.1.1
  /\ removePacks run1.1.1 = removePacks run2.1.1
  /\ ignorePacks run1.1.1 = ignorePacks run2.1.1
  /\ keepBlobs run1.1.1 = keepBlobs run2.1.1.
Proof.
  intros run1 run2.
  destruct (planPrune_listing_order insertionSort cappedOpts
              (tiedRepo [(1%N, 25); (2%N, 25)]) (tiedRepo [(2%N, 25); (1%N, 25)]) sampleUsed)
    as (He&Hf&Hr&Hi&Hk&_).
  - reflexivity.
  - reflexivity.
  - apply perm_swap.
  - apply (bool_decide_unpack _). vm_compute. exact I.
  - exact (conj He (conj Hf (conj Hr (conj Hi Hk)))).
Defined.

(** C8.  What [verifyPruneOptions] does with [--max-unused], once
    [--max-repack-size] is empty or has been read ([maxUnused] is the value
    without the white space around it).  For the word unlimited it
    succeeds and [maxUnusedBytes] is the constant [math.MaxUint64].  For a
    value that ends in a percent sign and whose number [strconv.ParseFloat]
    reads as [p], it fails with the fatal error "must be positive" when
    [p < 0], with the fatal error "must be below 100%" when [p >= 100], and
    succeeds otherwise with [maxUnusedBytes used =
    uint64(p / (100 - p) * float64(used))]; for a number [p] it succeeds
    exactly when [0 <= p < 100], but it also succeeds when [p] is NaN, so
    for the value NaN%.  For any other value that [parseSizeStr] reads as
    [size], it succeeds and [maxUnusedBytes] is the constant
    [uint64(size)]. *)
Theorem verifyPruneOptions_max_unused
    (parseNumber : string -> spec_float * option error)
    (parseSizeStr : string -> Z * option error)
    (uint64OutOfRange : spec_float -> Z) (opts : PruneOptions) :
  MaxRepackSize opts = EmptyString \/ (parseSizeStr (MaxRepackSize opts)).2 = None ->
  let verified := verifyPruneOptions parseNumber parseSizeStr uint64OutOfRange opts in
  let maxUnused := TrimSpace (MaxUnused opts) in
  (maxUnused = "unlimited"%string ->
     verified.2 = None /\ forall used, maxUnusedBytes verified.1 used = MaxUint64)
  /\ (forall p, HasSuffix maxUnused "%" = true ->
        ParseFloat parseNumber (TrimSuffix maxUnused "%") = (p, None) ->
        (SFltb p (float64_of_Z 0) = true ->
           verified.2 = Some (Fatal "percentage for --max-unused must be positive"))
        /\ (SFltb p (float64_of_Z 0) = false -> SFleb (float64_of_Z 100) p = true ->
            verified.2 = Some (Fatal "percentage for --max-unused must be below 100%"))
        /\ (verified.2 = None
            <-> SFltb p (float64_of_Z 0) = false /\ SFleb (float64_of_Z 100) p = false)
        /\ (p <> S754_nan ->
            (verified.2 = None
             <-> SFleb (float64_of_Z 0) p = true /\ SFltb p (float64_of_Z 100) = true))
        /\ (p = S754_nan -> verified.2 = None)
        /\ (verified.2 = None ->
            forall used, maxUnusedBytes verified.1 used
                         = percentageOfUsed uint64OutOfRange p used))
  /\ (maxUnused = "NaN%"%string -> verified.2 = None)
  /\ (forall size, maxUnused <> EmptyString -> maxUnused <> "unlimited"%string ->
        HasSuffix maxUnused "%" = false ->
        parseSizeStr maxUnused = (size, None) ->
        verified.2 = None /\ forall used, maxUnusedBytes verified.1 used = wrap64 size).
Proof.
  intros Hsized verified maxUnused.
  pose proof (verifyPruneOptions_sized parseNumber parseSizeStr uint64OutOfRange opts Hsized)
    as Hv.
  cbv zeta in Hv. fold verified maxUnused in Hv.
  assert (Hpct : HasSuffix maxUnused "%" = true ->
            String.eqb maxUnused EmptyString = false
            /\ String.eqb maxUnused "unlimited" = false).
  { intros Hs. split.
    - destruct (String.eqb_spec maxUnused EmptyString) as [E|]; [|done].
      rewrite E in Hs. discriminate.
    - destruct (String.eqb_spec maxUnused "unlimited") as [E|]; [|done].
      rewrite E in Hs. discriminate. }
  assert (Hpercent : forall p, HasSuffix maxUnused "%" = true ->
            ParseFloat parseNumber (TrimSuffix maxUnused "%") = (p, None) ->
            verified
            = if SFltb p (float64_of_Z 0) then
                (sizedOptions parseSizeStr opts,
                 Some (Fatal "percentage for --max-unused must be positive"))
              else if SFleb (float64_of_Z 100) p then
                (sizedOptions parseSizeStr opts,
                 Some (Fatal "percentage for --max-unused must be below 100%"))
              else
                (set_maxUnusedBytes (percentageOfUsed uint64OutOfRange p)
                   (sizedOptions parseSizeStr opts), None)).
  { intros p Hs Hp. rewrite Hv. destruct (Hpct Hs) as [-> ->]. rewrite Hs, Hp. done. }
  split; [|split; [|split]].
  - intros E. rewrite Hv, E. cbn [String.eqb Ascii.eqb Bool.eqb andb]. done.
  - intros p Hs Hp. rewrite (Hpercent p Hs Hp).
    assert (Hzero : float64_of_Z 0 <> S754_nan) by discriminate.
    assert (Hhundred : float64_of_Z 100 <> S754_nan) by (vm_compute; discriminate).
    split; [|split; [|split; [|split; [|split]]]].
    + by intros ->.
    + by intros -> ->.
    + destruct (SFltb p (float64_of_Z 0)); [cbn [snd]; split; [done|by intros [? _]]|].
      destruct (SFleb (float64_of_Z 100) p); cbn [snd]; [split; [done|by intros [_ ?]]|done].
    + intros Hnan.
      rewrite (SFleb_negb (float64_of_Z 0) p Hzero Hnan).
      rewrite (SFleb_negb (float64_of_Z 100) p Hhundred Hnan).
      destruct (SFltb p (float64_of_Z 0)); [cbn; split; [done|by intros [? _]]|].
      destruct (SFltb p (float64_of_Z 100)); cbn; [done|split; [done|by intros [_ ?]]].
    + by intros ->.
    + destruct (SFltb p (float64_of_Z 0)); [done|].
      destruct (SFleb (float64_of_Z 100) p); [done|]. done.
  - intros E.
    assert (Hs : HasSuffix maxUnused "%" = true) by (by rewrite E).
    assert (Hp : ParseFloat parseNumber (TrimSuffix maxUnused "%") = (S754_nan, None))
      by (by rewrite E).
    by rewrite (Hpercent _ Hs Hp).
  - intros size Hne Hnu Hs Hp. rewrite Hv.
    apply String.eqb_neq in Hne, Hnu. rewrite Hne, Hnu, Hs, Hp. done.
Qed.

(** The options [--max-unused NaN%], for C8: they are accepted. *)
Lemma verifyPruneOptions_max_unused_witness :
  (verifyPruneOptions sampleParseNumber sampleParseSizeStr sampleOutOfRange nanOpts).2 = None.
Proof.
  destruct (verifyPruneOptions_max_unused sampleParseNumber sampleParseSizeStr
              sampleOutOfRange nanOpts) as (_&_&H&_).
  - left. reflexivity.
  - apply H. reflexivity.
Defined.

(** * Further properties of the code *)

(** Equations between uint64 expressions are equations modulo 2^64. *)
#[local] Existing Instance eqm_setoid.
#[local] Existing Instance Zplus_eqm.
#[local] Existing Instance Zminus_eqm.
#[local] Existing Instance Zmult_eqm.

Ltac wrap64_ring :=
  unfold add64, sub64, mul64, wrap64;
  match goal with |- ?a mod ?m = ?b mod ?m => change (eqm m a b) end;
  rewrite ?Zmod_eqm;
  match goal with |- eqm ?m ?a ?b => unfold eqm; f_equal; lia end.

(** ** [shortenStatus] *)

Lemma length_substring_0 (n : nat) : forall s : string,
  (n <= String.length s)%nat -> String.length (substring 0 n s) = n.
Proof.
  induction n as [|n IH]; intros [|c s]; cbn [substring String.length]; intros H;
    try reflexivity; try (exfalso; lia).
  rewrite IH by lia. reflexivity.
Qed.

Lemma length_append (s t : string) :
  String.length (String.append s t) = (String.length s + String.length t)%nat.
Proof.
  induction s as [|c s IH]; [done|].
  change (S (String.length (String.append s t)) = S (String.length s + String.length t)).
  by rewrite IH.
Qed.

Lemma substring_0_prefix (n : nat) : forall s : string,
  (n <= String.length s)%nat ->
  exists rest, s = String.append (substring 0 n s) rest /\ String.length rest = (String.length s - n)%nat.
Proof.
  induction n as [|n IH]; intros [|c s]; simpl; intros H.
  - by exists EmptyString.
  - by exists (String c s).
  - exfalso. lia.
  - destruct (IH s) as (rest&E&Hl); [lia|]. exists rest. split; [|done].
    change (String c s = String c (String.append (substring 0 n s) rest)). by f_equal.
Qed.

(** X1.  [shortenStatus] panics exactly when [maxLength] is negative,
    whatever the string.  Otherwise it returns a string of
    [min(len(s), maxLength)] bytes, which is [s] itself when [s] has at most
    [maxLength] bytes. *)
Theorem shortenStatus_length (maxLength : Z) (s : string) :
  (shortenStatus maxLength s = None <-> maxLength < 0)
  /\ (forall r, shortenStatus maxLength s = Some r ->
        Z.of_nat (String.length r) = Z.min (Z.of_nat (String.length s)) maxLength
        /\ (Z.of_nat (String.length s) <= maxLength -> r = s)).
Proof.
  unfold shortenStatus.
  destruct (Z.leb_spec (Z.of_nat (String.length s)) maxLength) as [Hle|Hgt].
  - split; [split; [done|lia]|]. intros r [= <-]. split; [lia|done].
  - destruct (Z.ltb_spec maxLength 3) as [H3|H3].
    + destruct (Z.ltb_spec maxLength 0) as [H0|H0].
      * split; [done|]. intros r [=].
      * split; [split; [done|lia]|]. intros r [= <-].
        rewrite length_substring_0 by lia. split; lia.
    + split; [split; [done|lia]|]. intros r [= <-].
      rewrite length_append, length_substring_0 by lia.
      cbn [String.length]. split; lia.
Qed.

(** X2.  A string of more than [maxLength] bytes, for [maxLength] of 3 or
    more, is cut to its first [maxLength - 3] bytes followed by three
    dots; for [maxLength] from 0 to 2 it is cut to its first [maxLength]
    bytes.  Shortening a second time changes nothing. *)
Theorem shortenStatus_shape (maxLength : Z) (s r : string) :
  shortenStatus maxLength s = Some r ->
  (Z.of_nat (String.length s) <= maxLength -> r = s)
  /\ (maxLength < Z.of_nat (String.length s) -> 3 <= maxLength ->
      exists front rest,
        s = String.append front rest /\ r = String.append front "..."
        /\ Z.of_nat (String.length front) = maxLength - 3)
  /\ (maxLength < Z.of_nat (String.length s) -> maxLength < 3 ->
      exists rest, s = String.append r rest /\ Z.of_nat (String.length r) = maxLength)
  /\ shortenStatus maxLength r = Some r.
Proof.
  intros Hr.
  assert (Hlen : Z.of_nat (String.length r) <= maxLength).
  { unfold shortenStatus in Hr.
    destruct (Z.leb_spec (Z.of_nat (String.length s)) maxLength) as [Hle|Hgt].
    - injection Hr as <-. done.
    - destruct (Z.ltb_spec maxLength 3) as [H3|H3].
      + destruct (Z.ltb_spec maxLength 0) as [H0|H0]; [done|]. injection Hr as <-.
        rewrite length_substring_0 by lia. lia.
      + injection Hr as <-. rewrite length_append, length_substring_0 by lia.
        cbn [String.length]. lia. }
  unfold shortenStatus in Hr |- *.
  split; [|split; [|split]].
  - intros Hle. apply Z.leb_le in Hle. rewrite Hle in Hr. by injection Hr.
  - intros Hgt H3. apply Z.leb_gt in Hgt. apply Z.ltb_ge in H3. rewrite Hgt, H3 in Hr.
    injection Hr as <-. apply Z.leb_gt in Hgt. apply Z.ltb_ge in H3.
    destruct (substring_0_prefix (Z.to_nat (maxLength - 3)) s) as (rest&E&_); [lia|].
    exists (substring 0 (Z.to_nat (maxLength - 3)) s), rest.
    split; [exact E|]. split; [done|]. rewrite length_substring_0 by lia. lia.
  - intros Hgt H3. apply Z.leb_gt in Hgt. apply Z.ltb_lt in H3. rewrite Hgt, H3 in Hr.
    destruct (Z.ltb_spec maxLength 0) as [H0|H0]; [done|]. injection Hr as <-.
    apply Z.leb_gt in Hgt.
    destruct (substring_0_prefix (Z.to_nat maxLength) s) as (rest&E&_); [lia|].
    exists rest. split; [exact E|]. rewrite length_substring_0 by lia. lia.
  - apply Z.leb_le in Hlen. by rewrite Hlen.
Qed.

(** A status of nine bytes shortened to five, for X2. *)
Lemma shortenStatus_shape_witness :
  (exists front rest,
     "repacking"%string = String.append front rest
     /\ "re..."%string = String.append front "..."
     /\ Z.of_nat (String.length front) = 5 - 3)
  /\ shortenStatus 5 "re..." = Some "re..."%string.
Proof.
  destruct (shortenStatus_shape 5 "repacking" "re...") as (_&H&_&Hi).
  - reflexivity.
  - split; [apply H; cbn; lia|exact Hi].
Defined.

(** ** The second pass over the index *)

Section PackInfos.

Variables keepBlobs duplicateBlobs : gset BlobHandle.

Lemma accountBlob_other m b id :
  PackID b <> id ->
  entry (accountBlob keepBlobs duplicateBlobs m b) id = entry m id.
Proof. intros Hne. unfold accountBlob, entry. by rewrite lookup_insert_ne. Qed.

Lemma accountBlob_sizes m b :
  add64 (packInfo.unusedSize (entry (accountBlob keepBlobs duplicateBlobs m b) (PackID b)))
        (packInfo.usedSize (entry (accountBlob keepBlobs duplicateBlobs m b) (PackID b)))
  = add64 (add64 (packInfo.unusedSize (entry m (PackID b)))
                 (packInfo.usedSize (entry m (PackID b))))
          (Length b).
Proof.
  unfold accountBlob, entry. rewrite lookup_insert_eq.
  destruct (default packInfo.zero (m !! PackID b)) as [u n d us ns t].
  repeat case_decide; simpl; wrap64_ring.
Qed.

Lemma accountBlob_count m b :
  wrap64 (packInfo.usedBlobs (entry (accountBlob keepBlobs duplicateBlobs m b) (PackID b))
          + packInfo.unusedBlobs (entry (accountBlob keepBlobs duplicateBlobs m b) (PackID b))
          + packInfo.duplicateBlobs (entry (accountBlob keepBlobs duplicateBlobs m b) (PackID b)))
  = wrap64 (packInfo.usedBlobs (entry m (PackID b)) + packInfo.unusedBlobs (entry m (PackID b))
            + packInfo.duplicateBlobs (entry m (PackID b)) + 1).
Proof.
  unfold accountBlob, entry. rewrite lookup_insert_eq.
  destruct (default packInfo.zero (m !! PackID b)) as [u n d us ns t].
  repeat case_decide; simpl; wrap64_ring.
Qed.

Lemma account_sizes blobs : forall m id,
  let e := entry (foldl (accountBlob keepBlobs duplicateBlobs) m blobs) id in
  add64 (packInfo.unusedSize e) (packInfo.usedSize e)
  = add64 (add64 (packInfo.unusedSize (entry m id)) (packInfo.usedSize (entry m id)))
          (sumLengths (blobsOfPack id blobs))
  /\ wrap64 (packInfo.usedBlobs e + packInfo.unusedBlobs e + packInfo.duplicateBlobs e)
     = wrap64 (packInfo.usedBlobs (entry m id) + packInfo.unusedBlobs (entry m id)
               + packInfo.duplicateBlobs (entry m id)
               + Z.of_nat (length (blobsOfPack id blobs))).
Proof.
  induction blobs as [|b blobs IH]; intros m id; cbv zeta; cbn [foldl].
  - unfold blobsOfPack, sumLengths. cbn. rewrite !Z.add_0_r. split; [|done].
    wrap64_ring.
  - destruct (IH (accountBlob keepBlobs duplicateBlobs m b) id) as [-> ->].
    unfold blobsOfPack. rewrite filter_cons.
    destruct (decide (PackID b = id)) as [<-|Hne].
    + rewrite accountBlob_sizes. cbn [sumLengths foldr length]. split.
      * rewrite add64_assoc. done.
      * pose proof (accountBlob_count m b) as Hc.
        set (x := packInfo.usedBlobs (entry (accountBlob keepBlobs duplicateBlobs m b) (PackID b))
                  + packInfo.unusedBlobs (entry (accountBlob keepBlobs duplicateBlobs m b) (PackID b))
                  + packInfo.duplicateBlobs (entry (accountBlob keepBlobs duplicateBlobs m b) (PackID b)))
          in *.
        transitivity (wrap64 (wrap64 x + Z.of_nat (length (filter (fun b0 => PackID b0 = PackID b) blobs))));
          [wrap64_ring|].
        rewrite Hc. wrap64_ring.
    + rewrite (accountBlob_other _ _ _ Hne). done.
Qed.

End PackInfos.

Lemma tagBlobs_invalid (l : list BlobType) : foldl tagBlob InvalidBlob l = InvalidBlob.
Proof.
  induction l as [|t l IH]; cbn [foldl]; [done|].
  replace (tagBlob InvalidBlob t) with InvalidBlob; [done|].
  unfold tagBlob. by destruct t.
Qed.

Lemma tagBlobs_same (t : BlobType) (l : list BlobType) :
  (forall t', t' ∈ l -> t' = t) -> foldl tagBlob t l = t.
Proof.
  induction l as [|x l IH]; cbn [foldl]; intros H; [done|].
  rewrite (H x) by apply list_elem_of_here.
  replace (tagBlob t t) with t by (unfold tagBlob; by destruct t).
  apply IH. intros t' Ht'. apply H. by apply list_elem_of_further.
Qed.

Lemma tagBlobs_mixed (l : list BlobType) : forall t t',
  t <> NumBlobTypes -> t' ∈ l -> t' <> t -> foldl tagBlob t l = InvalidBlob.
Proof.
  induction l as [|x l IH]; intros t t' Hn Hin Hne; cbn [foldl].
  - by apply elem_of_nil in Hin.
  - destruct (decide (x = t)) as [->|Hx].
    + replace (tagBlob t t) with t by (unfold tagBlob; by destruct t).
      apply elem_of_cons in Hin as [->|Hin]; [done|]. by apply (IH t t').
    + replace (tagBlob t x) with InvalidBlob; [apply tagBlobs_invalid|].
      unfold tagBlob. destruct (decide (t = NumBlobTypes)); [done|].
      destruct (decide (t <> x)) as [|Hc]; [done|]. exfalso. apply Hc. congruence.
Qed.

Lemma account_tpe keepBlobs duplicateBlobs blobs : forall m id,
  packInfo.tpe (entry (foldl (accountBlob keepBlobs duplicateBlobs) m blobs) id)
  = foldl tagBlob (packInfo.tpe (entry m id)) (typesOfPack id blobs).
Proof.
  induction blobs as [|b blobs IH]; intros m id; cbn [foldl]; [done|].
  rewrite IH. unfold typesOfPack, blobsOfPack. rewrite filter_cons.
  destruct (decide (PackID b = id)) as [<-|Hne].
  - rewrite fmap_cons. cbn [foldl]. f_equal.
    unfold accountBlob, entry, tagBlob. rewrite lookup_insert_eq.
    destruct (default packInfo.zero (m !! PackID b)) as [u n d us ns t].
    repeat case_decide; simpl in *; congruence.
  - by rewrite (accountBlob_other _ _ _ _ _ Hne).
Qed.

(** The entry of a pack before the second loop. *)
Lemma seedIndexPack_lookup packSize id :
  entry (seedIndexPack packSize) id
  = match packSize !! id with
    | Some hdrSize => packInfo.mk 0 0 0 (wrap64 hdrSize) 0 NumBlobTypes
    | None => packInfo.zero
    end.
Proof. unfold entry, seedIndexPack. rewrite lookup_fmap. by destruct (packSize !! id). Qed.

(** X3.  After the second pass, the sizes of a pack add up (in uint64) to
    its header size, zero for a pack without one, plus the lengths of the
    blobs that the index places in it, and its three counters to the
    number of these blobs.  So the size test of the listing refuses a pack
    exactly when the pack has a used or a duplicate blob and its file size
    differs from that sum. *)
Theorem buildIndexPack_sizes
    (keepBlobs duplicateBlobs : gset BlobHandle) (repo : Repository) (id : ID) (p : packInfo.t) :
  buildIndexPack keepBlobs duplicateBlobs repo !! id = Some p ->
  let blobs := blobsOfPack id (IndexEach repo) in
  let hdrSize := default 0 (IndexPackSize repo !! id) in
  add64 (packInfo.unusedSize p) (packInfo.usedSize p) = wrap64 (hdrSize + sumLengths blobs)
  /\ wrap64 (packInfo.usedBlobs p + packInfo.unusedBlobs p + packInfo.duplicateBlobs p)
     = wrap64 (Z.of_nat (length blobs))
  /\ (forall packSize, sizeMismatch p packSize = true
        <-> wrap64 (hdrSize + sumLengths blobs) <> wrap64 packSize /\ unneeded p = false).
Proof.
  intros Hp blobs hdrSize.
  destruct (account_sizes keepBlobs duplicateBlobs (IndexEach repo)
              (seedIndexPack (IndexPackSize repo)) id) as [Hs Hc].
  fold (buildIndexPack keepBlobs duplicateBlobs repo) in Hs, Hc.
  rewrite seedIndexPack_lookup in Hs, Hc.
  unfold entry in Hs, Hc. rewrite Hp in Hs, Hc. unfold default, Datatypes.id in Hs, Hc.
  fold blobs in Hs, Hc.
  assert (Hsum : add64 (packInfo.unusedSize p) (packInfo.usedSize p)
                 = wrap64 (hdrSize + sumLengths blobs)).
  { rewrite Hs. unfold hdrSize. destruct (IndexPackSize repo !! id); simpl; wrap64_ring. }
  split; [exact Hsum|]. split.
  - rewrite Hc. destruct (IndexPackSize repo !! id); simpl; wrap64_ring.
  - intros packSize. unfold sizeMismatch.
    rewrite andb_true_iff, !negb_true_iff, Z.eqb_neq, Hsum. done.
Qed.

(** Pack 1 of the sample repository, for X3: a header of 5 bytes and two
    blobs of 10 and 20 bytes. *)
Lemma buildIndexPack_sizes_witness :
  add64 0 35 = wrap64 (5 + sumLengths (blobsOfPack 1%N (IndexEach sampleRepo)))
  /\ sizeMismatch (packInfo.mk 1 0 1 35 0 DataBlob) 36 = true.
Proof.
  destruct (buildIndexPack_sizes
              (c_keepBlobs (classifyBlobs sampleUsed (IndexEach sampleRepo)))
              (c_duplicateBlobs (classifyBlobs sampleUsed (IndexEach sampleRepo)))
              sampleRepo 1%N (packInfo.mk 1 0 1 35 0 DataBlob)) as (Hs&_&Hm).
  - vm_compute. reflexivity.
  - split; [exact Hs|]. apply Hm. split; [vm_compute; discriminate|reflexivity].
Defined.

(** X4.  The type that the second pass gives a pack.  A pack without a
    header size in [PackSize] starts from the zero value of [packInfo],
    whose type is [InvalidBlob], and stays marked as mixed whatever its
    blobs are.  A pack with a header size keeps [NumBlobTypes] when the
    index places no blob in it, gets the type [t] when all its blobs have
    type [t], and [InvalidBlob] when two of its blobs differ in type (no
    blob being of the type [NumBlobTypes], which stands for "not set"). *)
Theorem buildIndexPack_tpe
    (keepBlobs duplicateBlobs : gset BlobHandle) (repo : Repository) (id : ID) (p : packInfo.t) :
  buildIndexPack keepBlobs duplicateBlobs repo !! id = Some p ->
  let types := typesOfPack id (IndexEach repo) in
  (IndexPackSize repo !! id = None -> packInfo.tpe p = InvalidBlob)
  /\ (is_Some (IndexPackSize repo !! id) ->
      (types = [] -> packInfo.tpe p = NumBlobTypes)
      /\ (forall t, types <> [] -> (forall t', t' ∈ types -> t' = t) -> packInfo.tpe p = t)
      /\ (forall t1 t2, (NumBlobTypes ∉ types) -> (t1 ∈ types) -> (t2 ∈ types) -> t1 <> t2 ->
            packInfo.tpe p = InvalidBlob)).
Proof.
  intros Hp types.
  pose proof (account_tpe keepBlobs duplicateBlobs (IndexEach repo)
                (seedIndexPack (IndexPackSize repo)) id) as Ht.
  fold (buildIndexPack keepBlobs duplicateBlobs repo) in Ht.
  rewrite seedIndexPack_lookup in Ht. fold types in Ht.
  unfold entry in Ht. rewrite Hp in Ht. unfold default, Datatypes.id in Ht.
  split.
  - intros Hn. rewrite Hn in Ht. rewrite Ht. apply tagBlobs_invalid.
  - intros [hdr Hh]. rewrite Hh in Ht. cbn [packInfo.tpe] in Ht. rewrite Ht.
    split; [|split].
    + intros ->. done.
    + intros t Hne Hall. destruct types as [|x l]; [done|]. cbn [foldl].
      assert (Hx : x = t) by (apply Hall, list_elem_of_here). subst x.
      replace (tagBlob NumBlobTypes t) with t by (unfold tagBlob; by destruct t).
      apply tagBlobs_same. intros t' Ht'. apply Hall. by apply list_elem_of_further.
    + intros t1 t2 Hnum H1 H2 Hne. destruct types as [|x l]; [by apply elem_of_nil in H1|].
      cbn [foldl].
      assert (Hx : x <> NumBlobTypes) by (intros ->; apply Hnum, list_elem_of_here).
      replace (tagBlob NumBlobTypes x) with x by (unfold tagBlob; by destruct x).
      apply elem_of_cons in H1 as [->|H1], H2 as [->|H2].
      * done.
      * by apply (tagBlobs_mixed l x t2).
      * by apply (tagBlobs_mixed l x t1).
      * destruct (decide (t1 = x)) as [->|Hd].
        -- by apply (tagBlobs_mixed l x t2).
        -- by apply (tagBlobs_mixed l x t1).
Qed.

(** Pack 1 of the sample repository, for X4, holds data blobs only. *)
Lemma buildIndexPack_tpe_witness :
  packInfo.tpe (packInfo.mk 1 0 1 35 0 DataBlob) = DataBlob.
Proof.
  destruct (buildIndexPack_tpe
              (c_keepBlobs (classifyBlobs sampleUsed (IndexEach sampleRepo)))
              (c_duplicateBlobs (classifyBlobs sampleUsed (IndexEach sampleRepo)))
              sampleRepo 1%N (packInfo.mk 1 0 1 35 0 DataBlob)) as (_&H).
  - vm_compute. reflexivity.
  - destruct H as (_&H&_); [by exists 5|].
    apply H; [by vm_compute|].
    intros t' Ht'. vm_compute in Ht'.
    repeat (apply elem_of_cons in Ht' as [->|Ht']; [reflexivity|]).
    by apply elem_of_nil in Ht'.
Defined.

(** ** The first pass over the index *)

(** The handles of the used set are either still in it or in
    [keepBlobs]. *)
Lemma classify_partition blobs : forall s,
  c_keepBlobs (foldl classifyBlob s blobs) ∪ c_usedBlobs (foldl classifyBlob s blobs)
  = c_keepBlobs s ∪ c_usedBlobs s.
Proof.
  induction blobs as [|b blobs IH]; intros s; cbn [foldl]; [done|].
  rewrite IH. unfold classifyBlob.
  repeat case_decide; cbn [c_keepBlobs c_usedBlobs]; [|done..].
  apply set_eq. intros h. destruct (decide (h = Handle b)); set_solver.
Qed.

(** X5.  The keep set of a plan that [planPrune] returns without error is
    the used set that it was given, no more and no less: every used handle
    is in the index, and a handle that is not used is not kept.  The
    handles that it counts as duplicates are kept handles. *)
Theorem planPrune_keepBlobs
    (sortSlice : forall A : Type, (A -> A -> bool) -> list A -> list A)
    (opts : PruneOptions) (repo : Repository) (usedBlobs : gset BlobHandle) :
  (planPrune sortSlice opts repo usedBlobs).2 = None ->
  keepBlobs (planPrune sortSlice opts repo usedBlobs).1.1 = usedBlobs
  /\ (forall h, h ∈ usedBlobs -> h ∈ Handle <$> IndexEach repo)
  /\ c_duplicateBlobs (classifyBlobs usedBlobs (IndexEach repo)) ⊆ usedBlobs.
Proof.
  intros Hok.
  destruct (planPrune_plan sortSlice opts repo usedBlobs Hok) as (Hk&_).
  apply planPrune_succeeds in Hok as (Hz&_).
  pose proof (classify_partition (IndexEach repo) (mkClassified usedBlobs ∅ ∅ zeroStats)) as Hp.
  fold (classifyBlobs usedBlobs (IndexEach repo)) in Hp. cbn [c_keepBlobs c_usedBlobs] in Hp.
  assert (He : c_usedBlobs (classifyBlobs usedBlobs (IndexEach repo)) = ∅).
  { apply size_empty_iff in Hz. by apply leibniz_equiv. }
  rewrite He in Hp.
  assert (Hkeep : c_keepBlobs (classifyBlobs usedBlobs (IndexEach repo)) = usedBlobs)
    by set_solver.
  split; [by rewrite Hk|]. split.
  - by apply classifyBlobs_complete.
  - rewrite <- Hkeep at 2. apply classifyBlobs_duplicates.
Qed.

(** The plan for the sample repository, for X5. *)
Lemma planPrune_keepBlobs_witness :
  keepBlobs (planPrune insertionSort sampleOpts sampleRepo sampleUsed).1.1 = sampleUsed.
Proof.
  destruct (planPrune_keepBlobs insertionSort sampleOpts sampleRepo sampleUsed) as (H&_).
  - vm_compute. reflexivity.
  - exact H.
Defined.

(** ** Which packs are repacked and which are left alone *)

Section Candidates.

Variable opts : PruneOptions.

Lemma decidePack_candidates_kind id p v c :
  c ∈ repackCandidates (decidePack opts id p v) ->
  c ∈ repackCandidates v
  \/ (c = mkPackInfoWithID id p /\ unneeded p = false /\ keptAsIs opts p = false).
Proof.
  unfold decidePack, keptAsIs. destruct (keep_fields p v) as (?&?&?&?&Hc&?).
  destruct (unneeded p) eqn:Hun; simpl; [auto|].
  destruct (RepackCachableOnly opts && bool_decide (packInfo.tpe p = DataBlob)); simpl;
    [rewrite Hc; auto|].
  destruct ((packInfo.unusedBlobs p =? 0) && (packInfo.duplicateBlobs p =? 0)
            && negb (bool_decide (packInfo.tpe p = InvalidBlob))); simpl;
    [rewrite Hc; auto|].
  rewrite elem_of_app, list_elem_of_singleton. intros [?|?]; auto.
Qed.

Lemma listPacks_candidates_kind files : forall v c,
  c ∈ repackCandidates (listPacks opts v files).1 ->
  c ∈ repackCandidates v
  \/ (pwID c ∈ files.*1 /\ indexPack v !! pwID c = Some (pwInfo c)
      /\ unneeded (pwInfo c) = false /\ keptAsIs opts (pwInfo c) = false).
Proof.
  induction files as [|[i sz] files IH]; intros v c; simpl; [by left|].
  destruct (indexPack v !! i) as [p|] eqn:Hl.
  - rewrite (listPack_known _ _ _ _ _ Hl). destruct (sizeMismatch p sz); simpl; [by left|].
    intros H. apply IH in H as [H|(Hin&Hlk&Hun&Hk)].
    + unfold listedKnown in H. simpl in H.
      apply decidePack_candidates_kind in H as [H|(->&Hun&Hk)]; [by left|].
      right. simpl. split; [apply list_elem_of_here|done].
    + right. destruct (listedKnown_fields opts v i p) as (Hi&_). rewrite Hi in Hlk.
      apply lookup_delete_Some in Hlk as [_ Hlk].
      split; [by apply list_elem_of_further|done].
  - rewrite (listPack_unknown _ _ _ _ Hl).
    intros H. apply IH in H as [H|(Hin&Hlk&Hun&Hk)]; [by left|].
    right. split; [by apply list_elem_of_further|done].
Qed.

End Candidates.

(** The packs of [repackPacks] are candidates of the listing. *)
Lemma planPrune_repackPacks_candidates
    (sortSlice : forall A : Type, (A -> A -> bool) -> list A -> list A)
    (opts : PruneOptions) (repo : Repository) (usedBlobs : gset BlobHandle) (id : ID) :
  (forall l : list packInfoWithID, sortSlice _ lessCandidate l ≡ₚ l) ->
  (planPrune sortSlice opts repo usedBlobs).2 = None ->
  id ∈ repackPacks (planPrune sortSlice opts repo usedBlobs).1.1 ->
  exists c, c ∈ repackCandidates (reconcile opts repo usedBlobs).1 /\ pwID c = id.
Proof.
  intros Hsort Hok Hid.
  destruct (planPrune_plan sortSlice opts repo usedBlobs Hok) as (_&_&_&_&Hrp&_).
  rewrite Hrp in Hid.
  apply (selectAndTotal_repackPacks sortSlice opts _ _ Hsort) in Hid.
  unfold missingPacks in Hid.
  destruct (missingPacksIn_fields (map_to_list (indexPack (reconcile opts repo usedBlobs).1))
              (reconcile opts repo usedBlobs).1) as (_&_&Hp&Hc&_).
  rewrite Hp, Hc in Hid.
  destruct Hid as [Hid|Hid].
  - unfold reconcile in Hid.
    match type of Hid with context [listPacks ?o ?w ?fs] =>
      destruct (listPacks_untouched o fs w) as [Hu _]; rewrite Hu in Hid end.
    by apply elem_of_empty in Hid.
  - apply list_elem_of_fmap in Hid as (c&->&Hc'). by exists c.
Qed.

(** X6.  Every pack that a successful [planPrune] puts into [repackPacks]
    is a pack of the index with a used or a duplicate blob that the
    listing did not keep as it is: under [--repack-cacheable-only] it is
    not a data pack, and it has an unused blob, a duplicate blob or mixed
    types. *)
Theorem planPrune_repack_eligible
    (sortSlice : forall A : Type, (A -> A -> bool) -> list A -> list A)
    (opts : PruneOptions) (repo : Repository) (usedBlobs : gset BlobHandle) :
  (forall l : list packInfoWithID, sortSlice _ lessCandidate l ≡ₚ l) ->
  (planPrune sortSlice opts repo usedBlobs).2 = None ->
  let c := classifyBlobs usedBlobs (IndexEach repo) in
  let index := buildIndexPack (c_keepBlobs c) (c_duplicateBlobs c) repo in
  forall id, id ∈ repackPacks (planPrune sortSlice opts repo usedBlobs).1.1 ->
    exists p, index !! id = Some p
      /\ ~ (packInfo.usedBlobs p = 0 /\ packInfo.duplicateBlobs p = 0)
      /\ (RepackCachableOnly opts = true -> packInfo.tpe p <> DataBlob)
      /\ (packInfo.unusedBlobs p <> 0 \/ packInfo.duplicateBlobs p <> 0
          \/ packInfo.tpe p = InvalidBlob).
Proof.
  intros Hsort Hok c index id Hid.
  destruct (planPrune_repackPacks_candidates sortSlice opts repo usedBlobs id Hsort Hok Hid)
    as (cand&Hc&<-).
  unfold reconcile in Hc. fold c in Hc.
  apply listPacks_candidates_kind in Hc as [Hc|(_&Hl&Hun&Hk)];
    [by apply elem_of_nil in Hc|].
  cbn [indexPack startPlanner] in Hl. fold index in Hl.
  exists (pwInfo cand). split; [exact Hl|].
  unfold unneeded in Hun. unfold keptAsIs in Hk.
  apply orb_false_iff in Hk as [Hk1 Hk2].
  split; [|split].
  - intros [H1 H2]. rewrite H1, H2 in Hun. discriminate.
  - intros Hr Ht. rewrite Hr, (bool_decide_eq_true_2 _ Ht) in Hk1. discriminate.
  - destruct (Z.eqb_spec (packInfo.unusedBlobs (pwInfo cand)) 0) as [Hu|Hu]; [|by left].
    destruct (Z.eqb_spec (packInfo.duplicateBlobs (pwInfo cand)) 0) as [Hd|Hd]; [|by right; left].
    right; right. cbn [andb] in Hk2. apply negb_false_iff in Hk2.
    by apply bool_decide_eq_true in Hk2.
Qed.

(** Pack 1 of the sample repository, for X6: it is repacked and holds a
    duplicate blob. *)
Lemma planPrune_repack_eligible_witness :
  exists p,
    buildIndexPack (c_keepBlobs (classifyBlobs sampleUsed (IndexEach sampleRepo)))
      (c_duplicateBlobs (classifyBlobs sampleUsed (IndexEach sampleRepo))) sampleRepo !! 1%N
    = Some p
    /\ ~ (packInfo.usedBlobs p = 0 /\ packInfo.duplicateBlobs p = 0)
    /\ (RepackCachableOnly sampleOpts = true -> packInfo.tpe p <> DataBlob)
    /\ (packInfo.unusedBlobs p <> 0 \/ packInfo.duplicateBlobs p <> 0
        \/ packInfo.tpe p = InvalidBlob).
Proof.
  apply (planPrune_repack_eligible insertionSort sampleOpts sampleRepo sampleUsed).
  - intros l. apply insertionSort_permutation.
  - vm_compute. reflexivity.
  - replace (repackPacks (planPrune insertionSort sampleOpts sampleRepo sampleUsed).1.1)
      with ({[1%N; 2%N]} : gset ID) by (vm_compute; reflexivity).
    set_solver.
Defined.

(** X7.  A pack of the index with a used or a duplicate blob that is a
    data pack under [--repack-cacheable-only], or that has no unused and no
    duplicate blob and is not mixed, is left alone by a successful
    [planPrune]: it is in none of [removePacksFirst], [repackPacks],
    [removePacks] and [ignorePacks].  (The backend lists no file twice,
    and [sort.Slice] rearranges the candidates.) *)
Theorem planPrune_kept_untouched
    (sortSlice : forall A : Type, (A -> A -> bool) -> list A -> list A)
    (opts : PruneOptions) (repo : Repository) (usedBlobs : gset BlobHandle)
    (id : ID) (p : packInfo.t) :
  (forall l : list packInfoWithID, sortSlice _ lessCandidate l ≡ₚ l) ->
  NoDup (ListPackFiles repo).*1 ->
  (planPrune sortSlice opts repo usedBlobs).2 = None ->
  buildIndexPack (c_keepBlobs (classifyBlobs usedBlobs (IndexEach repo)))
    (c_duplicateBlobs (classifyBlobs usedBlobs (IndexEach repo))) repo !! id = Some p ->
  ~ (packInfo.usedBlobs p = 0 /\ packInfo.duplicateBlobs p = 0) ->
  (RepackCachableOnly opts = true /\ packInfo.tpe p = DataBlob)
  \/ (packInfo.unusedBlobs p = 0 /\ packInfo.duplicateBlobs p = 0
      /\ packInfo.tpe p <> InvalidBlob) ->
  let plan := (planPrune sortSlice opts repo usedBlobs).1.1 in
  (id ∉ removePacksFirst plan) /\ (id ∉ repackPacks plan)
  /\ (id ∉ removePacks plan) /\ (id ∉ ignorePacks plan).
Proof.
  intros Hsort Hnd Hok Hp Hneeded Hkept plan.
  set (c := classifyBlobs usedBlobs (IndexEach repo)) in *.
  assert (Hun : unneeded p = false).
  { apply not_true_is_false. intros H. apply Hneeded.
    unfold unneeded in H. apply andb_true_iff in H as [H1 H2].
    by apply Z.eqb_eq in H1, H2. }
  assert (Hk : keptAsIs opts p = true).
  { unfold keptAsIs. destruct Hkept as [[-> Ht]|(Hu&Hd&Ht)].
    - by rewrite (bool_decide_eq_true_2 _ Ht).
    - rewrite Hu, Hd, (bool_decide_eq_false_2 _ Ht). cbn. apply orb_true_r. }
  destruct (planPrune_plan sortSlice opts repo usedBlobs Hok) as (_&Hf&Hrm&Hi&_).
  pose proof Hok as Hok'. apply planPrune_succeeds in Hok' as (Hz&Hr&Hm).
  split; [|split; [|split]].
  - unfold plan. rewrite Hf. intros Hid. unfold reconcile in Hid, Hr. fold c in Hid, Hr.
    apply listPacks_removePacksFirst in Hid; [|done|done].
    destruct Hid as [Hid|[_ Hid]]; [by apply elem_of_empty in Hid|].
    cbn [indexPack startPlanner] in Hid. congruence.
  - intros Hid.
    destruct (planPrune_repackPacks_candidates sortSlice opts repo usedBlobs id Hsort Hok Hid)
      as (cand&Hc&<-).
    unfold reconcile in Hc. fold c in Hc.
    apply listPacks_candidates_kind in Hc as [Hc|(_&Hl&_&Hk')];
      [by apply elem_of_nil in Hc|].
    cbn [indexPack startPlanner] in Hl. congruence.
  - unfold plan. rewrite Hrm. intros Hid. unfold reconcile in Hid, Hr. fold c in Hid, Hr.
    apply listPacks_removePacks in Hid; [|done].
    destruct Hid as [Hid|(_&q&Hq&Hqu)]; [by apply elem_of_empty in Hid|].
    cbn [indexPack startPlanner] in Hq. congruence.
  - unfold plan. rewrite Hi. intros Hid.
    unfold missingPacks in Hid. apply missingPacksIn_ignorePacks in Hid.
    destruct Hid as [Hid|(q&Hin&Hqu)].
    + unfold reconcile in Hid.
      match type of Hid with context [listPacks ?o ?w ?fs] =>
        destruct (listPacks_untouched o fs w) as [_ Hu]; rewrite Hu in Hid end.
      by apply elem_of_empty in Hid.
    + apply (reconcile_indexPack opts repo usedBlobs id q Hr) in Hin as [Hl _].
      fold c in Hl. congruence.
Qed.

(** Pack 1 of [tiedRepo] under [--repack-cacheable-only], for X7. *)
Lemma planPrune_kept_untouched_witness :
  let plan := (planPrune insertionSort cacheableOpts
                 (tiedRepo [(1%N, 25); (2%N, 25)]) sampleUsed).1.1 in
  (1%N ∉ removePacksFirst plan) /\ (1%N ∉ repackPacks plan)
  /\ (1%N ∉ removePacks plan) /\ (1%N ∉ ignorePacks plan).
Proof.
  apply (planPrune_kept_untouched insertionSort cacheableOpts
           (tiedRepo [(1%N, 25); (2%N, 25)]) sampleUsed 1%N
           (packInfo.mk 1 1 0 15 10 DataBlob)).
  - intros l. apply insertionSort_permutation.
  - apply (bool_decide_unpack _). vm_compute. exact I.
  - vm_compute. reflexivity.
  - vm_compute. reflexivity.
  - cbn. lia.
  - left. split; reflexivity.
Defined.

(** ** The calls of [doPrune] *)

(** The positions at which a call can stand in a given sequence. *)
Ltac trace_cases H :=
  lazymatch type of H with
  | [] = ?pre ++ _ :: _ => by destruct pre
  | _ :: _ = ?pre ++ _ :: _ =>
      let c := fresh "c" in
      destruct pre as [|c pre]; cbn [app] in H;
      [ injection H as ? ?
      | let H' := fresh "H" in injection H as ? H'; trace_cases H' ]
  end.

Lemma size_zero_empty (s : gset ID) : size s = 0%nat -> s = ∅.
Proof. intros H. apply size_empty_iff in H. by apply leibniz_equiv. Qed.

(** X8.  [doPrune] deletes pack files at two places only.  The packs of
    [plan.removePacksFirst] are deleted by the first call that it makes.
    Every other deletion of pack files is its last call: it deletes the
    packs of [plan.removePacks] and [plan.repackPacks], after the index has
    been saved without them and without the packs of [plan.ignorePacks] and
    the obsolete index files have been deleted, both without error, and
    after [repository.Repack] has repacked [plan.repackPacks] without
    error. *)
Theorem doPrune_deletes_after_rebuild
    (w : Collaborators) (opts : PruneOptions) (plan : prunePlan)
    (pre post : list call) (ids : gset ID) :
  (doPrune w opts plan).1 = pre ++ DeleteFiles ids PackFile :: post ->
  (pre = [] /\ ids = removePacksFirst plan /\ size ids <> 0%nat)
  \/ (post = [] /\ ids = removePacks plan ∪ repackPacks plan /\ size ids <> 0%nat
      /\ (doPrune w opts plan).2 = None
      /\ (exists obsolete pre',
            saveResult w = (obsolete, None) /\ deleteFilesCheckedErr w = None
            /\ pre = pre' ++ [Save (ignorePacks plan ∪ ids) [];
                              DeleteFilesChecked obsolete IndexFile])
      /\ (size (repackPacks plan) <> 0%nat ->
          repackErr w = None /\ Repack (repackPacks plan) (keepBlobs plan) ∈ pre)).
Proof.
  unfold doPrune, rebuildIndexFiles.
  destruct (DryRun opts); [intros H; cbn in H; by destruct pre|].
  assert (Hunion : forall a b : gset ID, size (a ∪ b) = 0%nat -> size b = 0%nat).
  { intros a b H. apply size_zero_empty in H.
    assert (b = ∅) as -> by set_solver. apply size_empty. }
  destruct (Nat.eqb_spec (size (removePacksFirst plan)) 0) as [Hf|Hf];
    destruct (Nat.eqb_spec (size (repackPacks plan)) 0) as [Hr|Hr]; cbn [negb app].
  all: try (destruct (repackErr w) as [e|] eqn:Hre; cbn [negb app fst snd];
            [intros H; trace_cases H; simplify_eq; left; done|]).
  all: try rewrite (size_zero_empty _ Hr), !(right_id_L ∅ (∪)).
  all: destruct (Nat.eqb_spec (size (ignorePacks plan)) 0) as [Hi|Hi];
       try rewrite (size_zero_empty _ Hi), !(left_id_L ∅ (∪)).
  all: match goal with |- context [negb (Nat.eqb (size ?ign) 0)] =>
         destruct (Nat.eqb_spec (size ign) 0) as [Hg|Hg] end; cbn [negb].
  all: try (apply Hunion in Hg).
  all: try match goal with |- context [negb (Nat.eqb (size ?del) 0)] =>
         destruct (Nat.eqb_spec (size del) 0) as [Hd|Hd] end; try done; cbn [negb].
  all: destruct (saveResult w) as [obs [e|]] eqn:Hs; cbn [fst snd app];
       try destruct (deleteFilesCheckedErr w) as [e'|] eqn:Hc; cbn [fst snd app].
  all: intros H; trace_cases H; simplify_eq.
  all: try (left; done).
  all: right; do 4 (split; [done|]); split.
  all: try (first [by exists obs, [] | by eexists obs, [_] | by eexists obs, [_; _]]).
  all: intros Hne; try (rewrite size_empty in Hne; done).
  all: split; [done|].
  all: repeat first [apply list_elem_of_here | apply list_elem_of_further].
Qed.

(** The calls of [doPrune] for the plan of the sample repository, for X8:
    the last call deletes the packs 1, 2 and 3. *)
Lemma doPrune_deletes_after_rebuild_witness :
  (doPrune sampleCollaborators sampleOpts samplePlan).1
  = [DeleteFiles {[9%N]} PackFile; Repack {[1%N; 2%N]} sampleUsed;
     Save ({[4%N]} ∪ ({[3%N]} ∪ {[1%N; 2%N]})) [];
     DeleteFilesChecked {[7%N; 8%N]} IndexFile]
    ++ DeleteFiles ({[3%N]} ∪ {[1%N; 2%N]}) PackFile :: []
  /\ ((@nil call = [] /\ ({[3%N]} ∪ {[1%N; 2%N]} : gset ID) = removePacks samplePlan ∪ repackPacks samplePlan)
      /\ (doPrune sampleCollaborators sampleOpts samplePlan).2 = None).
Proof.
  assert (H : (doPrune sampleCollaborators sampleOpts samplePlan).1
              = [DeleteFiles {[9%N]} PackFile; Repack {[1%N; 2%N]} sampleUsed;
                 Save ({[4%N]} ∪ ({[3%N]} ∪ {[1%N; 2%N]})) [];
                 DeleteFilesChecked {[7%N; 8%N]} IndexFile]
                ++ DeleteFiles ({[3%N]} ∪ {[1%N; 2%N]}) PackFile :: [])
    by (vm_compute; reflexivity).
  split; [exact H|].
  destruct (doPrune_deletes_after_rebuild sampleCollaborators sampleOpts samplePlan _ _ _ H)
    as [(Hpre&_)|(Hpost&Hids&_&Herr&_)].
  - discriminate Hpre.
  - exact (conj (conj Hpost Hids) Herr).
Defined.

(** The pack files that [doPrune] deletes, and the repacking that
    precedes the deletion of planned packs. *)
Lemma doPrune_deleted_repacked
    (w : Collaborators) (opts : PruneOptions) (plan : prunePlan)
    (pre post : list call) (ids : gset ID) :
  (doPrune w opts plan).1 = pre ++ DeleteFiles ids PackFile :: post ->
  ids = removePacksFirst plan
  \/ (ids = removePacks plan ∪ repackPacks plan
      /\ (size (repackPacks plan) <> 0%nat ->
          repackErr w = None /\ Repack (repackPacks plan) (keepBlobs plan) ∈ pre)).
Proof.
  unfold doPrune, rebuildIndexFiles.
  destruct (DryRun opts); [intros H; cbn in H; by destruct pre|].
  destruct (Nat.eqb_spec (size (removePacksFirst plan)) 0) as [Hf|Hf];
    destruct (Nat.eqb_spec (size (repackPacks plan)) 0) as [Hr|Hr]; cbn [negb app].
  all: try (destruct (repackErr w) as [e|] eqn:Hre; cbn [negb app fst snd];
            [intros H; trace_cases H; simplify_eq; left; done|]).
  all: try rewrite (size_zero_empty _ Hr), !(right_id_L ∅ (∪)).
  all: match goal with |- context [negb (Nat.eqb (size ?ign) 0)] =>
         destruct (Nat.eqb_spec (size ign) 0) as [Hg|Hg] end; cbn [negb].
  all: try match goal with |- context [negb (Nat.eqb (size ?del) 0)] =>
         destruct (Nat.eqb_spec (size del) 0) as [Hd|Hd] end; cbn [negb].
  all: destruct (saveResult w) as [obs [e|]] eqn:Hs; cbn [fst snd app];
       try destruct (deleteFilesCheckedErr w) as [e'|] eqn:Hc; cbn [fst snd app].
  all: intros H; trace_cases H; simplify_eq.
  all: try (left; done).
  all: right; split; [done|].
  all: intros Hne; try (rewrite size_empty in Hne; done).
  all: split; [done|].
  all: repeat first [apply list_elem_of_here | apply list_elem_of_further].
Qed.

(** X9.  With a plan that [planPrune] has returned without error, every
    pack file that [doPrune] deletes is harmless: if the index places a
    blob of the used set in a deleted pack, then [repository.Repack] has
    been called before, without error, on a set of packs that holds this
    pack and with a keep set that holds this blob.  (The backend lists no
    file twice; the index has fewer than 2^64 blobs.) *)
Theorem doPrune_deletes_no_used_blob
    (sortSlice : forall A : Type, (A -> A -> bool) -> list A -> list A)
    (w : Collaborators) (opts : PruneOptions) (repo : Repository)
    (usedBlobs : gset BlobHandle)
    (pre post : list call) (ids : gset ID) (b : PackedBlob) :
  NoDup (ListPackFiles repo).*1 ->
  Z.of_nat (length (IndexEach repo)) < 2 ^ 64 ->
  (planPrune sortSlice opts repo usedBlobs).2 = None ->
  let plan := (planPrune sortSlice opts repo usedBlobs).1.1 in
  (doPrune w opts plan).1 = pre ++ DeleteFiles ids PackFile :: post ->
  (b ∈ IndexEach repo) -> (PackID b ∈ ids) -> (Handle b ∈ usedBlobs) ->
  repackErr w = None
  /\ (exists packs kept, Repack packs kept ∈ pre /\ PackID b ∈ packs /\ Handle b ∈ kept).
Proof.
  intros Hnd Hlen Hok plan Htrace Hb Hid Hused.
  destruct (planPrune_plan sortSlice opts repo usedBlobs Hok) as (Hk&Hf&Hrm&_).
  pose proof Hok as Hok'. apply planPrune_succeeds in Hok' as (Hz&Hr&_).
  set (c := classifyBlobs usedBlobs (IndexEach repo)) in *.
  assert (Hkept : Handle b ∈ c_keepBlobs c) by (by apply classifyBlobs_keep).
  apply doPrune_deleted_repacked in Htrace as [->|[-> Hrep]].
  - exfalso. unfold plan in Hid. rewrite Hf in Hid.
    unfold reconcile in Hid, Hr. fold c in Hid, Hr.
    apply listPacks_removePacksFirst in Hid; [|done|done].
    destruct Hid as [Hid|[_ Hid]]; [by apply elem_of_empty in Hid|].
    cbn [indexPack startPlanner] in Hid.
    destruct (account_known (c_keepBlobs c) (c_duplicateBlobs c) (IndexEach repo)
                (seedIndexPack (IndexPackSize repo)) b Hb) as [p Hp].
    unfold buildIndexPack in Hid. congruence.
  - apply elem_of_union in Hid as [Hid|Hid].
    + exfalso. unfold plan in Hid. rewrite Hrm in Hid.
      unfold reconcile in Hid, Hr. fold c in Hid, Hr.
      apply listPacks_removePacks in Hid; [|done].
      destruct Hid as [Hid|(_&p&Hp&Hun)]; [by apply elem_of_empty in Hid|].
      cbn [indexPack startPlanner] in Hp.
      destruct (buildIndexPack_unneeded (c_keepBlobs c) (c_duplicateBlobs c) repo
                  (PackID b) p b Hlen Hp Hun Hb eq_refl) as [Hnk _].
      done.
    + assert (Hne : size (repackPacks plan) <> 0%nat).
      { intros H0. apply size_zero_empty in H0. rewrite H0 in Hid.
        by apply elem_of_empty in Hid. }
      destruct (Hrep Hne) as [Hre Hin]. split; [exact Hre|].
      exists (repackPacks plan), (keepBlobs plan).
      split; [exact Hin|]. split; [exact Hid|]. unfold plan. by rewrite Hk.
Qed.

(** The sample repository, for X9: pack 1 holds the used blob 2; it is
    deleted by the last call, after it has been repacked. *)
Lemma doPrune_deletes_no_used_blob_witness :
  repackErr sampleCollaborators = None
  /\ (exists packs kept,
        Repack packs kept
          ∈ [DeleteFiles {[9%N]} PackFile; Repack {[1%N; 2%N]} sampleUsed;
             Save ({[4%N]} ∪ ({[3%N]} ∪ {[1%N; 2%N]})) [];
             DeleteFilesChecked {[7%N; 8%N]} IndexFile]
        /\ PackID (mkPackedBlob (dataHandle 2) 20 1%N) ∈ packs
        /\ Handle (mkPackedBlob (dataHandle 2) 20 1%N) ∈ kept).
Proof.
  apply (doPrune_deletes_no_used_blob insertionSort sampleCollaborators sampleOpts sampleRepo
           sampleUsed _ [] ({[3%N]} ∪ {[1%N; 2%N]})).
  - apply (bool_decide_unpack _). vm_compute. exact I.
  - simpl. lia.
  - vm_compute. reflexivity.
  - vm_compute. reflexivity.
  - cbn [IndexEach sampleRepo]. apply list_elem_of_further, list_elem_of_here.
  - cbn [PackID]. set_solver.
  - cbn [Handle]. unfold sampleUsed. set_solver.
Defined.

(** ** The calls of [runPrune] *)

Section Runs.

Variable sortSlice : forall A : Type, (A -> A -> bool) -> list A -> list A.
Variable parseNumber : string -> spec_float * option error.
Variable parseSizeStr : string -> Z * option error.
Variable uint64OutOfRange : spec_float -> Z.

(** [doPrune] makes no other calls than those that change the
    repository. *)
Lemma doPrune_calls (w : Collaborators) (opts : PruneOptions) (plan : prunePlan) (c : call) :
  c ∈ (doPrune w opts plan).1 -> mutates c = true.
Proof.
  unfold doPrune, rebuildIndexFiles.
  destruct (DryRun opts); [intros H; by apply elem_of_nil in H|].
  destruct (negb (Nat.eqb (size (removePacksFirst plan)) 0));
    destruct (negb (Nat.eqb (size (repackPacks plan)) 0)); cbn [app].
  all: try (destruct (repackErr w) as [e|]; cbn [fst snd app]).
  all: repeat match goal with |- context [negb (Nat.eqb (size ?s) 0)] =>
         destruct (negb (Nat.eqb (size s) 0)) end.
  all: destruct (saveResult w) as [obs [e'|]]; cbn [fst snd app];
       try destruct (deleteFilesCheckedErr w) as [e''|]; cbn [fst snd app].
  all: intros H; repeat (apply elem_of_cons in H as [->|H]; [reflexivity|]).
  all: by apply elem_of_nil in H.
Qed.

Lemma runPruneWithRepo_calls (w : Collaborators) (opts : PruneOptions)
    (gopts : GlobalOptions) (repo : Repository) (ignoreSnapshots : gset ID) (c : call) :
  c ∈ (runPruneWithRepo sortSlice w opts gopts repo ignoreSnapshots).1 ->
  (c <> OpenRepository /\ c <> LockRepoExclusive /\ c <> UnlockRepo)
  /\ (mutates c = true ->
      exists usedBlobs,
        loadIndexErr w = None /\ usedBlobsFound w = (usedBlobs, None)
        /\ (planPrune sortSlice opts repo usedBlobs).2 = None
        /\ (JSON gopts = true -> encodeErr w = None)
        /\ c ∈ (doPrune w opts (planPrune sortSlice opts repo usedBlobs).1.1).1).
Proof.
  unfold runPruneWithRepo, printPruneStats.
  destruct (loadIndexErr w) as [e|] eqn:Hload.
  { cbn [fst]. intros H. repeat (apply elem_of_cons in H as [->|H]; [by split|]).
    by apply elem_of_nil in H. }
  destruct (usedBlobsFound w) as [usedBlobs [e|]] eqn:Hused.
  { cbn [fst app]. intros H. repeat (apply elem_of_cons in H as [->|H]; [by split|]).
    by apply elem_of_nil in H. }
  destruct (planPrune sortSlice opts repo usedBlobs) as [[plan stats] [e|]] eqn:Hplan.
  { cbn [fst app]. intros H. repeat (apply elem_of_cons in H as [->|H]; [by split|]).
    by apply elem_of_nil in H. }
  destruct (JSON gopts) eqn:Hjson; [destruct (encodeErr w) as [e|] eqn:Henc|].
  { cbn [fst app]. intros H. repeat (apply elem_of_cons in H as [->|H]; [by split|]).
    by apply elem_of_nil in H. }
  all: destruct (doPrune w opts plan) as [cs err] eqn:Hdo; cbn [fst app].
  all: intros H; repeat (apply elem_of_cons in H as [->|H]; [by split|]).
  all: assert (Hm : mutates c = true)
         by (apply (doPrune_calls w opts plan); by rewrite Hdo).
  all: split; [by destruct c|]; intros _; exists usedBlobs.
  all: rewrite Hplan; cbn [fst snd]; rewrite Hdo; done.
Qed.

End Runs.

(** X10.  A run of [runPrune] changes the repository only when everything
    before has succeeded: when it calls [DeleteFiles], [Repack], [Save] or
    [DeleteFilesChecked], the options were accepted, the repository was
    opened and locked, the index loaded and the used blobs found without
    error, [planPrune] has returned a plan without error for the verified
    options, the statistics were written without error, [--dry-run] is not
    set, and the call is one of [doPrune] for that plan.  So a failure of
    [planPrune] (an incomplete index, a size that does not match, a missing
    pack) leaves the repository as it is. *)
Theorem runPrune_changes_after_plan
    (sortSlice : forall A : Type, (A -> A -> bool) -> list A -> list A)
    (parseNumber : string -> spec_float * option error)
    (parseSizeStr : string -> Z * option error)
    (uint64OutOfRange : spec_float -> Z)
    (w : Collaborators) (opts : PruneOptions) (gopts : GlobalOptions)
    (repo : Repository) (c : call) :
  c ∈ (runPrune sortSlice parseNumber parseSizeStr uint64OutOfRange w opts gopts repo).1 ->
  mutates c = true ->
  exists opts' usedBlobs,
    verifyPruneOptions parseNumber parseSizeStr uint64OutOfRange opts = (opts', None)
    /\ openRepositoryErr w = None /\ lockRepoExclusiveErr w = None
    /\ loadIndexErr w = None /\ usedBlobsFound w = (usedBlobs, None)
    /\ (planPrune sortSlice opts' repo usedBlobs).2 = None
    /\ (JSON gopts = true -> encodeErr w = None)
    /\ DryRun opts' = false
    /\ c ∈ (doPrune w opts' (planPrune sortSlice opts' repo usedBlobs).1.1).1.
Proof.
  unfold runPrune.
  destruct (verifyPruneOptions parseNumber parseSizeStr uint64OutOfRange opts)
    as [opts' [e|]] eqn:Hv.
  { cbn [fst]. intros H. by apply elem_of_nil in H. }
  destruct (openRepositoryErr w) as [e|] eqn:Ho.
  { cbn [fst]. intros H Hm. apply list_elem_of_singleton in H as ->. discriminate Hm. }
  destruct (lockRepoExclusiveErr w) as [e|] eqn:Hl.
  { cbn [fst]. intros H Hm.
    repeat (apply elem_of_cons in H as [->|H]; [discriminate Hm|]).
    by apply elem_of_nil in H. }
  destruct (runPruneWithRepo sortSlice w opts' gopts repo ∅) as [cs err] eqn:Hrun.
  cbn [fst app]. intros H Hm.
  repeat (apply elem_of_cons in H as [->|H]; [discriminate Hm|]).
  apply elem_of_app in H as [H|H];
    [|apply list_elem_of_singleton in H as ->; discriminate Hm].
  assert (Hc : c ∈ (runPruneWithRepo sortSlice w opts' gopts repo ∅).1) by (by rewrite Hrun).
  apply runPruneWithRepo_calls in Hc as [_ Hc].
  destruct (Hc Hm) as (usedBlobs&Hload&Hused&Hplan&Henc&Hdo).
  exists opts', usedBlobs. do 7 (split; [done|]). split; [|exact Hdo].
  destruct (DryRun opts') eqn:Hdry; [|done].
  unfold doPrune in Hdo. rewrite Hdry in Hdo. by apply elem_of_nil in Hdo.
Qed.

(** A run on the sample repository, for X10: it deletes the unreferenced
    pack 9. *)
Lemma runPrune_changes_after_plan_witness :
  exists opts' usedBlobs,
    verifyPruneOptions sampleParseNumber sampleParseSizeStr sampleOutOfRange sampleOpts
    = (opts', None)
    /\ openRepositoryErr sampleCollaborators = None
    /\ lockRepoExclusiveErr sampleCollaborators = None
    /\ loadIndexErr sampleCollaborators = None
    /\ usedBlobsFound sampleCollaborators = (usedBlobs, None)
    /\ (planPrune insertionSort opts' sampleRepo usedBlobs).2 = None
    /\ (JSON sampleGlobalOptions = true -> encodeErr sampleCollaborators = None)
    /\ DryRun opts' = false
    /\ DeleteFiles {[9%N]} PackFile
       ∈ (doPrune sampleCollaborators opts'
            (planPrune insertionSort opts' sampleRepo usedBlobs).1.1).1.
Proof.
  apply (runPrune_changes_after_plan insertionSort sampleParseNumber sampleParseSizeStr
           sampleOutOfRange sampleCollaborators sampleOpts sampleGlobalOptions sampleRepo).
  - replace (runPrune insertionSort sampleParseNumber sampleParseSizeStr sampleOutOfRange
               sampleCollaborators sampleOpts sampleGlobalOptions sampleRepo).1
      with ([OpenRepository; LockRepoExclusive; DisableAutoIndexUpdate; LoadIndex;
             GetUsedBlobs ∅; DeleteFiles {[9%N]} PackFile; Repack {[1%N; 2%N]} sampleUsed;
             Save ({[4%N]} ∪ ({[3%N]} ∪ {[1%N; 2%N]})) [];
             DeleteFilesChecked {[7%N; 8%N]} IndexFile;
             DeleteFiles ({[3%N]} ∪ {[1%N; 2%N]}) PackFile; UnlockRepo])
      by (vm_compute; reflexivity).
    do 5 apply list_elem_of_further. apply list_elem_of_here.
  - reflexivity.
Defined.

(** X11.  A run of [runPrune] that locks the repository unlocks it with
    its last call, whether the lock was obtained or not and however the run
    ends; nothing but opening the repository precedes the locking, and
    every change of the repository is made in between, with the lock
    obtained.  A run that does not lock has made no call or has only tried
    to open the repository. *)
Theorem runPrune_lock_discipline
    (sortSlice : forall A : Type, (A -> A -> bool) -> list A -> list A)
    (parseNumber : string -> spec_float * option error)
    (parseSizeStr : string -> Z * option error)
    (uint64OutOfRange : spec_float -> Z)
    (w : Collaborators) (opts : PruneOptions) (gopts : GlobalOptions) (repo : Repository) :
  let calls :=
    (runPrune sortSlice parseNumber parseSizeStr uint64OutOfRange w opts gopts repo).1 in
  (calls = [] \/ calls = [OpenRepository]
   \/ exists middle,
        calls = OpenRepository :: LockRepoExclusive :: middle ++ [UnlockRepo]
        /\ (forall c, c ∈ middle ->
              c <> OpenRepository /\ c <> LockRepoExclusive /\ c <> UnlockRepo)
        /\ (lockRepoExclusiveErr w <> None -> middle = []))
  /\ (forall c, c ∈ calls -> mutates c = true -> lockRepoExclusiveErr w = None).
Proof.
  unfold runPrune.
  destruct (verifyPruneOptions parseNumber parseSizeStr uint64OutOfRange opts)
    as [opts' [e|]] eqn:Hv.
  { cbn [fst]. split; [by left|]. intros c H. by apply elem_of_nil in H. }
  destruct (openRepositoryErr w) as [e|] eqn:Ho.
  { cbn [fst]. split; [by right; left|].
    intros c H Hm. apply list_elem_of_singleton in H as ->. discriminate Hm. }
  destruct (lockRepoExclusiveErr w) as [e|] eqn:Hl.
  { cbn [fst]. split.
    - right; right. exists []. split; [done|]. split; [|done].
      intros c H. by apply elem_of_nil in H.
    - intros c H Hm. repeat (apply elem_of_cons in H as [->|H]; [discriminate Hm|]).
      by apply elem_of_nil in H. }
  destruct (runPruneWithRepo sortSlice w opts' gopts repo ∅) as [cs err] eqn:Hrun.
  cbn [fst app]. split; [|done].
  right; right. exists cs. split; [done|]. split; [|done].
  intros c H.
  assert (Hc : c ∈ (runPruneWithRepo sortSlice w opts' gopts repo ∅).1) by (by rewrite Hrun).
  by apply runPruneWithRepo_calls in Hc as [Hc _].
Qed.

(** ** The counters of packs *)

Lemma countPack_seen (p : packInfo.t) (s : pruneStats) :
  wrap64 (packsSeen (countPack p s)) = wrap64 (packsSeen s + 1)
  /\ packStats.Keep (Packs (countPack p s)) = packStats.Keep (Packs s).
Proof.
  destruct s as [m bs ss [u n pu ur t k r rm rt]].
  unfold countPack, packsSeen. repeat case_match; simpl; (split; [wrap64_ring|done]).
Qed.

Lemma keep_packs (p : packInfo.t) (v : planner) :
  packsSeen (stats (keep p v)) = packsSeen (stats v)
  /\ packStats.Keep (Packs (stats (keep p v))) = add64 (packStats.Keep (Packs (stats v))) 1.
Proof. unfold keep. destruct (0 <? packInfo.duplicateBlobs p); done. Qed.

Lemma listedKnown_invariant (opts : PruneOptions) (v : planner) (id : ID) (p : packInfo.t) :
  listingInvariant v -> indexPack v !! id = Some p ->
  listingInvariant (listedKnown opts v id p).
Proof.
  intros (Hcount&Hnd&Hgone) Hl.
  assert (Hfresh : (id ∉ v_removePacks v) /\ (id ∉ pwID <$> repackCandidates v)).
  { split; intros H; [specialize (Hgone id (or_introl H))|specialize (Hgone id (or_intror H))];
      congruence. }
  destruct Hfresh as [Hfr Hfc].
  destruct (countPack_seen p (stats v)) as [Hseen Hkeep].
  unfold listedKnown, listingInvariant, packsDecided.
  set (w := onStats (countPack p) v).
  assert (Hw : stats w = countPack p (stats v) /\ v_removePacks w = v_removePacks v
               /\ repackCandidates w = repackCandidates v /\ indexPack w = indexPack v)
    by done.
  destruct Hw as (Hws&Hwr&Hwc&Hwi).
  unfold decidePack.
  destruct (unneeded p).
  - cbn [stats indexPack v_removePacks repackCandidates set_indexPack onStats set_removePacks].
    rewrite Hws, Hwr, Hwc, Hwi.
    replace (packsSeen (addRemove p (countPack p (stats v)))) with (packsSeen (countPack p (stats v)))
      by (by destruct (countPack p (stats v)) as [? [] [] []]).
    replace (packStats.Keep (Packs (addRemove p (countPack p (stats v)))))
      with (packStats.Keep (Packs (countPack p (stats v))))
      by (by destruct (countPack p (stats v)) as [? [] [] []]).
    rewrite Hkeep. split; [|split; [done|]].
    + rewrite size_union by set_solver. rewrite size_singleton.
      transitivity (wrap64 (wrap64 (packsSeen (stats v)) + 1)); [rewrite Hseen; wrap64_ring|].
      rewrite Hcount. unfold packsDecided. wrap64_ring.
    + intros i Hi. destruct (decide (i = id)) as [->|Hne]; [apply lookup_delete_eq|].
      rewrite lookup_delete_ne by done. apply Hgone. set_solver.
  - assert (Hkept : listingInvariant (set_indexPack (delete id (indexPack (keep p w))) (keep p w))).
    { destruct (keep_fields p w) as (Hi&_&Hr&_&Hc&_).
      destruct (keep_packs p w) as (Hs&Hk).
      unfold listingInvariant, packsDecided.
      cbn [stats indexPack v_removePacks repackCandidates set_indexPack].
      rewrite Hi, Hr, Hc, Hs, Hk, Hws, Hwr, Hwc, Hwi, Hkeep.
      split; [|split; [done|]].
      - transitivity (wrap64 (wrap64 (packsSeen (stats v)) + 1)); [rewrite Hseen; wrap64_ring|].
        rewrite Hcount. unfold packsDecided. wrap64_ring.
      - intros i Hin. destruct (decide (i = id)) as [->|Hne]; [apply lookup_delete_eq|].
        rewrite lookup_delete_ne by done. by apply Hgone. }
    destruct (RepackCachableOnly opts && bool_decide (packInfo.tpe p = DataBlob)); [exact Hkept|].
    destruct ((packInfo.unusedBlobs p =? 0) && (packInfo.duplicateBlobs p =? 0)
              && negb (bool_decide (packInfo.tpe p = InvalidBlob))); [exact Hkept|].
    cbn [stats indexPack v_removePacks repackCandidates set_indexPack set_repackCandidates].
    rewrite Hws, Hwr, Hwc, Hwi, Hkeep. rewrite fmap_app, length_app. cbn [fmap list_fmap length pwID].
    split; [|split].
    + transitivity (wrap64 (wrap64 (packsSeen (stats v)) + 1)); [rewrite Hseen; wrap64_ring|].
      rewrite Hcount. unfold packsDecided. wrap64_ring.
    + apply NoDup_app. split; [done|]. split; [|apply NoDup_singleton].
      intros i Hi Hin. apply list_elem_of_singleton in Hin as ->. done.
    + intros i Hin. destruct (decide (i = id)) as [->|Hne]; [apply lookup_delete_eq|].
      rewrite lookup_delete_ne by done. apply Hgone.
      destruct Hin as [Hin|Hin]; [by left|right].
      apply elem_of_app in Hin as [Hin|Hin]; [done|].
      by apply list_elem_of_singleton in Hin.
Qed.

Lemma listPacks_invariant (opts : PruneOptions) (files : list (ID * Z)) : forall v,
  listingInvariant v -> (listPacks opts v files).2 = None ->
  listingInvariant (listPacks opts v files).1.
Proof.
  induction files as [|[i sz] files IH]; intros v Hinv; cbn [listPacks]; [done|].
  destruct (indexPack v !! i) as [p|] eqn:Hl.
  - rewrite (listPack_known _ _ _ _ _ Hl). destruct (sizeMismatch p sz); [done|].
    apply IH. by apply listedKnown_invariant.
  - rewrite (listPack_unknown _ _ _ _ Hl). apply IH.
    destruct Hinv as (Hc&Hnd&Hg). unfold listingInvariant, listedUnknown, packsDecided.
    cbn [stats indexPack v_removePacks repackCandidates onStats set_removePacksFirst].
    split; [|done].
    replace (packsSeen (onSize _ (stats v))) with (packsSeen (stats v))
      by (by destruct (stats v) as [? [] [] []]).
    replace (packStats.Keep (Packs (onSize _ (stats v)))) with (packStats.Keep (Packs (stats v)))
      by (by destruct (stats v) as [? [] [] []]).
    exact Hc.
Qed.

Lemma missingPacksIn_packs (entries : list (ID * packInfo.t)) : forall v,
  Packs (stats (missingPacksIn entries v)) = Packs (stats v).
Proof.
  unfold missingPacksIn.
  induction entries as [|e entries IH]; intros v; cbn [foldl]; [done|].
  rewrite IH. unfold forgetMissing. destruct (unneeded e.2); [|done].
  cbn [stats set_indexPack onStats set_ignorePacks]. by destruct (stats v) as [? [] [] []].
Qed.

Lemma repack_packs (id : ID) (p : packInfo.t) (v : planner) :
  Packs (stats (repack id p v)) = Packs (stats v).
Proof. unfold repack. cbn [stats onStats set_repackPacks]. by destruct (stats v) as [? [] [] []]. Qed.

(** The selection keeps or repacks every candidate. *)
Lemma selectPacks_packs (opts : PruneOptions) (m : Z) (cs : list packInfoWithID) : forall v,
  NoDup (pwID <$> cs) -> (forall c, c ∈ cs -> pwID c ∉ v_repackPacks v) ->
  wrap64 (packStats.Keep (Packs (stats (selectPacks opts m v cs)))
          + Z.of_nat (size (v_repackPacks (selectPacks opts m v cs))))
  = wrap64 (packStats.Keep (Packs (stats v)) + Z.of_nat (size (v_repackPacks v))
            + Z.of_nat (length cs))
  /\ packsSeen (stats (selectPacks opts m v cs)) = packsSeen (stats v).
Proof.
  unfold selectPacks.
  induction cs as [|c cs IH]; intros v Hnd Hfresh; cbn [foldl].
  - cbn [length]. split; [wrap64_ring|done].
  - rewrite fmap_cons in Hnd. apply NoDup_cons in Hnd as [Hc Hnd].
    assert (Hcfresh : pwID c ∉ v_repackPacks v) by apply Hfresh, list_elem_of_here.
    destruct (selectPack_cases opts m v c) as [E|E]; rewrite E.
    + destruct (keep_fields (pwInfo c) v) as (_&_&_&Hr&_).
      destruct (keep_packs (pwInfo c) v) as (Hs&Hk).
      destruct (IH (keep (pwInfo c) v) Hnd) as [-> ->].
      * intros c' Hc'. rewrite Hr. apply Hfresh. by apply list_elem_of_further.
      * rewrite Hr, Hk, Hs. cbn [length]. split; [wrap64_ring|done].
    + destruct (IH (repack (pwID c) (pwInfo c) v) Hnd) as [-> ->].
      * intros c' Hc'. cbn [v_repackPacks repack onStats set_repackPacks].
        intros Hin. apply elem_of_union in Hin as [Hin|Hin].
        -- apply elem_of_singleton in Hin. apply Hc. rewrite <- Hin.
           apply list_elem_of_fmap. by exists c'.
        -- revert Hin. apply Hfresh. by apply list_elem_of_further.
      * unfold packsSeen. rewrite !repack_packs.
        cbn [v_repackPacks repack onStats set_repackPacks].
        rewrite size_union by set_solver. rewrite size_singleton.
        cbn [length]. split; [wrap64_ring|done].
Qed.

Lemma totals_packs (v : planner) (s : pruneStats) :
  Packs (totals v s)
  = packStats.mk (packStats.Used (Packs s)) (packStats.Unused (Packs s))
      (packStats.PartlyUsed (Packs s)) (len (v_removePacksFirst v))
      (add64 (add64 (add64 (packStats.Used (Packs s)) (packStats.PartlyUsed (Packs s)))
                    (packStats.Unused (Packs s))) (len (v_removePacksFirst v)))
      (packStats.Keep (Packs s)) (len (v_repackPacks v)) (len (v_removePacks v))
      (add64 (len (v_removePacksFirst v)) (len (v_removePacks v))).
Proof. destruct s as [m [] [] []]. reflexivity. Qed.

Lemma creditDuplicates_packs (v : planner) : Packs (creditDuplicates v) = Packs (stats v).
Proof.
  unfold creditDuplicates. destruct (repackAllPacksWithDuplicates v); [|done].
  by destruct (stats v) as [m [] [] []].
Qed.

(** X12.  The counters of packs of a run of [planPrune] that succeeds
    close (in uint arithmetic): every pack that the statistics count as
    used, partly used or unused is kept, repacked or removed,
    [Packs.Keep + Packs.Repack + Packs.Remove
     = Packs.Used + Packs.PartlyUsed + Packs.Unused];
    [Packs.Repack], [Packs.Remove] and [Packs.Unref] are the sizes of
    [plan.repackPacks], [plan.removePacks] and [plan.removePacksFirst];
    [Packs.Total] adds the unreferenced packs to the packs counted and
    [Packs.RemoveTotal = Packs.Unref + Packs.Remove].  ([sort.Slice]
    rearranges the candidates.) *)
Theorem planPrune_pack_counts
    (sortSlice : forall A : Type, (A -> A -> bool) -> list A -> list A)
    (opts : PruneOptions) (repo : Repository) (usedBlobs : gset BlobHandle) :
  (forall l : list packInfoWithID, sortSlice _ lessCandidate l ≡ₚ l) ->
  (planPrune sortSlice opts repo usedBlobs).2 = None ->
  let plan := (planPrune sortSlice opts repo usedBlobs).1.1 in
  let packs := Packs (planPrune sortSlice opts repo usedBlobs).1.2 in
  add64 (add64 (packStats.Keep packs) (packStats.Repack packs)) (packStats.Remove packs)
  = add64 (add64 (packStats.Used packs) (packStats.PartlyUsed packs)) (packStats.Unused packs)
  /\ packStats.Repack packs = len (repackPacks plan)
  /\ packStats.Remove packs = len (removePacks plan)
  /\ packStats.Unref packs = len (removePacksFirst plan)
  /\ packStats.Total packs
     = add64 (add64 (add64 (packStats.Used packs) (packStats.PartlyUsed packs))
                    (packStats.Unused packs)) (packStats.Unref packs)
  /\ packStats.RemoveTotal packs = add64 (packStats.Unref packs) (packStats.Remove packs).
Proof.
  intros Hsort Hok plan packs.
  destruct (planPrune_plan sortSlice opts repo usedBlobs Hok) as (_&Hf&Hrm&_&Hrp&Hst).
  apply planPrune_succeeds in Hok as (Hz&Hr&_).
  set (r := reconcile opts repo usedBlobs) in *.
  set (v0 := missingPacks r.1) in *.
  (* the listing *)
  assert (Hinv : listingInvariant r.1).
  { unfold r, reconcile in Hr |- *. apply listPacks_invariant; [|exact Hr].
    unfold listingInvariant, packsDecided, packsSeen. cbn [stats startPlanner indexPack
      v_removePacks repackCandidates].
    pose proof (classify_stats (IndexEach repo) (mkClassified usedBlobs ∅ ∅ zeroStats)) as Hc.
    fold (classifyBlobs usedBlobs (IndexEach repo)) in Hc.
    rewrite Hc by reflexivity. cbn. split; [done|]. split; [apply NoDup_nil_2|].
    intros id [H|H]; [by apply elem_of_empty in H|by apply elem_of_nil in H]. }
  destruct Hinv as (Hcount&Hnd&_).
  destruct (missingPacksIn_fields (map_to_list (indexPack r.1)) r.1) as (Hf0&Hrm0&Hrp0&Hc0&_).
  fold (missingPacks r.1) in Hf0, Hrm0, Hrp0, Hc0. fold v0 in Hf0, Hrm0, Hrp0, Hc0.
  assert (Hp0 : Packs (stats v0) = Packs (stats r.1)) by apply missingPacksIn_packs.
  assert (Hempty : v_repackPacks r.1 = ∅).
  { unfold r, reconcile.
    match goal with |- context [listPacks ?o ?w ?fs] =>
      destruct (listPacks_untouched o fs w) as [-> _] end. done. }
  (* the selection *)
  set (sorted := sortSlice _ lessCandidate (repackCandidates v0)) in *.
  set (m := maxUnusedBytes opts (sizeStats.Used (Size (stats v0)))) in *.
  set (v1 := set_repackCandidates sorted v0).
  set (w := selectPacks opts m v1 sorted).
  assert (Hfinal : selectAndTotal sortSlice opts v0
                   = onStats (fun _ => totals w (creditDuplicates w)) w) by reflexivity.
  assert (Hsel : wrap64 (packStats.Keep (Packs (stats w)) + Z.of_nat (size (v_repackPacks w)))
                 = wrap64 (packStats.Keep (Packs (stats r.1)) + Z.of_nat (length (repackCandidates r.1)))
                 /\ packsSeen (stats w) = packsSeen (stats r.1)).
  { destruct (selectPacks_packs opts m sorted v1) as [E1 E2].
    - unfold sorted. rewrite Hsort, Hc0. exact Hnd.
    - intros c _. cbn [v_repackPacks v1 set_repackCandidates]. rewrite Hrp0, Hempty.
      apply not_elem_of_empty.
    - fold w in E1, E2. rewrite E1, E2.
      cbn [stats v_repackPacks v1 set_repackCandidates].
      unfold packsSeen. rewrite Hp0, Hrp0, Hempty, size_empty.
      assert (Hlen : length sorted = length (repackCandidates r.1)).
      { unfold sorted. rewrite <- Hc0. apply Permutation_length, Hsort. }
      rewrite Hlen. split; [wrap64_ring|done]. }
  destruct Hsel as [Hkeep Hseen].
  destruct (selectPacks_fields opts m sorted v1) as (_&Hwf&Hwr&_). fold w in Hwf, Hwr.
  cbn [v_removePacksFirst v_removePacks v1 set_repackCandidates] in Hwf, Hwr.
  assert (Hpacks : packs = Packs (totals w (creditDuplicates w))).
  { unfold packs. rewrite Hst. fold v0. by rewrite Hfinal. }
  rewrite totals_packs, creditDuplicates_packs in Hpacks.
  assert (Hrpw : repackPacks plan = v_repackPacks w).
  { unfold plan. rewrite Hrp. fold v0. by rewrite Hfinal. }
  rewrite Hpacks. cbn [packStats.Keep packStats.Repack packStats.Remove packStats.Used
    packStats.PartlyUsed packStats.Unused packStats.Unref packStats.Total packStats.RemoveTotal].
  unfold plan. rewrite Hf, Hrm. fold plan. rewrite Hrpw, Hwf, Hwr, Hf0, Hrm0.
  split; [|done].
  unfold len.
  transitivity (wrap64 (wrap64 (packStats.Keep (Packs (stats w))
                                + Z.of_nat (size (v_repackPacks w)))
                        + Z.of_nat (size (v_removePacks r.1)))); [wrap64_ring|].
  rewrite Hkeep.
  transitivity (wrap64 (packsDecided r.1)); [unfold packsDecided; wrap64_ring|].
  rewrite <- Hcount, <- Hseen. unfold packsSeen. wrap64_ring.
Qed.

(** The statistics of the sample repository, for X12: two packs are
    repacked and one is removed; one more is unreferenced. *)
Lemma planPrune_pack_counts_witness :
  let packs := Packs (planPrune insertionSort sampleOpts sampleRepo sampleUsed).1.2 in
  add64 (add64 (packStats.Keep packs) (packStats.Repack packs)) (packStats.Remove packs)
  = add64 (add64 (packStats.Used packs) (packStats.PartlyUsed packs)) (packStats.Unused packs)
  /\ packStats.Keep packs = 0 /\ packStats.Repack packs = 2 /\ packStats.Remove packs = 1
  /\ packStats.Total packs = 4.
Proof.
  intros packs.
  destruct (planPrune_pack_counts insertionSort sampleOpts sampleRepo sampleUsed) as (H&_).
  - intros l. apply insertionSort_permutation.
  - vm_compute. reflexivity.
  - split; [exact H|]. vm_compute. repeat split; reflexivity.
Defined.

(** ** Repacking without limits *)

Section AllCandidates.

Variable opts : PruneOptions.

Lemma decidePack_candidates_grow id p v c :
  c ∈ repackCandidates v -> c ∈ repackCandidates (decidePack opts id p v).
Proof.
  unfold decidePack. destruct (keep_fields p v) as (_&_&_&_&Hc&_).
  repeat case_match; cbn [repackCandidates onStats set_removePacks set_repackCandidates];
    rewrite ?Hc; try done.
  intros Hin. apply elem_of_app. by left.
Qed.

Lemma listPacks_candidates_grow files : forall v c,
  c ∈ repackCandidates v -> c ∈ repackCandidates (listPacks opts v files).1.
Proof.
  induction files as [|[i sz] files IH]; intros v c Hc; cbn [listPacks]; [done|].
  destruct (indexPack v !! i) as [p|] eqn:Hl.
  - rewrite (listPack_known _ _ _ _ _ Hl). destruct (sizeMismatch p sz); [done|].
    apply IH. unfold listedKnown. cbn [repackCandidates set_indexPack].
    by apply decidePack_candidates_grow.
  - rewrite (listPack_unknown _ _ _ _ Hl). by apply IH.
Qed.

(** Every listed pack of the index with a used or a duplicate blob that
    the decision switch does not keep becomes a candidate. *)
Lemma listPacks_candidates_complete files : forall v id p,
  (listPacks opts v files).2 = None ->
  (id ∈ files.*1) -> indexPack v !! id = Some p ->
  unneeded p = false -> keptAsIs opts p = false ->
  mkPackInfoWithID id p ∈ repackCandidates (listPacks opts v files).1.
Proof.
  induction files as [|[i sz] files IH]; intros v id p Hok Hin Hp Hun Hk.
  - by apply elem_of_nil in Hin.
  - cbn [listPacks] in Hok |- *. rewrite fmap_cons in Hin. cbn [fst] in Hin.
    destruct (decide (i = id)) as [->|Hne].
    + rewrite (listPack_known _ _ _ _ _ Hp) in Hok |- *.
      destruct (sizeMismatch p sz); [done|].
      apply listPacks_candidates_grow.
      unfold listedKnown. cbn [repackCandidates set_indexPack].
      unfold decidePack. rewrite Hun. unfold keptAsIs in Hk.
      apply orb_false_iff in Hk as [-> ->].
      cbn [repackCandidates set_repackCandidates]. apply elem_of_app. right.
      apply list_elem_of_here.
    + apply elem_of_cons in Hin as [Hin|Hin]; [congruence|].
      destruct (indexPack v !! i) as [q|] eqn:Hl.
      * rewrite (listPack_known _ _ _ _ _ Hl) in Hok |- *.
        destruct (sizeMismatch q sz); [done|].
        apply IH; try done.
        destruct (listedKnown_fields opts v i q) as (Hi&_). rewrite Hi.
        by rewrite lookup_delete_ne.
      * rewrite (listPack_unknown _ _ _ _ Hl) in Hok |- *. by apply IH.
Qed.

(** Without a limit on the size to repack and with no unused bytes
    tolerated, the selection repacks every candidate. *)
Lemma selectPacks_all (cs : list packInfoWithID) : forall v,
  MaxRepackBytes opts = 0 ->
  v_repackPacks (selectPacks opts 0 v cs) = v_repackPacks v ∪ list_to_set (pwID <$> cs).
Proof.
  unfold selectPacks.
  induction cs as [|c cs IH]; intros v Hcap; cbn [foldl].
  - rewrite fmap_nil. cbn. set_solver.
  - rewrite (IH _ Hcap).
    assert (E : selectPack opts 0 v c = repack (pwID c) (pwInfo c) v).
    { unfold selectPack, reachedRepackSize, reachedUnusedSizeAfter. rewrite Hcap. cbn [Z.ltb Z.compare].
      destruct (_ || _); [done|].
      match goal with |- context [?x <? 0] =>
        assert (Hx : (x <? 0) = false)
          by (apply Z.ltb_ge; unfold sub64; apply wrap64_range); rewrite Hx end.
      done. }
    rewrite E. cbn [v_repackPacks repack onStats set_repackPacks].
    rewrite fmap_cons. cbn [list_to_set]. set_solver.
Qed.

End AllCandidates.

(** X13.  When no unused bytes are tolerated ([maxUnusedBytes] is zero, as
    after [--max-unused 0]) and [--max-repack-size] is not set, a [planPrune]
    that succeeds repacks exactly the listed packs of the index that have a
    used or a duplicate blob and that the decision switch does not keep as
    they are.  ([sort.Slice] rearranges the candidates.) *)
Theorem planPrune_repacks_all
    (sortSlice : forall A : Type, (A -> A -> bool) -> list A -> list A)
    (opts : PruneOptions) (repo : Repository) (usedBlobs : gset BlobHandle) :
  (forall l : list packInfoWithID, sortSlice _ lessCandidate l ≡ₚ l) ->
  MaxRepackBytes opts = 0 ->
  (forall used, maxUnusedBytes opts used = 0) ->
  (planPrune sortSlice opts repo usedBlobs).2 = None ->
  let c := classifyBlobs usedBlobs (IndexEach repo) in
  let index := buildIndexPack (c_keepBlobs c) (c_duplicateBlobs c) repo in
  forall id,
    id ∈ repackPacks (planPrune sortSlice opts repo usedBlobs).1.1
    <-> (id ∈ (ListPackFiles repo).*1)
        /\ exists p, index !! id = Some p
             /\ ~ (packInfo.usedBlobs p = 0 /\ packInfo.duplicateBlobs p = 0)
             /\ keptAsIs opts p = false.
Proof.
  intros Hsort Hcap Hzero Hok c index id.
  assert (Hun : forall p, unneeded p = false
                  <-> ~ (packInfo.usedBlobs p = 0 /\ packInfo.duplicateBlobs p = 0)).
  { intros p. unfold unneeded. rewrite <- not_true_iff_false, andb_true_iff, !Z.eqb_eq. done. }
  split.
  - intros Hid.
    destruct (planPrune_repackPacks_candidates sortSlice opts repo usedBlobs id Hsort Hok Hid)
      as (cand&Hc&<-).
    unfold reconcile in Hc. fold c in Hc.
    apply listPacks_candidates_kind in Hc as [Hc|(Hin&Hl&Hu&Hk)];
      [by apply elem_of_nil in Hc|].
    cbn [indexPack startPlanner] in Hl. split; [exact Hin|].
    exists (pwInfo cand). split; [exact Hl|]. split; [by apply Hun|exact Hk].
  - intros (Hin&p&Hp&Hneeded&Hk).
    destruct (planPrune_plan sortSlice opts repo usedBlobs Hok) as (_&_&_&_&Hrp&_).
    apply planPrune_succeeds in Hok as (_&Hr&_).
    rewrite Hrp. unfold selectAndTotal. cbv zeta. cbn [v_repackPacks onStats].
    rewrite Hzero, (selectPacks_all opts _ _ Hcap).
    apply elem_of_union. right. apply elem_of_list_to_set.
    cbn [repackCandidates set_repackCandidates]. rewrite Hsort.
    unfold missingPacks.
    destruct (missingPacksIn_fields (map_to_list (indexPack (reconcile opts repo usedBlobs).1))
                (reconcile opts repo usedBlobs).1) as (_&_&_&->&_).
    apply list_elem_of_fmap. exists (mkPackInfoWithID id p). split; [done|].
    unfold reconcile in Hr |- *. fold c in Hr |- *.
    apply listPacks_candidates_complete; try done. by apply Hun.
Qed.

(** The two packs of [tiedRepo] hold unused blobs, for X13: with
    [--max-unused 0] pack 1 is repacked. *)
Lemma planPrune_repacks_all_witness :
  1%N ∈ repackPacks (planPrune insertionSort zeroOpts
                       (tiedRepo [(1%N, 25); (2%N, 25)]) sampleUsed).1.1.
Proof.
  apply (planPrune_repacks_all insertionSort zeroOpts (tiedRepo [(1%N, 25); (2%N, 25)])
           sampleUsed).
  - intros l. apply insertionSort_permutation.
  - reflexivity.
  - reflexivity.
  - vm_compute. reflexivity.
  - split; [cbn; set_solver|].
    exists (packInfo.mk 1 1 0 15 10 DataBlob).
    split; [vm_compute; reflexivity|]. split; [cbn; lia|reflexivity].
Defined.

(** ** The totals of the statistics *)

(** The later phases leave the counters of the first pass alone. *)
Lemma listPack_classification (opts : PruneOptions) (v : planner) (f : ID * Z) :
  classification (stats (listPack opts v f).1) = classification (stats v).
Proof.
  unfold listPack. destruct (indexPack v !! f.1) as [p|].
  - destruct (sizeMismatch p f.2); [done|].
    unfold decidePack, countPack, keep, addRemove.
    destruct (stats v) as [m [] [] []] eqn:Hs.
    repeat case_match; cbn; rewrite ?Hs; reflexivity.
  - cbn. by destruct (stats v) as [m [] [] []].
Qed.

Lemma listPacks_classification (opts : PruneOptions) (files : list (ID * Z)) : forall v,
  classification (stats (listPacks opts v files).1) = classification (stats v).
Proof.
  induction files as [|f files IH]; intros v; cbn [listPacks]; [done|].
  pose proof (listPack_classification opts v f) as H.
  destruct (listPack opts v f) as [v' [e|]]; [done|]. by rewrite IH.
Qed.

Lemma missingPacksIn_classification (entries : list (ID * packInfo.t)) : forall v,
  classification (stats (missingPacksIn entries v)) = classification (stats v).
Proof.
  unfold missingPacksIn.
  induction entries as [|e entries IH]; intros v; cbn [foldl]; [done|].
  rewrite IH. unfold forgetMissing. destruct (unneeded e.2); [|done].
  cbn [stats set_indexPack onStats set_ignorePacks]. by destruct (stats v) as [? [] [] []].
Qed.

Lemma selectPacks_classification (opts : PruneOptions) (m : Z) (cs : list packInfoWithID) :
  forall v, classification (stats (selectPacks opts m v cs)) = classification (stats v).
Proof.
  unfold selectPacks.
  induction cs as [|c cs IH]; intros v; cbn [foldl]; [done|].
  rewrite IH. destruct (selectPack_cases opts m v c) as [-> | ->].
  - unfold classification. destruct (keep_stats (pwInfo c) v) as (->&->&_). done.
  - unfold repack. cbn [stats onStats set_repackPacks]. by destruct (stats v) as [? [] [] []].
Qed.

Lemma creditDuplicates_classification (v : planner) :
  classification (creditDuplicates v) = classification (stats v)
  /\ sizeStats.Unref (Size (creditDuplicates v)) = sizeStats.Unref (Size (stats v)).
Proof.
  unfold creditDuplicates. destruct (repackAllPacksWithDuplicates v); [|done].
  by destruct (stats v) as [m [] [] []].
Qed.

Lemma totals_totals (v : planner) (s : pruneStats) :
  blobStats.Total (Blobs (totals v s))
  = add64 (add64 (blobStats.Used (Blobs s)) (blobStats.Unused (Blobs s)))
          (blobStats.Duplicate (Blobs s))
  /\ sizeStats.Total (Size (totals v s))
     = add64 (add64 (add64 (sizeStats.Used (Size s)) (sizeStats.Duplicate (Size s)))
                    (sizeStats.Unused (Size s))) (sizeStats.Unref (Size s))
  /\ blobStats.Used (Blobs (totals v s)) = blobStats.Used (Blobs s)
  /\ sizeStats.Unref (Size (totals v s)) = sizeStats.Unref (Size s).
Proof. destruct s as [m [] [] []]. repeat split; reflexivity. Qed.

(** What the first pass counts. *)
Lemma classify_counts (blobs : list PackedBlob) : forall s,
  c_keepBlobs s ## c_usedBlobs s ->
  let s' := foldl classifyBlob s blobs in
  let k := classification (c_stats s) in
  let k' := classification (c_stats s') in
  c_keepBlobs s' ## c_usedBlobs s'
  /\ wrap64 (k'.1.1.1 + k'.1.1.2 + k'.1.2)
     = wrap64 (k.1.1.1 + k.1.1.2 + k.1.2 + Z.of_nat (length blobs))
  /\ wrap64 (k'.2.1.1 + k'.2.1.2 + k'.2.2)
     = wrap64 (k.2.1.1 + k.2.1.2 + k.2.2 + sumLengths blobs)
  /\ wrap64 (k'.1.1.1 - Z.of_nat (size (c_keepBlobs s')))
     = wrap64 (k.1.1.1 - Z.of_nat (size (c_keepBlobs s))).
Proof.
  induction blobs as [|b blobs IH]; intros s Hdis; cbv zeta; cbn [foldl].
  - cbn [length sumLengths foldr]. split; [done|]. repeat split; wrap64_ring.
  - assert (Hstep : c_keepBlobs (classifyBlob s b) ## c_usedBlobs (classifyBlob s b)
        /\ (let k := classification (c_stats s) in
            let k' := classification (c_stats (classifyBlob s b)) in
            wrap64 (k'.1.1.1 + k'.1.1.2 + k'.1.2) = wrap64 (k.1.1.1 + k.1.1.2 + k.1.2 + 1)
            /\ wrap64 (k'.2.1.1 + k'.2.1.2 + k'.2.2)
               = wrap64 (k.2.1.1 + k.2.1.2 + k.2.2 + Length b)
            /\ wrap64 (k'.1.1.1 - Z.of_nat (size (c_keepBlobs (classifyBlob s b))))
               = wrap64 (k.1.1.1 - Z.of_nat (size (c_keepBlobs s))))).
    { unfold classifyBlob. destruct (c_stats s) as [m [] [] []] eqn:Hs.
      repeat case_decide; cbn [c_keepBlobs c_usedBlobs c_stats]; cbn -[add64 wrap64].
      - split; [set_solver|]. rewrite size_union by set_solver. rewrite size_singleton.
        repeat split; wrap64_ring.
      - split; [done|]. repeat split; wrap64_ring.
      - split; [done|]. repeat split; wrap64_ring. }
    destruct Hstep as (Hd&H1&H2&H3). cbv zeta in H1, H2, H3.
    destruct (IH (classifyBlob s b) Hd) as (Hd'&E1&E2&E3). cbv zeta in E1, E2, E3.
    split; [exact Hd'|]. rewrite E1, E2, E3. cbn [length sumLengths foldr].
    fold (sumLengths blobs).
    split; [|split; [|exact H3]].
    + set (x := (classification (c_stats (classifyBlob s b))).1.1.1
               + (classification (c_stats (classifyBlob s b))).1.1.2
               + (classification (c_stats (classifyBlob s b))).1.2) in *.
      transitivity (wrap64 (wrap64 x + Z.of_nat (length blobs))); [wrap64_ring|].
      rewrite H1. wrap64_ring.
    + set (x := (classification (c_stats (classifyBlob s b))).2.1.1
               + (classification (c_stats (classifyBlob s b))).2.1.2
               + (classification (c_stats (classifyBlob s b))).2.2) in *.
      transitivity (wrap64 (wrap64 x + sumLengths blobs)); [wrap64_ring|].
      rewrite H2. wrap64_ring.
Qed.

Lemma classify_used_range (blobs : list PackedBlob) : forall s,
  wrap64 (blobStats.Used (Blobs (c_stats s))) = blobStats.Used (Blobs (c_stats s)) ->
  wrap64 (blobStats.Used (Blobs (c_stats (foldl classifyBlob s blobs))))
  = blobStats.Used (Blobs (c_stats (foldl classifyBlob s blobs))).
Proof.
  induction blobs as [|b blobs IH]; intros s Hs; cbn [foldl]; [done|].
  apply IH. unfold classifyBlob. destruct (c_stats s) as [m [] [] []] eqn:E.
  repeat case_decide; cbn -[add64 wrap64] in *; try done.
  unfold add64. apply wrap64_idemp.
Qed.

(** After a first pass that finds every used handle, [keepBlobs] is the
    used set and [Blobs.Used] is in the range of its type. *)
Lemma planPrune_keepBlobs_eq (usedBlobs : gset BlobHandle) (blobs : list PackedBlob) :
  size (c_usedBlobs (classifyBlobs usedBlobs blobs)) = 0%nat ->
  c_keepBlobs (classifyBlobs usedBlobs blobs) = usedBlobs
  /\ wrap64 (blobStats.Used (Blobs (c_stats (classifyBlobs usedBlobs blobs))))
     = blobStats.Used (Blobs (c_stats (classifyBlobs usedBlobs blobs))).
Proof.
  intros Hz. split.
  - pose proof (classify_partition blobs (mkClassified usedBlobs ∅ ∅ zeroStats)) as Hp.
    fold (classifyBlobs usedBlobs blobs) in Hp. cbn [c_keepBlobs c_usedBlobs] in Hp.
    apply size_empty_iff in Hz. apply leibniz_equiv in Hz. rewrite Hz in Hp. set_solver.
  - by apply classify_used_range.
Qed.

(** X14.  What the totals of a run of [planPrune] that succeeds mean:
    [Blobs.Total] is the number of blobs of the index and [Blobs.Used] the
    number of handles of the used set (as uint), and [Size.Total] is the
    sum of the lengths of the blobs of the index plus the unreferenced
    bytes (in uint64). *)
Theorem planPrune_totals
    (sortSlice : forall A : Type, (A -> A -> bool) -> list A -> list A)
    (opts : PruneOptions) (repo : Repository) (usedBlobs : gset BlobHandle) :
  (planPrune sortSlice opts repo usedBlobs).2 = None ->
  let st := (planPrune sortSlice opts repo usedBlobs).1.2 in
  blobStats.Total (Blobs st) = wrap64 (Z.of_nat (length (IndexEach repo)))
  /\ blobStats.Used (Blobs st) = wrap64 (Z.of_nat (size usedBlobs))
  /\ sizeStats.Total (Size st)
     = wrap64 (sumLengths (IndexEach repo) + sizeStats.Unref (Size st)).
Proof.
  intros Hok st.
  destruct (planPrune_keepBlobs_eq usedBlobs (IndexEach repo)) as [Hkeep Hrange];
    [by apply planPrune_succeeds in Hok as (Hz&_)|].
  destruct (planPrune_plan sortSlice opts repo usedBlobs Hok) as (_&_&_&_&_&Hst).
  set (c := classifyBlobs usedBlobs (IndexEach repo)) in *.
  unfold st. rewrite Hst. unfold selectAndTotal. cbv zeta. cbn [stats onStats].
  match goal with |- context [totals ?x (creditDuplicates ?x)] => set (w := x) end.
  destruct (totals_totals w (creditDuplicates w)) as (->&->&->&->).
  destruct (creditDuplicates_classification w) as [Hk ->].
  assert (Hclass : classification (creditDuplicates w) = classification (c_stats c)).
  { rewrite Hk. unfold w. rewrite selectPacks_classification. cbn [stats set_repackCandidates].
    unfold missingPacks. rewrite missingPacksIn_classification.
    unfold reconcile. fold c. by rewrite listPacks_classification. }
  unfold classification in Hclass. injection Hclass as -> -> -> -> -> ->.
  destruct (classify_counts (IndexEach repo) (mkClassified usedBlobs ∅ ∅ zeroStats))
    as (_&E1&E2&E3); [cbn; set_solver|].
  fold (classifyBlobs usedBlobs (IndexEach repo)) in E1, E2, E3. fold c in E1, E2, E3.
  cbn -[wrap64 classification c] in E1, E2, E3.
  unfold classification in E1, E2, E3. cbn [fst snd] in E1, E2, E3.
  split; [|split].
  - transitivity (wrap64 (blobStats.Used (Blobs (c_stats c))
                          + blobStats.Duplicate (Blobs (c_stats c))
                          + blobStats.Unused (Blobs (c_stats c)))); [wrap64_ring|].
    rewrite E1. cbn. wrap64_ring.
  - rewrite <- Hrange. rewrite <- Hkeep.
    transitivity (wrap64 (wrap64 (blobStats.Used (Blobs (c_stats c))
                                  - Z.of_nat (size (c_keepBlobs c)))
                          + Z.of_nat (size (c_keepBlobs c)))); [wrap64_ring|].
    rewrite E3. cbn. rewrite size_empty. wrap64_ring.
  - match goal with |- context [sizeStats.Unref ?z] => set (u := sizeStats.Unref z) end.
    transitivity (wrap64 (wrap64 (sizeStats.Used (Size (c_stats c))
                                  + sizeStats.Duplicate (Size (c_stats c))
                                  + sizeStats.Unused (Size (c_stats c))) + u)); [wrap64_ring|].
    rewrite E2. cbn. wrap64_ring.
Qed.

(** The sample repository, for X14: five blobs of 110 bytes in the index,
    two used handles, 100 unreferenced bytes. *)
Lemma planPrune_totals_witness :
  let st := (planPrune insertionSort sampleOpts sampleRepo sampleUsed).1.2 in
  (blobStats.Total (Blobs st) = wrap64 (Z.of_nat (length (IndexEach sampleRepo)))
   /\ blobStats.Used (Blobs st) = wrap64 (Z.of_nat (size sampleUsed))
   /\ sizeStats.Total (Size st)
      = wrap64 (sumLengths (IndexEach sampleRepo) + sizeStats.Unref (Size st)))
  /\ blobStats.Total (Blobs st) = 5 /\ sizeStats.Total (Size st) = 210.
Proof.
  intros st. split.
  - apply (planPrune_totals insertionSort sampleOpts sampleRepo sampleUsed).
    vm_compute. reflexivity.
  - vm_compute. split; reflexivity.
Defined.

(** ** The errors of [verifyPruneOptions] *)

Lemma append_cons (c : ascii) (s t : string) :
  String.append (String c s) t = String c (String.append s t).
Proof. reflexivity. Qed.

Lemma IsSpace_RuneError : IsSpace RuneError = false.
Proof. reflexivity. Qed.

Lemma first_size (s0 : Z) (sz : nat) (lo hi : Z) :
  first s0 = Some (sz, lo, hi) -> sz = 2%nat \/ sz = 3%nat \/ sz = 4%nat.
Proof.
  unfold first. intros H. repeat case_match; simplify_eq; auto.
Qed.

(** A rune has one byte at least. *)
Lemma DecodeRuneInString_size (s : string) :
  s <> EmptyString -> (1 <= (DecodeRuneInString s).2)%nat.
Proof.
  destruct s as [|c0 s]; [done|]. intros _. unfold DecodeRuneInString.
  repeat case_match; cbn [snd]; lia.
Qed.

(** The bytes after a white-space rune do not change how it is read. *)
Lemma DecodeRuneInString_prefix (u w : string) (r : Z) :
  DecodeRuneInString u = (r, String.length u) -> IsSpace r = true ->
  DecodeRuneInString (String.append u w) = (r, String.length u).
Proof.
  intros H Hs.
  assert (Herr : forall n : nat, (RuneError, n) = (r, String.length u) -> False).
  { intros n [= <- _]. rewrite IsSpace_RuneError in Hs. discriminate. }
  destruct u as [|c0 u]; [exfalso; exact (Herr _ H)|].
  revert H. rewrite append_cons. unfold DecodeRuneInString.
  destruct (byte c0 <? RuneSelf).
  { intros [= <- E]. destruct u; [done|discriminate E]. }
  destruct (first (byte c0)) as [[[sz lo] hi]|] eqn:Ef; [|intros H; exfalso; exact (Herr _ H)].
  destruct (first_size _ _ _ _ Ef) as [-> | [-> | ->]];
    destruct u as [|c1 [|c2 [|c3 [|c4 u]]]];
    rewrite ?append_cons; cbn [String.length Nat.ltb Nat.leb];
    try (intros H; exfalso; exact (Herr _ H));
    repeat (match goal with
            | |- context [if ?b then _ else _] => destruct b
            end; try (intros H; exfalso; exact (Herr _ H)));
    try (intros H; exact H); try (intros [= _ E]; discriminate E).
Qed.

Lemma substring_0_all (s : string) : substring 0 (String.length s) s = s.
Proof. induction s as [|c s IH]; [done|]. cbn [String.length substring]. by rewrite IH. Qed.

Lemma substring_nonempty (n : nat) : forall s : string,
  (n < String.length s)%nat -> substring n (String.length s - n) s <> EmptyString.
Proof.
  induction n as [|n IH]; intros [|c s]; cbn [String.length]; intros H; try lia.
  - done.
  - change (substring (S n) (S (String.length s) - S n) (String c s))
      with (substring n (String.length s - n) s).
    apply IH. lia.
Qed.

Lemma findStart_le (fuel : nat) (s : string) (lim : Z) : forall start : Z,
  findStart fuel s lim start <= start.
Proof.
  induction fuel as [|fuel IH]; intros start; cbn [findStart]; [lia|].
  repeat case_match; try lia. specialize (IH (start - 1)). lia.
Qed.

(** The last rune of a string that is not empty has one byte at least and
    no more bytes than the string. *)
Lemma DecodeLastRuneInString_size (u : string) :
  u <> EmptyString ->
  (1 <= (DecodeLastRuneInString u).2 <= String.length u)%nat.
Proof.
  intros Hne. assert (Hl : (0 < String.length u)%nat) by (destruct u; [done|cbn; lia]).
  unfold DecodeLastRuneInString.
  destruct (Nat.eqb_spec (String.length u) 0) as [E|_]; [lia|].
  destruct (_ <? RuneSelf); [cbn [snd]; lia|].
  cbv zeta.
  match goal with |- context [findStart ?f ?s ?l ?x] =>
    pose proof (findStart_le f s l x) as Hf; set (fs := findStart f s l x) in * end.
  set (start := Z.to_nat (Z.max 0 fs)).
  assert (Hs : (start < String.length u)%nat) by (unfold start; lia).
  pose proof (DecodeRuneInString_size _ (substring_nonempty start u Hs)) as Hsz.
  destruct (DecodeRuneInString _) as [r size]. cbn [snd] in Hsz.
  destruct (Nat.eqb_spec (start + size) (String.length u)); cbn [negb snd]; lia.
Qed.

(** A white-space rune that [DecodeLastRuneInString] reads from the whole of
    a string is the rune that [DecodeRuneInString] reads from it. *)
Lemma DecodeLastRuneInString_whole (u : string) (r : Z) :
  DecodeLastRuneInString u = (r, String.length u) -> IsSpace r = true ->
  DecodeRuneInString u = (r, String.length u).
Proof.
  unfold DecodeLastRuneInString.
  destruct (Nat.eqb_spec (String.length u) 0) as [E|_].
  { intros [= <- _]. by rewrite IsSpace_RuneError. }
  destruct (_ <? RuneSelf) eqn:Hb.
  { intros [= <- Hl] _. destruct u as [|c [|c' u]]; try done.
    unfold byteAt in Hb |- *. cbn in Hb |- *. by rewrite Hb. }
  cbv zeta.
  match goal with |- context [Z.to_nat (Z.max 0 ?x)] => set (start := Z.to_nat (Z.max 0 x)) end.
  destruct (DecodeRuneInString _) as [r' size] eqn:Ed.
  destruct (Nat.eqb_spec (start + size) (String.length u)) as [E|E]; cbn [negb].
  - intros [= <- Hsz] Hs. assert (start = 0%nat) as E0 by lia.
    rewrite E0, Nat.sub_0_r, substring_0_all in Ed. by rewrite Ed, Hsz.
  - intros [= <- _]. by rewrite IsSpace_RuneError.
Qed.

(** [strings.TrimLeftFunc] with [unicode.IsSpace]. *)
Lemma trimLeftFrom_blank (s : string) : forall skip : nat,
  trimLeftFrom IsSpace skip s = EmptyString
  <-> forallb IsSpace (runesFrom skip s) = true.
Proof.
  induction s as [|c s IH]; intros skip; [done|].
  cbn [trimLeftFrom runesFrom]. destruct skip as [|skip]; [|apply IH].
  destruct (DecodeRuneInString (String c s)) as [r size].
  cbn [forallb]. destruct (IsSpace r); cbn [andb]; [apply IH|]. split; done.
Qed.

Lemma trimLeftFrom_start (s : string) : forall (skip : nat) (t : string),
  trimLeftFrom IsSpace skip s = t -> t <> EmptyString ->
  IsSpace (DecodeRuneInString t).1 = false.
Proof.
  induction s as [|c s IH]; intros skip t; cbn [trimLeftFrom].
  - by intros <-.
  - destruct skip as [|skip]; [|apply IH].
    destruct (DecodeRuneInString (String c s)) as [r size] eqn:E.
    destruct (IsSpace r) eqn:Er; [apply IH|].
    intros <- _. by rewrite E.
Qed.

(** [lastIndexFunc] finds a rune in a string that starts with a rune that
    is not white space. *)
Lemma lastIndexFrom_found (t : string) :
  IsSpace (DecodeRuneInString t).1 = false ->
  forall fuel i : nat,
    (0 < i <= String.length t)%nat -> (i <= fuel)%nat ->
    lastIndexFrom fuel t IsSpace i <> None.
Proof.
  intros Ht. induction fuel as [|fuel IH]; intros i Hi Hf; [lia|].
  cbn [lastIndexFrom]. destruct (Nat.eqb_spec i 0) as [|_]; [lia|].
  pose proof (length_substring_0 i t ltac:(lia)) as Hl.
  set (u := substring 0 i t) in *.
  assert (Hne : u <> EmptyString) by (destruct u; [cbn in Hl; lia|done]).
  pose proof (DecodeLastRuneInString_size u Hne) as Hsz.
  destruct (DecodeLastRuneInString u) as [r size] eqn:Ed. cbn [snd] in Hsz.
  destruct (IsSpace r) eqn:Er; cbn [negb]; [|done].
  destruct (decide (i - size = 0)%nat) as [Hz|Hz].
  - exfalso. assert (size = String.length u) as -> by lia.
    pose proof (DecodeLastRuneInString_whole u r Ed Er) as Hd.
    destruct (substring_0_prefix i t ltac:(lia)) as (rest&E&_). fold u in E.
    rewrite E, (DecodeRuneInString_prefix u rest r Hd Er) in Ht. cbn [fst] in Ht.
    congruence.
  - apply IH; lia.
Qed.

Lemma TrimRightFunc_start (t : string) :
  t <> EmptyString -> IsSpace (DecodeRuneInString t).1 = false ->
  TrimRightFunc t IsSpace <> EmptyString.
Proof.
  intros Hne Ht.
  assert (Hl : (0 < String.length t)%nat) by (destruct t; [done|cbn; lia]).
  assert (Hsub : forall n : nat, (0 < n)%nat -> substring 0 n t <> EmptyString).
  { intros [|n] Hn; [lia|]. by destruct t. }
  unfold TrimRightFunc, lastIndexFunc.
  destruct (lastIndexFrom _ _ _ _) as [i|] eqn:E;
    [|by destruct (lastIndexFrom_found t Ht (String.length t) (String.length t))].
  apply Hsub. destruct (_ <=? _); [|lia].
  destruct i as [|i]; [|lia].
  rewrite Nat.sub_0_r, substring_0_all.
  pose proof (DecodeRuneInString_size t Hne). lia.
Qed.

(** [strings.TrimSpace] leaves nothing exactly of the strings whose runes
    are all white space. *)
Lemma TrimSpace_blank (s : string) :
  TrimSpace s = EmptyString <-> blank s = true.
Proof.
  unfold TrimSpace, TrimFunc, TrimLeftFunc, blank, runes.
  rewrite <- trimLeftFrom_blank. split.
  - intros H. destruct (trimLeftFrom IsSpace 0 s) as [|c t] eqn:E; [done|].
    exfalso. revert H. apply TrimRightFunc_start; [done|].
    by apply (trimLeftFrom_start s 0%nat).
  - intros ->. reflexivity.
Qed.

(** X15. The errors of [verifyPruneOptions].  The call never alters the four
    flags; a call that returns an error leaves [maxUnusedBytes] as it was;
    a non-empty [--max-repack-size] that [parseSizeStr] refuses ends the call
    with that very error and the options unchanged; otherwise
    [MaxRepackBytes] is set from the parsed size (or left alone for the empty
    string), also when the call then fails on [--max-unused], and the error
    [invalid value for --max-unused] is returned exactly when [--max-unused]
    is empty or holds white space only: every rune of it, read as UTF-8, is
    white space for Unicode. *)
Theorem verifyPruneOptions_errors
    (parseNumber : string -> spec_float * option error)
    (parseSizeStr : string -> Z * option error)
    (uint64OutOfRange : spec_float -> Z) (opts : PruneOptions) :
  let r := verifyPruneOptions parseNumber parseSizeStr uint64OutOfRange opts in
  let invalid := Fatalf "invalid value for --max-unused: %q" [MaxUnused opts] in
  (DryRun r.1 = DryRun opts /\ MaxUnused r.1 = MaxUnused opts
   /\ MaxRepackSize r.1 = MaxRepackSize opts
   /\ RepackCachableOnly r.1 = RepackCachableOnly opts)
  /\ (r.2 <> None -> maxUnusedBytes r.1 = maxUnusedBytes opts)
  /\ (forall size err,
        MaxRepackSize opts <> EmptyString ->
        parseSizeStr (MaxRepackSize opts) = (size, Some err) ->
        r = (opts, Some err))
  /\ (MaxRepackSize opts = EmptyString ->
        MaxRepackBytes r.1 = MaxRepackBytes opts
        /\ (r.2 = Some invalid <-> blank (MaxUnused opts) = true))
  /\ (forall size,
        MaxRepackSize opts <> EmptyString ->
        parseSizeStr (MaxRepackSize opts) = (size, None) ->
        MaxRepackBytes r.1 = wrap64 size
        /\ (r.2 = Some invalid <-> blank (MaxUnused opts) = true)).
Proof.
  intros r invalid.
  assert (Hlen : forall s, (0 <? String.length s)%nat = false <-> s = EmptyString).
  { intros [|c s]; cbn; split; done. }
  assert (Hrest : forall o : PruneOptions,
            MaxUnused o = MaxUnused opts ->
            forall q : PruneOptions * option error,
            q = (let maxUnused := TrimSpace (MaxUnused o) in
                 if String.eqb maxUnused EmptyString then
                   (o, Some (Fatalf "invalid value for --max-unused: %q" [MaxUnused o]))
                 else if String.eqb maxUnused "unlimited" then
                   (set_maxUnusedBytes (fun used => MaxUint64) o, None)
                 else if HasSuffix maxUnused "%" then
                   let maxUnused := TrimSuffix maxUnused "%" in
                   match ParseFloat parseNumber maxUnused with
                   | (_, Some err) =>
                       (o, Some (Fatalf "invalid percentage %q passed for --max-unused: %v"
                                   [MaxUnused o; errorText err]))
                   | (p, None) =>
                       if SFltb p (float64_of_Z 0) then
                         (o, Some (Fatal "percentage for --max-unused must be positive"))
                       else if SFleb (float64_of_Z 100) p then
                         (o, Some (Fatal "percentage for --max-unused must be below 100%"))
                       else
                         (set_maxUnusedBytes (percentageOfUsed uint64OutOfRange p) o, None)
                   end
                 else
                   match parseSizeStr maxUnused with
                   | (_, Some err) =>
                       (o, Some (Fatalf "invalid number of bytes %q for --max-unused: %v"
                                   [MaxUnused o; errorText err]))
                   | (size, None) => (set_maxUnusedBytes (fun used => wrap64 size) o, None)
                   end) ->
            (DryRun q.1 = DryRun o /\ MaxUnused q.1 = MaxUnused o
             /\ MaxRepackSize q.1 = MaxRepackSize o
             /\ RepackCachableOnly q.1 = RepackCachableOnly o
             /\ MaxRepackBytes q.1 = MaxRepackBytes o)
            /\ (q.2 <> None -> maxUnusedBytes q.1 = maxUnusedBytes o)
            /\ (q.2 = Some invalid <-> blank (MaxUnused opts) = true)).
  { intros o Ho q ->. cbv zeta. subst invalid.
    rewrite <- TrimSpace_blank, <- !Ho. clear Ho.
    destruct (String.eqb_spec (TrimSpace (MaxUnused o)) EmptyString) as [E|E].
    { destruct o; cbn. done. }
    assert (Hno : forall x : option error,
              x <> Some (Fatalf "invalid value for --max-unused: %q" [MaxUnused o]) ->
              x = Some (Fatalf "invalid value for --max-unused: %q" [MaxUnused o])
              <-> TrimSpace (MaxUnused o) = EmptyString)
      by (intros x Hx; split; done).
    destruct (String.eqb _ "unlimited").
    { destruct o; cbn. split; [done|]. split; [done|]. by apply Hno. }
    destruct (HasSuffix _ _).
    - destruct (ParseFloat _ _) as [p [err|]].
      { destruct o; cbn. split; [done|]. split; [done|]. by apply Hno. }
      destruct (SFltb _ _).
      { destruct o; cbn. split; [done|]. split; [done|]. by apply Hno. }
      destruct (SFleb _ _); destruct o; cbn; (split; [done|]); (split; [done|]);
        by apply Hno.
    - destruct (parseSizeStr _) as [size [err|]]; destruct o; cbn;
        (split; [done|]); (split; [done|]); by apply Hno. }
  subst r. unfold verifyPruneOptions.
  destruct (0 <? String.length (MaxRepackSize opts))%nat eqn:El.
  - assert (Hne : MaxRepackSize opts <> EmptyString).
    { intros E. apply Hlen in E. congruence. }
    destruct (parseSizeStr (MaxRepackSize opts)) as [size [err|]] eqn:Ep.
    + cbn. repeat split; try done.
      * intros ? ? _ [= -> ->]. done.
    + destruct (Hrest (set_MaxRepackBytes (wrap64 size) opts)
                  ltac:(by destruct opts) _ eq_refl) as ((H1 & H2 & H3 & H4 & H5) & H6 & H7).
      cbv zeta in *.
      split; [|split; [|split; [|split]]].
      * rewrite H1, H2, H3, H4. by destruct opts.
      * intros H. rewrite (H6 H). by destruct opts.
      * intros ? ? _ [=].
      * done.
      * intros ? _ [= <-]. split; [|done]. rewrite H5. by destruct opts.
  - apply Hlen in El.
    destruct (Hrest opts eq_refl _ eq_refl) as ((H1 & H2 & H3 & H4 & H5) & H6 & H7).
    cbv zeta in *.
    split; [|split; [|split; [|split]]]; try done.
Qed.

(** For X15: [--max-unused] with a no-break space (U+00A0, the bytes C2 A0)
    and a tabulator only is refused as an invalid value, and
    [--max-repack-size 30] is recorded before that. *)
Lemma verifyPruneOptions_errors_witness :
  let nbsp := String (ascii_of_nat 194) (String (ascii_of_nat 160) (String (ascii_of_nat 9) EmptyString)) in
  let opts := mkPruneOptions false nbsp (fun _ => 0) "30" 0 false in
  let r := verifyPruneOptions sampleParseNumber sampleParseSizeStr sampleOutOfRange opts in
  blank nbsp = true
  /\ r.2 = Some (Fatalf "invalid value for --max-unused: %q" [nbsp])
  /\ MaxRepackBytes r.1 = 30.
Proof.
  intros nbsp opts r.
  destruct (verifyPruneOptions_errors sampleParseNumber sampleParseSizeStr
              sampleOutOfRange opts) as (_&_&_&_&H).
  destruct (H 30 ltac:(discriminate) ltac:(reflexivity)) as [Hb Hi].
  split; [reflexivity|]. split; [|exact Hb].
  apply Hi. reflexivity.
Defined.
